(** * TypeAttack leaderboard pipeline: submission integrity and consolidation

    A shallow embedding of the Python scripts under [scripts/]:
    - [validate_session.py]: canonical projection of a session, its SHA-256
      digest, and the submission validator;
    - [generate_static.py]: atomic JSON writes, leaderboard and feedback merge;
    - [moderate_scores.py]: deletion of a score and re-ranking.

    Python values are the values [json.load] produces.  A [str] is held as
    the bytes of its UTF-8 encoding (byte order and code-point order agree on
    UTF-8, so comparisons are the same); a [dict] is a [gmap] keyed by
    strings (every serialisation in the scripts sorts the keys, so insertion
    order is never observed); [bool] is a subclass of [int], as in Python.
    IEEE floats are not part of the value universe: numbers are the
    integers.  An exception is an explicit [Raise] result; the clock and the
    file system are explicit arguments. *)

From Stdlib Require Import ZArith NArith String Ascii List Lia DecimalString OrdersEx.
From stdpp Require Import gmap strings list fin_maps sorting.

Set Warnings "-register-all".

Local Open Scope string_scope.
Local Open Scope list_scope.
Local Open Scope Z_scope.

(** ** Python values and exceptions *)

Inductive pyval : Type :=
  | PNone
  | PBool (b : bool)
  | PInt (n : Z)
  | PStr (s : string)
  | PList (l : list pyval)
  | PDict (d : gmap string pyval).

Inductive exn : Type :=
  | AttributeError   (* [.get] on a value that is not a dict *)
  | TypeError.       (* unorderable or unhashable operand, wrong operand type *)

Inductive res (A : Type) : Type :=
  | Ok (a : A)
  | Raise (e : exn).
Arguments Ok {A} a.
Arguments Raise {A} e.

#[global] Instance res_ret : MRet res := λ A, Ok.
#[global] Instance res_bind : MBind res :=
  λ A B f m, match m with Ok a => f a | Raise e => Raise e end.

#[global] Instance res_fmap : FMap res :=
  λ A B f m, match m with Ok a => Ok (f a) | Raise e => Raise e end.

Definition is_ok {A} (r : res A) : bool :=
  match r with Ok _ => true | Raise _ => false end.

(** [bool(v)]: Python truthiness. *)
Definition truthy (v : pyval) : bool :=
  match v with
  | PNone => false
  | PBool b => b
  | PInt n => negb (n =? 0)
  | PStr s => negb (String.eqb s EmptyString)
  | PList l => match l with [] => false | _ :: _ => true end
  | PDict d => negb (Nat.eqb (size d) 0)
  end.

(** [d.get(k)] and [d.get(k, dflt)] on a dict. *)
Definition dict_get (d : gmap string pyval) (k : string) (dflt : pyval) : pyval :=
  default dflt (d !! k).

(** [v.get(k, dflt)] on an arbitrary value: only dicts have the method. *)
Definition py_get (v : pyval) (k : string) (dflt : pyval) : res pyval :=
  match v with
  | PDict d => Ok (dict_get d k dflt)
  | _ => Raise AttributeError
  end.

(** The integer a [bool] or [int] stands for. *)
Definition as_int (v : pyval) : option Z :=
  match v with
  | PBool b => Some (if b then 1 else 0)
  | PInt n => Some n
  | _ => None
  end.

(** [isinstance(v, (int, float))] *)
Definition is_number (v : pyval) : bool :=
  match as_int v with Some _ => true | None => false end.

(** Unary minus. *)
Definition py_neg (v : pyval) : res pyval :=
  match as_int v with
  | Some n => Ok (PInt (- n))
  | None => Raise TypeError
  end.

(** [a == b] *)
Fixpoint py_eq (a b : pyval) : bool :=
  match a, b with
  | PNone, PNone => true
  | PBool x, PBool y => Bool.eqb x y
  | PBool x, PInt n => (if x then 1 else 0) =? n
  | PInt n, PBool y => n =? (if y then 1 else 0)
  | PInt n, PInt m => n =? m
  | PStr s, PStr t => String.eqb s t
  | PList la, PList lb =>
      (fix go (la lb : list pyval) : bool :=
         match la, lb with
         | [], [] => true
         | x :: la', y :: lb' => py_eq x y && go la' lb'
         | _, _ => false
         end) la lb
  | PDict da, PDict db =>
      Nat.eqb (size da) (size db) &&
      map_fold (λ k v acc,
                  acc && match db !! k with
                         | Some w => py_eq v w
                         | None => false
                         end) true da
  | _, _ => false
  end.

(** [a < b]: numbers by value, strings by code point, lists
    lexicographically; anything else is not orderable. *)
Fixpoint py_lt (a b : pyval) : res bool :=
  match a, b with
  | PBool x, PBool y => Ok ((if x then 1 else 0) <? (if y then 1 else 0))
  | PBool x, PInt n => Ok ((if x then 1 else 0) <? n)
  | PInt n, PBool y => Ok (n <? (if y then 1 else 0))
  | PInt n, PInt m => Ok (n <? m)
  | PStr s, PStr t => Ok (String.ltb s t)
  | PList la, PList lb =>
      (fix go (la lb : list pyval) : res bool :=
         match la, lb with
         | [], [] => Ok false
         | [], _ :: _ => Ok true
         | _ :: _, [] => Ok false
         | x :: la', y :: lb' => if py_eq x y then go la' lb' else py_lt x y
         end) la lb
  | _, _ => Raise TypeError
  end.

(** Comparison of the 2-tuples used as sort keys: the first position where
    the tuples differ (by [==]) decides. *)
Definition tuple_lt (k1 k2 : pyval * pyval) : res bool :=
  if py_eq k1.1 k2.1 then
    if py_eq k1.2 k2.2 then Ok false else py_lt k1.2 k2.2
  else py_lt k1.1 k2.1.

(** [hash(v)] succeeds on the scalars; lists and dicts are unhashable. *)
Definition hashable (v : pyval) : bool :=
  match v with
  | PList _ | PDict _ => false
  | _ => true
  end.

(** [v in seen] for a [set] whose members are listed in [seen]. *)
Definition set_contains (seen : list pyval) (v : pyval) : res bool :=
  if hashable v then Ok (existsb (py_eq v) seen) else Raise TypeError.

(** ** Sorting

    [sorted] and [list.sort] are stable and only use [<].  The insertion
    sort below is stable; it raises when one of the comparisons it performs
    raises.  (CPython's merge sort may perform other comparisons, which only
    matters for lists holding values of unorderable types.) *)

Section Sorting.
Context {A : Type} (lt : A → A → res bool).

Fixpoint insert_by (x : A) (l : list A) : res (list A) :=
  match l with
  | [] => Ok [x]
  | y :: l' =>
      b ← lt y x;
      if b : bool then r ← insert_by x l'; Ok (y :: r)
      else Ok (x :: y :: l')
  end.

Fixpoint sort_by (l : list A) : res (list A) :=
  match l with
  | [] => Ok []
  | x :: l' => s ← sort_by l'; insert_by x s
  end.
End Sorting.

(** [sorted(l)] *)
Definition sorted (l : list pyval) : res (list pyval) := sort_by py_lt l.

(** [l.sort(key=f)]: the keys are computed first, in order. *)
Definition sort_with_key (f : pyval → res (pyval * pyval)) (l : list pyval)
  : res (list pyval) :=
  keyed ← mapM (λ x, k ← f x; Ok (k, x)) l;
  s ← sort_by (λ a b, tuple_lt a.1 b.1) keyed;
  Ok (s.*2).

(** [l[:n]], with Python's reading of a negative bound. *)
Definition slice_to (n : Z) (l : list pyval) : list pyval :=
  if n <? 0 then take (Z.to_nat (Z.of_nat (length l) + n)) l
  else take (Z.to_nat n) l.

(** [for i, score in enumerate(l, start): score['rank'] = i].  The list
    holds distinct objects where it is used (entries with distinct hashes
    after de-duplication, entries as [json.load] built them), so assigning in
    place is a map over the list. *)
Fixpoint assign_ranks (start : Z) (l : list pyval) : res (list pyval) :=
  match l with
  | [] => Ok []
  | PDict d :: l' =>
      r ← assign_ranks (start + 1) l';
      Ok (PDict (<["rank" := PInt start]> d) :: r)
  | _ :: _ => Raise TypeError
  end.

(** ** Strings

    The code points of a [str], decoded from its UTF-8 bytes. *)

Local Open Scope N_scope.

Definition is_continuation (b : N) : bool := (0x80 <=? b) && (b <? 0xC0).

Definition lead_payload (b : N) : N :=
  if b <? 0x80 then b
  else if b <? 0xE0 then N.land b 0x1F
  else if b <? 0xF0 then N.land b 0x0F
  else N.land b 0x07.

Definition flush (acc : option N) : list N :=
  match acc with Some c => [c] | None => [] end.

Fixpoint decode_from (acc : option N) (s : string) : list N :=
  match s with
  | EmptyString => flush acc
  | String a s' =>
      let b := N_of_ascii a in
      if is_continuation b then
        decode_from (Some (N.lor (N.shiftl (default 0 acc) 6) (N.land b 0x3F))) s'
      else flush acc ++ decode_from (Some (lead_payload b)) s'
  end.

Definition codepoints (s : string) : list N := decode_from None s.

(** [len(s)] counts code points. *)
Definition py_len (s : string) : nat := length (codepoints s).

Local Close Scope N_scope.

(** [s.lower()] on the ASCII letters.  It is only used before matching
    against a pattern of ASCII hexadecimal digits and hyphens, and no
    character outside ASCII lower-cases to one of those, so leaving the other
    bytes alone gives the same match. *)
Definition ascii_lower (a : ascii) : ascii :=
  let n := N_of_ascii a in
  if ((65 <=? n) && (n <=? 90))%N then ascii_of_N (n + 32) else a.

Fixpoint lower (s : string) : string :=
  match s with
  | EmptyString => EmptyString
  | String a s' => String (ascii_lower a) (lower s')
  end.

(** [str(n)] for an integer, also the JSON rendering of an [int]. *)
Definition str_of_int (n : Z) : string := NilZero.string_of_int (Z.to_int n).

(** [', '.join]-style concatenation with a separator. *)
Fixpoint join (sep : string) (l : list string) : string :=
  match l with
  | [] => EmptyString
  | [s] => s
  | s :: l' => s +:+ sep +:+ join sep l'
  end.

(** Case classes of the Unicode database: ASCII is fixed here, the classes
    of the other code points are those of the table the interpreter ships,
    taken as [ucd]. *)
Inductive charcase : Type := Upper | Lower | Title | Uncased.

Definition case_of (ucd : N → charcase) (c : N) : charcase :=
  if ((65 <=? c) && (c <=? 90))%N then Upper
  else if ((97 <=? c) && (c <=? 122))%N then Lower
  else if (c <? 128)%N then Uncased
  else ucd c.

(** [s.isupper()]: no lower-case or title-case character, and at least one
    upper-case character. *)
Definition isupper (ucd : N → charcase) (s : string) : bool :=
  forallb (λ c, match case_of ucd c with Lower | Title => false | _ => true end)
          (codepoints s)
  && existsb (λ c, match case_of ucd c with Upper => true | _ => false end)
             (codepoints s).

(** ** SHA-256 (FIPS 180-4), on 32-bit words held in [Z] *)

Module SHA256.

Definition wrap (x : Z) : Z := x mod 2 ^ 32.
Definition add (x y : Z) : Z := wrap (x + y).
Definition rotr (n x : Z) : Z :=
  Z.lor (Z.shiftr x n) (wrap (Z.shiftl x (32 - n))).
Definition comp (x : Z) : Z := Z.lxor x 0xFFFFFFFF.

Definition Ch (x y z : Z) : Z := Z.lxor (Z.land x y) (Z.land (comp x) z).
Definition Maj (x y z : Z) : Z :=
  Z.lxor (Z.lxor (Z.land x y) (Z.land x z)) (Z.land y z).
Definition Sigma0 (x : Z) : Z :=
  Z.lxor (Z.lxor (rotr 2 x) (rotr 13 x)) (rotr 22 x).
Definition Sigma1 (x : Z) : Z :=
  Z.lxor (Z.lxor (rotr 6 x) (rotr 11 x)) (rotr 25 x).
Definition sigma0 (x : Z) : Z :=
  Z.lxor (Z.lxor (rotr 7 x) (rotr 18 x)) (Z.shiftr x 3).
Definition sigma1 (x : Z) : Z :=
  Z.lxor (Z.lxor (rotr 17 x) (rotr 19 x)) (Z.shiftr x 10).

(** The constants are the first 32 bits of the fractional parts of the cube
    roots (for [K]) and square roots (for [H0]) of the first primes. *)
Definition is_prime (n : Z) : bool :=
  forallb (λ d, negb (n mod d =? 0)) (seqZ 2 (n - 2)).

Definition primes : list Z := filter (λ n, is_prime n = true) (seqZ 2 310).

(** The integer cube root, one bit at a time from bit 40 down. *)
Definition cube_root (n : Z) : Z :=
  fold_left (λ r b, let r' := r + 2 ^ b in if r' * r' * r' <=? n then r' else r)
            (reverse (seqZ 0 41)) 0.

Definition K : list Z :=
  Eval vm_compute in map (λ p, wrap (cube_root (Z.shiftl p 96))) primes.

Definition H0 : list Z :=
  Eval vm_compute in map (λ p, wrap (Z.sqrt (Z.shiftl p 64))) (take 8 primes).

Definition bytes_of (s : string) : list Z :=
  map (λ a, Z.of_N (N_of_ascii a)) (list_ascii_of_string s).

(** The message, a 1 bit, zeros up to 56 mod 64, the bit length on 8 bytes. *)
Definition pad (msg : list Z) : list Z :=
  let len := Z.of_nat (length msg) in
  let bits := 8 * len in
  msg ++ [0x80] ++ replicate (Z.to_nat ((55 - len) mod 64)) 0
      ++ map (λ i, Z.shiftr bits (8 * i) mod 256) [7; 6; 5; 4; 3; 2; 1; 0].

Fixpoint words (bs : list Z) : list Z :=
  match bs with
  | a :: b :: c :: d :: rest =>
      Z.lor (Z.lor (Z.shiftl a 24) (Z.shiftl b 16)) (Z.lor (Z.shiftl c 8) d)
      :: words rest
  | _ => []
  end.

Fixpoint blocks (n : nat) (ws : list Z) : list (list Z) :=
  match n with
  | O => []
  | S n' => take 16 ws :: blocks n' (drop 16 ws)
  end.

Definition at_ (ws : list Z) (i : nat) : Z := nth i ws 0.

(** The message schedule: 16 words of the block, then 48 derived words. *)
Fixpoint extend (n : nat) (ws : list Z) : list Z :=
  match n with
  | O => ws
  | S n' =>
      let t := length ws in
      extend n' (ws ++ [add (add (sigma1 (at_ ws (t - 2))) (at_ ws (t - 7)))
                            (add (sigma0 (at_ ws (t - 15))) (at_ ws (t - 16)))])
  end.

Definition round (st : list Z) (kw : Z * Z) : list Z :=
  match st with
  | [a; b; c; d; e; f; g; h] =>
      let t1 := add (add (add h (Sigma1 e)) (add (Ch e f g) kw.1)) kw.2 in
      let t2 := add (Sigma0 a) (Maj a b c) in
      [add t1 t2; a; b; c; add d t1; e; f; g]
  | _ => st
  end.

Definition compress (st : list Z) (block : list Z) : list Z :=
  zip_with add st (fold_left round (zip K (extend 48 block)) st).

Definition digest (msg : list Z) : list Z :=
  let ws := words (pad msg) in
  fold_left compress (blocks (length ws / 16) ws) H0.

Definition hex_digit (n : Z) : ascii :=
  if n <? 10 then ascii_of_N (Z.to_N (48 + n)) else ascii_of_N (Z.to_N (87 + n)).

Definition hex_word (w : Z) : string :=
  string_of_list_ascii
    (map (λ i, hex_digit (Z.shiftr w (4 * i) mod 16)) [7; 6; 5; 4; 3; 2; 1; 0]).

(** [hashlib.sha256(bytes).hexdigest()] *)
Definition hexdigest (s : string) : string :=
  String.concat EmptyString (map hex_word (digest (bytes_of s))).

End SHA256.

(** ** [json.dumps(v, separators=(',', ':'), sort_keys=True)]

    The default [ensure_ascii=True] escapes every character outside the
    printable ASCII range, so the text is ASCII and its UTF-8 encoding is
    the text itself. *)

Module Json.

Definition quote : string := String "034" EmptyString.
Definition backslash : string := String "092" EmptyString.

Definition hex4 (c : N) : string :=
  string_of_list_ascii
    (map (λ i, SHA256.hex_digit (Z.shiftr (Z.of_N c) (4 * i) mod 16)) [3; 2; 1; 0]).

Definition escape (c : N) : string :=
  (if c =? 34 then backslash +:+ quote
   else if c =? 92 then backslash +:+ backslash
   else if c =? 10 then backslash +:+ "n"
   else if c =? 13 then backslash +:+ "r"
   else if c =? 9 then backslash +:+ "t"
   else if c =? 12 then backslash +:+ "f"
   else if c =? 8 then backslash +:+ "b"
   else if (32 <=? c) && (c <=? 126) then String (ascii_of_N c) EmptyString
   else if c <? 0x10000 then backslash +:+ "u" +:+ hex4 c
   else
     let n := c - 0x10000 in
     backslash +:+ "u" +:+ hex4 (N.lor 0xD800 (N.shiftr n 10)) +:+
     backslash +:+ "u" +:+ hex4 (N.lor 0xDC00 (N.land n 0x3FF)))%N.

Definition dumps_str (s : string) : string :=
  quote +:+ String.concat EmptyString (map escape (codepoints s)) +:+ quote.

(** The items of a dict in ascending key order. *)
Fixpoint insert_item {B} (kv : string * B) (l : list (string * B))
  : list (string * B) :=
  match l with
  | [] => [kv]
  | kv' :: l' =>
      if String.ltb kv'.1 kv.1 then kv' :: insert_item kv l'
      else kv :: kv' :: l'
  end.

Definition sort_items {B} (l : list (string * B)) : list (string * B) :=
  foldr insert_item [] l.

Fixpoint dumps (v : pyval) : string :=
  match v with
  | PNone => "null"
  | PBool true => "true"
  | PBool false => "false"
  | PInt n => str_of_int n
  | PStr s => dumps_str s
  | PList l => "[" +:+ join "," (map dumps l) +:+ "]"
  | PDict d =>
      "{" +:+
      join "," (map (λ kv : string * string, dumps_str kv.1 +:+ ":" +:+ kv.2)
                    (sort_items
                       (map_fold (λ k x acc, (k, dumps x) :: acc) [] d)))
      +:+ "}"
  end.

End Json.

(** ** validate_session.py *)

Definition dict_of (l : list (string * pyval)) : gmap string pyval :=
  list_to_map l.

(** [[w.get('text', '') for w in words if w.get('text')]] *)
Fixpoint word_texts (words : list pyval) : res (list pyval) :=
  match words with
  | [] => Ok []
  | w :: rest =>
      c ← py_get w "text" PNone;
      if truthy c then
        t ← py_get w "text" (PStr EmptyString);
        r ← word_texts rest;
        Ok (t :: r)
      else word_texts rest
  end.

(** The projection of one keystroke. *)
Definition keystroke_fields (k : pyval) : res pyval :=
  key ← py_get k "key" PNone;
  timestamp ← py_get k "timestamp" PNone;
  wordIndex ← py_get k "wordIndex" PNone;
  Ok (PDict (dict_of [("key", key); ("timestamp", timestamp);
                      ("wordIndex", wordIndex)])).

Definition extract_deterministic_data (session_data : pyval) : res pyval :=
  seed ← py_get session_data "seed" PNone;
  stage ← py_get session_data "stage" PNone;
  let deterministic :=
    dict_of [("seed", seed); ("stage", stage);
             ("words", PList []); ("keystrokes", PList [])] in
  words ← py_get session_data "words" (PList []);
  deterministic ←
    match words with
    | PList ws =>
        texts ← word_texts ws;
        s ← sorted texts;
        Ok (<["words" := PList s]> deterministic)
    | _ => Ok deterministic
    end;
  keystrokes ← py_get session_data "keystrokes" (PList []);
  deterministic ←
    match keystrokes with
    | PList ks =>
        proj ← mapM keystroke_fields ks;
        Ok (<["keystrokes" := PList proj]> deterministic)
    | _ => Ok deterministic
    end;
  Ok (PDict deterministic).

Definition calculate_hash (session_data : pyval) : res string :=
  deterministic_data ← extract_deterministic_data session_data;
  let json_string := Json.dumps deterministic_data in
  Ok (SHA256.hexdigest json_string).

(** The digest is lower-case hexadecimal, and no character outside ASCII
    lower-cases to a hexadecimal digit, so [lower] decides the comparison. *)
Definition verify_hash (session_data : pyval) (expected_hash : pyval) : bool :=
  match expected_hash with
  | PStr e =>
      if String.eqb e EmptyString then false
      else match calculate_hash session_data with
           | Ok calculated_hash => String.eqb (lower calculated_hash) (lower e)
           | Raise _ => false
           end
  | _ => false
  end.

(** [str(v)] inside an f-string, for the values the messages interpolate. *)
Definition py_str (v : pyval) : string :=
  match v with
  | PBool true => "True"
  | PBool false => "False"
  | PInt n => str_of_int n
  | _ => EmptyString
  end.

Definition index_str (i : nat) : string := str_of_int (Z.of_nat i).

Definition missing_field (d : gmap string pyval) (field : string) : list string :=
  match d !! field with
  | Some _ => []
  | None => ["Missing required field: " +:+ field]
  end.

Definition word_errors (i : nat) (word : pyval) : list string :=
  match word with
  | PDict w =>
      if truthy (dict_get w "text" PNone) then []
      else ["Word " +:+ index_str i +:+ " missing text field"]
  | _ => ["Word " +:+ index_str i +:+ " must be an object"]
  end.

Definition is_none (v : pyval) : bool :=
  match v with PNone => true | _ => false end.

Definition keystroke_errors (i : nat) (keystroke : pyval) : list string :=
  match keystroke with
  | PDict k =>
      (if truthy (dict_get k "key" PNone) then []
       else ["Keystroke " +:+ index_str i +:+ " missing key field"])
      ++ (if is_none (dict_get k "timestamp" PNone)
          then ["Keystroke " +:+ index_str i +:+ " missing timestamp"] else [])
      ++ (if is_none (dict_get k "wordIndex" PNone)
          then ["Keystroke " +:+ index_str i +:+ " missing wordIndex"] else [])
  | _ => ["Keystroke " +:+ index_str i +:+ " must be an object"]
  end.

(** The checks on one optional statistic, bounded by [hi]. *)
Definition stat_errors (v : pyval) (not_number : string)
    (out_of_range : string → string) (hi : Z) : list string :=
  match v with
  | PNone => []
  | _ => match as_int v with
         | None => [not_number]
         | Some n => if (n <? 0) || (hi <? n) then [out_of_range (py_str v)] else []
         end
  end.

Definition validate_session_data (session_data : pyval)
  : res (bool * list string) :=
  match session_data with
  | PDict d =>
      let errors :=
        concat (map (missing_field d) ["seed"; "stage"; "words"; "keystrokes"]) in
      let seed := dict_get d "seed" PNone in
      let errors :=
        errors ++ (if negb (is_none seed) && negb (is_number seed)
                   then ["Seed must be a number"] else []) in
      let stage := dict_get d "stage" PNone in
      let errors :=
        errors ++ match stage with
                  | PNone => []
                  | _ => match as_int stage with
                         | None => ["Stage must be a number"]
                         | Some n => if n <? 1 then ["Stage must be at least 1"] else []
                         end
                  end in
      let errors :=
        errors ++ match dict_get d "words" PNone with
                  | PNone => []
                  | PList [] => ["Words array cannot be empty"]
                  | PList words => concat (imap word_errors words)
                  | _ => ["Words must be an array"]
                  end in
      let errors :=
        errors ++ match dict_get d "keystrokes" PNone with
                  | PNone => []
                  | PList [] => ["Keystrokes array cannot be empty"]
                  | PList keystrokes => concat (imap keystroke_errors keystrokes)
                  | _ => ["Keystrokes must be an array"]
                  end in
      let stats := dict_get d "stats" PNone in
      errors ←
        (if truthy stats then
           wpm ← py_get stats "wpm" PNone;
           accuracy ← py_get stats "accuracy" PNone;
           Ok (errors
               ++ stat_errors wpm "WPM must be a number"
                    (λ w, "WPM " +:+ w +:+ " is outside reasonable range (0-300)") 300
               ++ stat_errors accuracy "Accuracy must be a number"
                    (λ a, "Accuracy " +:+ a +:+ " must be between 0 and 100") 100)
         else Ok errors);
      Ok (Nat.eqb (length errors) 0, errors)
  | PList _ | PStr _ => Raise AttributeError   (* [in] works, [.get] does not *)
  | _ => Raise TypeError                       (* [field not in session_data] *)
  end.

(** The pattern
    [^[0-9a-f]{8}-[0-9a-f]{4}-4[0-9a-f]{3}-[89ab][0-9a-f]{3}-[0-9a-f]{12}$] *)
Inductive uuid_class : Type := Hex | Dash | Four | Variant.

Definition in_class (c : uuid_class) (a : ascii) : bool :=
  let n := N_of_ascii a in
  match c with
  | Hex => ((48 <=? n) && (n <=? 57) || (97 <=? n) && (n <=? 102))%N
  | Dash => (n =? 45)%N
  | Four => (n =? 52)%N
  | Variant => ((n =? 56) || (n =? 57) || (n =? 97) || (n =? 98))%N
  end.

Definition uuid4_pattern : list uuid_class :=
  replicate 8 Hex ++ [Dash] ++ replicate 4 Hex ++ [Dash; Four] ++ replicate 3 Hex
  ++ [Dash; Variant] ++ replicate 3 Hex ++ [Dash] ++ replicate 12 Hex.

Fixpoint match_classes (p : list uuid_class) (s : string) : option string :=
  match p with
  | [] => Some s
  | c :: p' =>
      match s with
      | String a s' => if in_class c a then match_classes p' s' else None
      | EmptyString => None
      end
  end.

(** [re.match]: [$] also matches just before a newline that ends the string. *)
Definition re_match_uuid4 (s : string) : bool :=
  match match_classes uuid4_pattern s with
  | Some rest =>
      String.eqb rest EmptyString || String.eqb rest (String "010" EmptyString)
  | None => false
  end.

Definition is_valid_uuid (uuid_string : pyval) : bool :=
  match uuid_string with
  | PStr u => negb (String.eqb u EmptyString) && re_match_uuid4 (lower u)
  | _ => false
  end.

Section Validator.
(** The case classes of the non-ASCII code points. *)
Variable ucd : N → charcase.

Definition validate_submission (submission : pyval)
  : res (bool * list string) :=
  session_data ← py_get submission "sessionData" PNone;
  session_hash ← py_get submission "sessionHash" PNone;
  if negb (truthy session_data) then Ok (false, ["Missing sessionData"])
  else if negb (truthy session_hash) then Ok (false, ["Missing sessionHash"])
  else
    '(is_valid, data_errors) ← validate_session_data session_data;
    let errors := data_errors in
    let errors :=
      errors ++ (if (is_valid : bool) && negb (verify_hash session_data session_hash)
                 then ["Session hash does not match session data"] else []) in
    userId ← py_get submission "userId" PNone;
    let errors :=
      errors ++ (if negb (truthy userId) then ["Missing userId"]
                 else if negb (is_valid_uuid userId)
                      then ["Invalid userId format (must be UUIDv4)"] else []) in
    initials ← py_get submission "initials" PNone;
    let errors :=
      errors ++ (if negb (truthy initials) then ["Missing initials"]
                 else match initials with
                      | PStr i =>
                          if negb (Nat.eqb (py_len i) 3) || negb (isupper ucd i)
                          then ["Initials must be exactly 3 uppercase letters"]
                          else []
                      | _ => ["Initials must be exactly 3 uppercase letters"]
                      end) in
    Ok (Nat.eqb (length errors) 0, errors).
End Validator.

(** ** generate_static.py

    A file is modelled by the JSON document it holds: [json.load] of what
    [json.dump] wrote gives the value back.  A file holding anything else
    (an empty or partly written file, text that does not parse) is
    [Garbled]. *)

Inductive file : Type :=
  | JsonFile (v : pyval)
  | Garbled.

(** What the operating system does during one call of [atomic_write_json]:
    the name [tempfile] picks, the step that raises (if any), and whether
    [os.remove] in the handler raises. *)
Inductive fault : Type :=
  | NoFault
  | MakedirsFails      (* [ensure_directory_exists] raises *)
  | TempfileFails      (* [NamedTemporaryFile] cannot create the file *)
  | DumpFails          (* [json.dump] raises: a write fails, or a value
                          cannot be serialised *)
  | CloseFails         (* leaving the [with] block: the final flush fails *)
  | MoveFails.         (* [shutil.move] raises: the rename within the
                          directory fails, the target is not touched *)

Record io_env : Type := {
  tmp_path : string;
  fault_at : fault;
  remove_fails : bool
}.

#[global] Instance fault_eq_dec : EqDecision fault.
Proof. solve_decision. Defined.

(** How the [try] block ends: it returns, or it raises with the file system
    as it is then and with [tmp_name] bound or not. *)
Inductive outcome : Type :=
  | Returned (fs : gmap string file)
  | Raised (fs : gmap string file) (tmp_name : option string).

Definition try_block (env : io_env) (fs : gmap string file)
    (filepath : string) (data : pyval) : outcome :=
  (* ensure_directory_exists(filepath) *)
  if decide (fault_at env = MakedirsFails) then Raised fs None else
  (* with tempfile.NamedTemporaryFile(..., delete=False) as tmp_file: *)
  if decide (fault_at env = TempfileFails) then Raised fs None else
  let fs := <[tmp_path env := Garbled]> fs in
  (*     json.dump(data, tmp_file, indent=indent, sort_keys=True) *)
  if decide (fault_at env = DumpFails) then Raised fs None else
  (*     tmp_name = tmp_file.name *)
  let tmp_name := Some (tmp_path env) in
  (* leaving the block flushes and closes the file *)
  if decide (fault_at env = CloseFails) then Raised fs tmp_name else
  let fs := <[tmp_path env := JsonFile data]> fs in
  (* shutil.move(tmp_name, filepath) *)
  if decide (fault_at env = MoveFails) then Raised fs tmp_name else
  Returned (<[filepath := JsonFile data]> (delete (tmp_path env) fs)).

(** The handler:
    [if 'tmp_name' in locals() and os.path.exists(tmp_name): os.remove(tmp_name)],
    where a failing [os.remove] is swallowed. *)
Definition cleanup (env : io_env) (tmp_name : option string)
    (fs : gmap string file) : gmap string file :=
  match tmp_name with
  | Some t =>
      match fs !! t with
      | Some _ => if remove_fails env then fs else delete t fs
      | None => fs
      end
  | None => fs
  end.

Definition atomic_write_json (env : io_env) (fs : gmap string file)
    (filepath : string) (data : pyval) : gmap string file * bool :=
  match try_block env fs filepath data with
  | Returned fs' => (fs', true)
  | Raised fs' tmp_name => (cleanup env tmp_name fs', false)
  end.

Definition load_json_safe (fs : gmap string file) (filepath : string)
    (dflt : pyval) : pyval :=
  match fs !! filepath with
  | Some (JsonFile v) => v
  | Some Garbled => dflt
  | None => dflt
  end.

(** The de-duplication loop shared by both merges:
    [if key and key not in seen: seen.add(key); unique.append(x)]. *)
Fixpoint unique_by (key : pyval → res pyval) (seen : list pyval)
    (l : list pyval) : res (list pyval) :=
  match l with
  | [] => Ok []
  | x :: rest =>
      k ← key x;
      if truthy k then
        dup ← set_contains seen k;
        if dup : bool then unique_by key seen rest
        else r ← unique_by key (k :: seen) rest; Ok (x :: r)
      else unique_by key seen rest
  end.

(** [lambda s: (-s.get('wpm', 0), s.get('timestamp', 0))] *)
Definition score_key (s : pyval) : res (pyval * pyval) :=
  wpm ← py_get s "wpm" (PInt 0);
  neg_wpm ← py_neg wpm;
  timestamp ← py_get s "timestamp" (PInt 0);
  Ok (neg_wpm, timestamp).

(** [existing.get(field, []) + new] *)
Definition concat_with_existing (existing : pyval) (field : string)
    (new : list pyval) : res (list pyval) :=
  old ← py_get existing field (PList []);
  match old with
  | PList l => Ok (l ++ new)
  | _ => Raise TypeError
  end.

(** [{'version': 1, 'scores': []}] and [{'version': 1, 'items': []}] *)
Definition empty_leaderboard : pyval :=
  PDict (dict_of [("version", PInt 1); ("scores", PList [])]).

Definition empty_feedback : pyval :=
  PDict (dict_of [("version", PInt 1); ("items", PList [])]).

Definition generate_leaderboard (fs : gmap string file) (now : Z)
    (scores : list pyval) (existing_path : string) (max_scores : Z)
  : res pyval :=
  let existing := load_json_safe fs existing_path empty_leaderboard in
  all_scores ← concat_with_existing existing "scores" scores;
  unique_scores ←
    unique_by (λ score, py_get score "sessionHash" PNone) [] all_scores;
  unique_scores ← sort_with_key score_key unique_scores;
  let top_scores := slice_to max_scores unique_scores in
  top_scores ← assign_ranks 1 top_scores;
  Ok (PDict (dict_of [("version", PInt 1); ("generated", PInt now);
                      ("scores", PList top_scores)])).

(** [item.get('feedbackId') or item.get('id')] *)
Definition feedback_id (item : pyval) : res pyval :=
  a ← py_get item "feedbackId" PNone;
  if truthy a then Ok a else py_get item "id" PNone.

(** [lambda f: (-f.get('votes', 0), -f.get('timestamp', 0))] *)
Definition feedback_key (f : pyval) : res (pyval * pyval) :=
  votes ← py_get f "votes" (PInt 0);
  neg_votes ← py_neg votes;
  timestamp ← py_get f "timestamp" (PInt 0);
  neg_timestamp ← py_neg timestamp;
  Ok (neg_votes, neg_timestamp).

Definition generate_feedback (fs : gmap string file) (now : Z)
    (feedback_items : list pyval) (existing_path : string) : res pyval :=
  let existing := load_json_safe fs existing_path empty_feedback in
  all_items ← concat_with_existing existing "items" feedback_items;
  unique_items ← unique_by feedback_id [] all_items;
  unique_items ← sort_with_key feedback_key unique_items;
  Ok (PDict (dict_of [("version", PInt 1); ("generated", PInt now);
                      ("items", PList unique_items)])).

(** ** moderate_scores.py *)

(** [[score for score in scores if score.get('sessionHash') != session_hash]] *)
Fixpoint scores_without (session_hash : pyval) (scores : list pyval)
  : res (list pyval) :=
  match scores with
  | [] => Ok []
  | score :: rest =>
      h ← py_get score "sessionHash" PNone;
      r ← scores_without session_hash rest;
      if py_eq h session_hash then Ok r else Ok (score :: r)
  end.

(** The leaderboard is modified in place: the result is the new leaderboard
    and the returned flag.  When the comprehension raises, nothing has been
    assigned yet. *)
Definition delete_score_by_hash (leaderboard : gmap string pyval)
    (session_hash : pyval) : res (gmap string pyval * bool) :=
  match dict_get leaderboard "scores" (PList []) with
  | PList scores =>
      let original_count := length scores in
      kept ← scores_without session_hash scores;
      ranked ← assign_ranks 1 kept;
      Ok (<["scores" := PList ranked]> leaderboard,
          Nat.ltb (length ranked) original_count)
  | PStr s =>
      (* iterating a string yields strings, which have no [.get] *)
      if String.eqb s EmptyString
      then Ok (<["scores" := PList []]> leaderboard, false)
      else Raise AttributeError
  | PDict d =>
      (* iterating a dict yields its keys *)
      if Nat.eqb (size d) 0
      then Ok (<["scores" := PList []]> leaderboard, false)
      else Raise AttributeError
  | _ => Raise TypeError                        (* [len(scores)] *)
  end.

(** ** Values inside f-strings, and paths *)

Section Formatting.
(** [repr] of a list or a dict depends on the quoting rules for strings and,
    for a dict, on the order in which its keys were inserted; it is taken as
    given. *)
Variable container_repr : pyval → string.

(** [f"{v}"], that is [str(v)]. *)
Definition format_value (v : pyval) : string :=
  match v with
  | PNone => "None"
  | PBool true => "True"
  | PBool false => "False"
  | PInt n => str_of_int n
  | PStr s => s
  | PList _ | PDict _ => container_repr v
  end.

Fixpoint ends_with_slash (s : string) : bool :=
  match s with
  | EmptyString => false
  | String a EmptyString => Ascii.eqb a "/"
  | String _ s' => ends_with_slash s'
  end.

(** [os.path.join(a, b)] on POSIX: an absolute [b] replaces [a]. *)
Definition os_path_join (a b : string) : string :=
  if String.prefix "/" b then b
  else if String.eqb a EmptyString || ends_with_slash a then a +:+ b
  else a +:+ "/" +:+ b.

(** ** generate_static.py: replay files and schemas *)

(** [os.path.join(output_dir, f"{session_hash}.json")] *)
Definition replay_path (dir : string) (session_hash : pyval) : string :=
  os_path_join dir (format_value session_hash +:+ ".json").

Definition generate_replay_file (env : io_env) (fs : gmap string file)
    (session_data metadata votes : pyval) (output_dir : string)
  : res (gmap string file * bool) :=
  session_hash ← py_get session_data "sessionHash" PNone;
  if negb (truthy session_hash) then Ok (fs, false) else
  let replay_data :=
    PDict (dict_of
             [ ("sessionHash", session_hash); ("version", PInt 1);
               ("metadata", metadata); ("gameState", session_data);
               ("votes", if truthy votes then votes
                         else PDict (dict_of [("up", PInt 0); ("flags", PInt 0)])) ]) in
  let filepath := replay_path output_dir session_hash in
  Ok (atomic_write_json env fs filepath replay_data).

(** The checks on [data['version']], shared by both schemas. *)
Definition version_errors (d : gmap string pyval) : list string :=
  match d !! "version" with
  | None => ["Missing 'version' field"]
  | Some v => if py_eq v (PInt 1) then []
              else ["Unknown version: " +:+ format_value v]
  end.

Definition score_field_errors (i : nat) (score : gmap string pyval)
    (field : string) : list string :=
  match score !! field with
  | Some _ => []
  | None => ["Score " +:+ index_str i +:+ " missing required field: " +:+ field]
  end.

Definition score_errors (i : nat) (score : pyval) : list string :=
  match score with
  | PDict s =>
      concat (map (score_field_errors i s)
                ["rank"; "sessionHash"; "userId"; "initials"; "wpm";
                 "accuracy"; "stage"])
  | _ => ["Score " +:+ index_str i +:+ " must be an object"]
  end.

Definition validate_leaderboard_schema (data : pyval) : list string :=
  match data with
  | PDict d =>
      version_errors d
      ++ match d !! "generated" with
         | None => ["Missing 'generated' timestamp"]
         | Some g => if is_number g then [] else ["'generated' must be a number"]
         end
      ++ match d !! "scores" with
         | None => ["Missing 'scores' array"]
         | Some (PList scores) => concat (imap score_errors scores)
         | Some _ => ["'scores' must be an array"]
         end
  | _ => ["Leaderboard must be an object"]
  end.

(** [field not in item and f'{field}Id' not in item] *)
Definition item_field_errors (i : nat) (item : gmap string pyval)
    (field : string) : list string :=
  match item !! field, item !! (field +:+ "Id") with
  | None, None =>
      ["Feedback item " +:+ index_str i +:+ " missing required field: " +:+ field]
  | _, _ => []
  end.

(** ['type' in item and item['type'] not in ['bug', 'feature']] *)
Definition item_type_errors (i : nat) (item : gmap string pyval) : list string :=
  match item !! "type" with
  | Some t =>
      if py_eq t (PStr "bug") || py_eq t (PStr "feature") then []
      else ["Feedback item " +:+ index_str i +:+ " has invalid type: "
            +:+ format_value t]
  | None => []
  end.

Definition item_errors (i : nat) (item : pyval) : list string :=
  match item with
  | PDict it =>
      concat (map (item_field_errors i it) ["id"; "type"; "description"; "userId"])
      ++ item_type_errors i it
  | _ => ["Feedback item " +:+ index_str i +:+ " must be an object"]
  end.

Definition validate_feedback_schema (data : pyval) : list string :=
  match data with
  | PDict d =>
      version_errors d
      ++ match d !! "generated" with
         | None => ["Missing 'generated' timestamp"]
         | Some _ => []
         end
      ++ match d !! "items" with
         | None => ["Missing 'items' array"]
         | Some (PList items) => concat (imap item_errors items)
         | Some _ => ["'items' must be an array"]
         end
  | _ => ["Feedback must be an object"]
  end.

(** ** moderate_scores.py: listing, saving and batch deletion *)

Definition load_leaderboard (fs : gmap string file) (filepath : string) : pyval :=
  match fs !! filepath with
  | None => empty_leaderboard
  | Some (JsonFile v) => v
  | Some Garbled => empty_leaderboard
  end.

(** What can go wrong in [save_leaderboard], which writes in place. *)
Inductive save_fault : Type :=
  | SaveOk
  | OpenFails      (* [open(filepath, 'w')] raises: the file is not touched *)
  | WriteFails     (* [json.dump] raises after the file has been truncated *)
  | FlushFails.    (* leaving the [with] block: the final flush fails *)

(** What the operator and the operating system do during a run of the
    moderation tool: the answer to the confirmation prompt as
    [input(...).strip().lower()] yields it, the paths on which [os.remove]
    raises, the step of [save_leaderboard] that raises, and the clock. *)
Record tool_env : Type := {
  confirm : string;
  remove_raises : string → bool;
  save_fault_at : save_fault;
  now_ms : Z
}.

(** The data is modified in place before the file is opened: the result
    holds the data as it is afterwards. *)
Definition save_leaderboard (env : tool_env) (fs : gmap string file)
    (data : pyval) (filepath : string) : pyval * gmap string file * bool :=
  match data with
  | PDict d =>
      let data := PDict (<["generated" := PInt (now_ms env)]> d) in
      match save_fault_at env with
      | OpenFails => (data, fs, false)
      | WriteFails | FlushFails => (data, <[filepath := Garbled]> fs, false)
      | SaveOk => (data, <[filepath := JsonFile data]> fs, true)
      end
  | _ => (data, fs, false)          (* [data['generated'] = ...] raises *)
  end.

(** [a >= b] *)
Fixpoint py_ge (a b : pyval) : res bool :=
  match a, b with
  | PBool x, PBool y => Ok ((if y then 1 else 0) <=? (if x then 1 else 0))
  | PBool x, PInt n => Ok (n <=? (if x then 1 else 0))
  | PInt n, PBool y => Ok ((if y then 1 else 0) <=? n)
  | PInt n, PInt m => Ok (m <=? n)
  | PStr s, PStr t => Ok (negb (String.ltb s t))
  | PList la, PList lb =>
      (fix go (la lb : list pyval) : res bool :=
         match la, lb with
         | [], [] => Ok true
         | [], _ :: _ => Ok false
         | _ :: _, [] => Ok true
         | x :: la', y :: lb' => if py_eq x y then go la' lb' else py_ge x y
         end) la lb
  | _, _ => Raise TypeError
  end.

(** The body of the loop of [list_flagged_scores]. *)
Fixpoint flagged_of (flag_threshold : pyval) (scores : list pyval)
  : res (list pyval) :=
  match scores with
  | [] => Ok []
  | score :: rest =>
      votes ← py_get score "votes" (PDict ∅);
      flags ← py_get votes "flags" (PInt 0);
      above ← py_ge flags flag_threshold;
      if above : bool then
        rank ← py_get score "rank" PNone;
        sessionHash ← py_get score "sessionHash" PNone;
        userId ← py_get score "userId" PNone;
        initials ← py_get score "initials" PNone;
        wpm ← py_get score "wpm" PNone;
        accuracy ← py_get score "accuracy" PNone;
        stage ← py_get score "stage" PNone;
        upvotes ← py_get votes "up" (PInt 0);
        flagged ← flagged_of flag_threshold rest;
        Ok (PDict (dict_of
                     [ ("rank", rank); ("sessionHash", sessionHash);
                       ("userId", userId); ("initials", initials);
                       ("wpm", wpm); ("accuracy", accuracy); ("stage", stage);
                       ("flags", flags); ("upvotes", upvotes) ]) :: flagged)
      else flagged_of flag_threshold rest
  end.

Definition list_flagged_scores (leaderboard : gmap string pyval)
    (flag_threshold : pyval) : res (list pyval) :=
  match dict_get leaderboard "scores" (PList []) with
  | PList scores => flagged_of flag_threshold scores
  | PStr s =>
      (* iterating a string yields strings, which have no [.get] *)
      if String.eqb s EmptyString then Ok [] else Raise AttributeError
  | PDict d =>
      (* iterating a dict yields its keys *)
      if Nat.eqb (size d) 0 then Ok [] else Raise AttributeError
  | _ => Raise TypeError                        (* not iterable *)
  end.

Definition delete_replay_file (env : tool_env) (fs : gmap string file)
    (session_hash : pyval) (replay_dir : string) : gmap string file * bool :=
  let filepath := replay_path replay_dir session_hash in
  match fs !! filepath with
  | None => (fs, false)
  | Some _ =>
      if remove_raises env filepath then (fs, false)
      else (delete filepath fs, true)
  end.

(** The deletion loop of [batch_delete_flagged].  The records in [flagged]
    were built by [list_flagged_scores], so [score['sessionHash']] is the
    value stored under that key. *)
Fixpoint delete_flagged (env : tool_env) (flagged : list pyval)
    (leaderboard : gmap string pyval) (fs : gmap string file) (deleted : Z)
  : res (gmap string pyval * gmap string file * Z) :=
  match flagged with
  | [] => Ok (leaderboard, fs, deleted)
  | score :: rest =>
      session_hash ← py_get score "sessionHash" PNone;
      r ← delete_score_by_hash leaderboard session_hash;
      if r.2 : bool then
        let fs := (delete_replay_file env fs session_hash "data/replays").1 in
        delete_flagged env rest r.1 fs (deleted + 1)
      else delete_flagged env rest r.1 fs deleted
  end.

(** The result is the leaderboard and the files as the call leaves them,
    and the number it returns. *)
Definition batch_delete_flagged (env : tool_env)
    (leaderboard : gmap string pyval) (fs : gmap string file)
    (flag_threshold : pyval) (auto_save : bool)
  : res (gmap string pyval * gmap string file * Z) :=
  flagged ← list_flagged_scores leaderboard flag_threshold;
  match flagged with
  | [] => Ok (leaderboard, fs, 0)
  | _ :: _ =>
      if negb (String.eqb (confirm env) "yes") then Ok (leaderboard, fs, 0)
      else
        r ← delete_flagged env flagged leaderboard fs 0;
        let '(leaderboard, fs, deleted) := r in
        if auto_save && (0 <? deleted) then
          match save_leaderboard env fs (PDict leaderboard)
                  "data/leaderboard.json" with
          | (PDict leaderboard, fs, _) => Ok (leaderboard, fs, deleted)
          | (_, fs, _) => Ok (leaderboard, fs, deleted)
          end
        else Ok (leaderboard, fs, deleted)
  end.
End Formatting.

(** * Vocabulary of the statements and sample data *)

(** The session of [test_validation], with a second version that only
    differs in its statistics and a third with the words the other way
    round. *)
Definition sample_words : list pyval :=
  [ PDict (dict_of [("text", PStr "hello"); ("spawnTime", PInt 0);
                    ("completedTime", PInt 2000)]);
    PDict (dict_of [("text", PStr "world"); ("spawnTime", PInt 1000);
                    ("completedTime", PInt 3000)]) ].

Definition sample_session : gmap string pyval :=
  dict_of [ ("seed", PInt 12345); ("stage", PInt 3);
            ("words", PList sample_words);
            ("keystrokes",
              PList [ PDict (dict_of [("key", PStr "h"); ("timestamp", PInt 1000);
                                      ("wordIndex", PInt 0)]);
                      PDict (dict_of [("key", PStr "e"); ("timestamp", PInt 1100);
                                      ("wordIndex", PInt 0)]) ]);
            ("stats", PDict (dict_of [("wpm", PInt 120); ("accuracy", PInt 95)])) ].

Definition sample_session_inflated : gmap string pyval :=
  <["stats" := PDict (dict_of [("wpm", PInt 300); ("accuracy", PInt 100)])]>
    sample_session.

(** The relation a sorted list satisfies between an element and every later
    one, for a comparison [ltb]: the later element is not smaller. *)
Definition not_after {A} (ltb : A → A → bool) (x y : A) : Prop := ltb y x = false.

Definition is_dict (v : pyval) : bool :=
  match v with PDict _ => true | _ => false end.

(** The text a word contributes to the canonical form, if any. *)
Definition text_of (w : pyval) : option pyval :=
  match w with
  | PDict e =>
      if truthy (dict_get e "text" PNone)
      then Some (dict_get e "text" (PStr EmptyString)) else None
  | _ => None
  end.

(** A word whose text, when it counts, is a string. *)
Definition text_is_str (w : pyval) : bool :=
  match text_of w with
  | Some (PStr _) | None => true
  | Some _ => false
  end.

Definition is_str (v : pyval) : Prop := ∃ s, v = PStr s.

Definition str_ltb (a b : pyval) : bool :=
  match a, b with
  | PStr s, PStr t => String.ltb s t
  | _, _ => false
  end.

(** A field that holds a list. *)
Definition list_field (x : gmap string pyval) (k : string) : option (list pyval) :=
  match x !! k with
  | Some (PList l) => Some l
  | _ => None
  end.

(** The shapes under which the canonical form is defined: a [words] list
    holds objects whose text, when it counts, is a string; a [keystrokes]
    list holds objects. *)
Definition words_shape_ok (x : gmap string pyval) : bool :=
  match list_field x "words" with
  | Some ws => forallb is_dict ws && forallb text_is_str ws
  | None => true
  end.

Definition keystrokes_shape_ok (x : gmap string pyval) : bool :=
  match list_field x "keystrokes" with
  | Some ks => forallb is_dict ks
  | None => true
  end.


(** A session whose words are plain strings instead of objects. *)
Definition session_with_bare_words : gmap string pyval :=
  dict_of [ ("seed", PInt 12345); ("stage", PInt 3);
            ("words", PList [PStr "hello"; PStr "world"]);
            ("keystrokes",
              PList [ PDict (dict_of [("key", PStr "h"); ("timestamp", PInt 1000);
                                      ("wordIndex", PInt 0)]) ]) ].

(** A session with a [words] field of the wrong type and no keystrokes. *)
Definition session_without_arrays : gmap string pyval :=
  dict_of [ ("seed", PInt 12345); ("stage", PInt 3); ("words", PStr "hello") ].

(** An otherwise valid submission of [sample_session] whose initials hold
    a digit. *)
Definition submission_with_digit_initials : pyval :=
  PDict (dict_of
    [ ("sessionData", PDict sample_session);
      ("sessionHash",
        PStr "7cf7004d8e4e838d03b45385e4580a93b1892f7fc455c8908b85f88d70c845d1");
      ("userId", PStr "123e4567-e89b-42d3-a456-426614174000");
      ("initials", PStr "A1B");
      ("timestamp", PInt 1705161200000) ]).

(** The same submission with initials of three upper-case letters, and with
    lower-case initials. *)
Definition with_initials (i : pyval) (submission : pyval) : pyval :=
  match submission with
  | PDict d => PDict (<["initials" := i]> d)
  | _ => submission
  end.

(** Reading a field of an entry, for the statements. *)
Definition field (s : pyval) (k : string) (dflt : pyval) : pyval :=
  match s with
  | PDict d => dict_get d k dflt
  | _ => dflt
  end.

Definition session_hash_of (s : pyval) : pyval := field s "sessionHash" PNone.
Definition wpm_of (s : pyval) : Z := default 0 (as_int (field s "wpm" (PInt 0))).
Definition timestamp_of (s : pyval) : Z :=
  default 0 (as_int (field s "timestamp" (PInt 0))).
Definition votes_of (s : pyval) : Z := default 0 (as_int (field s "votes" (PInt 0))).
Definition rank_of (s : pyval) : pyval := field s "rank" PNone.

(** The entry with its [rank] set, and a list ranked from [start]. *)
Definition set_rank (r : Z) (s : pyval) : pyval :=
  match s with
  | PDict d => PDict (<["rank" := PInt r]> d)
  | _ => s
  end.

Fixpoint with_ranks (start : Z) (l : list pyval) : list pyval :=
  match l with
  | [] => []
  | s :: l' => set_rank start s :: with_ranks (start + 1) l'
  end.

(** The documents the two merges return. *)
Definition leaderboard_doc (now : Z) (scores : list pyval) : pyval :=
  PDict (dict_of [("version", PInt 1); ("generated", PInt now);
                  ("scores", PList scores)]).

Definition feedback_doc (now : Z) (items : list pyval) : pyval :=
  PDict (dict_of [("version", PInt 1); ("generated", PInt now);
                  ("items", PList items)]).

(** The list a merge starts from: the one under [field_name] of the
    document it loaded. *)
Definition existing_list (existing : pyval) (field_name : string)
  : option (list pyval) :=
  match existing with
  | PDict d => match dict_get d field_name (PList []) with
               | PList l => Some l
               | _ => None
               end
  | _ => None
  end.

Definition stored_scores (fs : gmap string file) (path : string)
  : option (list pyval) :=
  existing_list (load_json_safe fs path empty_leaderboard) "scores".

Definition stored_items (fs : gmap string file) (path : string)
  : option (list pyval) :=
  existing_list (load_json_safe fs path empty_feedback) "items".

(** Python equality on hashable values is equality up to reading a [bool]
    as the integer it is. *)
Definition norm (v : pyval) : pyval :=
  match v with
  | PBool b => PInt (if b then 1 else 0)
  | _ => v
  end.

(** The de-duplication loop when nothing raises: [kf] gives the key. *)
Fixpoint dedup (kf : pyval → pyval) (seen : list pyval) (l : list pyval)
  : list pyval :=
  match l with
  | [] => []
  | x :: rest =>
      if truthy (kf x) && negb (existsb (py_eq (kf x)) seen)
      then x :: dedup kf (kf x :: seen) rest
      else dedup kf seen rest
  end.

(** Lexicographic order on pairs of integers, as a test and as a relation. *)
Definition lex_ltb (a b : Z * Z) : bool :=
  (a.1 <? b.1) || ((a.1 =? b.1) && (a.2 <? b.2)).

Definition lex_le (a b : Z * Z) : Prop :=
  a.1 < b.1 ∨ (a.1 = b.1 ∧ a.2 ≤ b.2).

(** Leaderboard order: higher wpm first, then earlier timestamp. *)
Definition score_order (a b : pyval) : Prop :=
  wpm_of a > wpm_of b ∨ (wpm_of a = wpm_of b ∧ timestamp_of a ≤ timestamp_of b).


(** An entry the leaderboard merge can process: an object with a hashable
    [sessionHash] (or none) and numeric [wpm] and [timestamp] (or none). *)
Definition is_score_entry (s : pyval) : bool :=
  is_dict s && hashable (session_hash_of s)
  && is_number (field s "wpm" (PInt 0))
  && is_number (field s "timestamp" (PInt 0)).


(** The entry's [sessionHash] equals [h]. *)
Definition hash_is (h : pyval) (s : pyval) : bool := py_eq (session_hash_of s) h.

(** The key the feedback merge de-duplicates on. *)
Definition feedback_id_of (item : pyval) : pyval :=
  if truthy (field item "feedbackId" PNone) then field item "feedbackId" PNone
  else field item "id" PNone.

(** An item the feedback merge can process. *)
Definition is_feedback_entry (s : pyval) : bool :=
  is_dict s && hashable (feedback_id_of s)
  && is_number (field s "votes" (PInt 0))
  && is_number (field s "timestamp" (PInt 0)).

(** Sample leaderboard data: a stored leaderboard with one entry, and
    incoming scores. *)
Definition score (h : pyval) (wpm ts : Z) : pyval :=
  PDict (dict_of [("sessionHash", h); ("initials", PStr "ABC");
                  ("wpm", PInt wpm); ("timestamp", PInt ts)]).

Definition leaderboard_path : string := "data/leaderboard.json".

Definition stored_entry : pyval := score (PStr "abc123") 145 1705161200000.

Definition sample_fs : gmap string file :=
  {[ leaderboard_path := JsonFile (leaderboard_doc 0 [set_rank 1 stored_entry]) ]}.


(** Two incoming scores with one hash, both slower than the stored entry. *)
Definition incoming_twice : list pyval :=
  [ score (PStr "def456") 130 1705161300000;
    score (PStr "def456") 120 1705161400000 ].

(** Incoming scores without a usable hash, all faster than the stored one. *)
Definition incoming_without_hash : list pyval :=
  [ score (PStr EmptyString) 300 1705161300000;
    score PNone 299 1705161300000;
    score (PInt 0) 298 1705161300000;
    PDict (dict_of [("wpm", PInt 297); ("timestamp", PInt 1705161300000)]);
    score (PStr "def456") 130 1705161300000 ].


Definition feedback (fid id : pyval) (votes ts : Z) : pyval :=
  PDict (dict_of [("feedbackId", fid); ("id", id); ("type", PStr "bug");
                  ("votes", PInt votes); ("timestamp", PInt ts)]).

Definition feedback_path : string := "data/feedback.json".


Definition feedback_same_feedback_id : list pyval :=
  [ feedback (PStr "fb-1") (PStr "a") 2 1705161200000;
    feedback (PStr "fb-1") (PStr "b") 1 1705161300000 ].

(** A leaderboard of three ranked entries. *)
Definition three_scores : list pyval :=
  with_ranks 1 [ score (PStr "abc123") 145 1705161200000;
                 score (PStr "def456") 130 1705161300000;
                 score (PStr "ghi789") 120 1705161400000 ].

Definition three_leaderboard : gmap string pyval :=
  dict_of [("version", PInt 1); ("generated", PInt 0);
           ("scores", PList three_scores)].

(** The test the validator applies to the initials: a string of three
    characters that passes [isupper]. *)
Definition initials_pass (ucd : N → charcase) (initials : pyval) : bool :=
  match initials with
  | PStr i => truthy initials && Nat.eqb (py_len i) 3 && isupper ucd i
  | _ => false
  end.

(** A string of lower-case hexadecimal digits. *)
Definition is_lower_hex (s : string) : bool :=
  forallb (in_class Hex) (list_ascii_of_string s).

(** A digest written in upper case. *)
Definition sample_digest_upper : string :=
  "7CF7004D8E4E838D03B45385E4580A93B1892F7FC455C8908B85F88D70C845D1".

(** The shape [validate_session_data] accepts.  A field that is present
    with the value [None] is not looked at any further. *)
Definition word_ok (w : pyval) : Prop :=
  is_dict w = true ∧ truthy (field w "text" PNone) = true.

Definition keystroke_ok (k : pyval) : Prop :=
  is_dict k = true ∧ truthy (field k "key" PNone) = true
  ∧ field k "timestamp" PNone ≠ PNone ∧ field k "wordIndex" PNone ≠ PNone.

Definition none_or_number_in (lo hi : Z) (v : pyval) : Prop :=
  v = PNone ∨ ∃ n, as_int v = Some n ∧ lo ≤ n ≤ hi.

Definition none_or_nonempty_list (P : pyval → Prop) (v : pyval) : Prop :=
  v = PNone ∨ ∃ x l, v = PList (x :: l) ∧ Forall P (x :: l).

Definition stats_ok (stats : pyval) : Prop :=
  truthy stats = false
  ∨ (is_dict stats = true
     ∧ none_or_number_in 0 300 (field stats "wpm" PNone)
     ∧ none_or_number_in 0 100 (field stats "accuracy" PNone)).

Definition session_accepted (d : gmap string pyval) : Prop :=
  is_Some (d !! "seed") ∧ is_Some (d !! "stage")
  ∧ is_Some (d !! "words") ∧ is_Some (d !! "keystrokes")
  ∧ (dict_get d "seed" PNone = PNone ∨ is_number (dict_get d "seed" PNone) = true)
  ∧ (dict_get d "stage" PNone = PNone
     ∨ ∃ n, as_int (dict_get d "stage" PNone) = Some n ∧ 1 ≤ n)
  ∧ none_or_nonempty_list word_ok (dict_get d "words" PNone)
  ∧ none_or_nonempty_list keystroke_ok (dict_get d "keystrokes" PNone)
  ∧ stats_ok (dict_get d "stats" PNone).

(** A session whose four required fields are all [null]. *)
Definition session_of_nulls : gmap string pyval :=
  dict_of [ ("seed", PNone); ("stage", PNone); ("words", PNone);
            ("keystrokes", PNone) ].

(** The violations [validate_session_data] collects before it looks at
    [stats]. *)
Definition structural_errors (d : gmap string pyval) : list string :=
  concat (map (missing_field d) ["seed"; "stage"; "words"; "keystrokes"])
  ++ (if negb (is_none (dict_get d "seed" PNone))
         && negb (is_number (dict_get d "seed" PNone))
      then ["Seed must be a number"] else [])
  ++ match dict_get d "stage" PNone with
     | PNone => []
     | _ => match as_int (dict_get d "stage" PNone) with
            | None => ["Stage must be a number"]
            | Some n => if n <? 1 then ["Stage must be at least 1"] else []
            end
     end
  ++ match dict_get d "words" PNone with
     | PNone => []
     | PList [] => ["Words array cannot be empty"]
     | PList words => concat (imap word_errors words)
     | _ => ["Words must be an array"]
     end
  ++ match dict_get d "keystrokes" PNone with
     | PNone => []
     | PList [] => ["Keystrokes array cannot be empty"]
     | PList keystrokes => concat (imap keystroke_errors keystrokes)
     | _ => ["Keystrokes must be an array"]
     end.

(** The word texts of a session are strings (or do not count). *)
Definition word_texts_are_strings (d : gmap string pyval) : bool :=
  match list_field d "words" with
  | Some ws => forallb text_is_str ws
  | None => true
  end.

(** A session whose [stats] is a non-empty list. *)
Definition session_with_list_stats : gmap string pyval :=
  <["stats" := PList [PInt 120]]> sample_session.

(** A submission whose session statistics are a non-empty list. *)
Definition submission_with_list_stats : gmap string pyval :=
  dict_of [ ("sessionData", PDict session_with_list_stats);
            ("sessionHash",
              PStr "7cf7004d8e4e838d03b45385e4580a93b1892f7fc455c8908b85f88d70c845d1");
            ("userId", PStr "123e4567-e89b-42d3-a456-426614174000");
            ("initials", PStr "ABC") ].

(** A case table for inputs that hold ASCII only: it is never consulted. *)
Definition ascii_only : N → charcase := λ _, Uncased.

(** The newline character as a string. *)
Definition newline : string := String "010" EmptyString.

Definition sample_uuid : string := "123E4567-e89b-42d3-A456-426614174000".

(** An environment in which nothing fails, and one in which [shutil.move]
    raises. *)
Definition env_ok : io_env :=
  {| tmp_path := "data/.tmpab12cd.tmp"; fault_at := NoFault; remove_fails := false |}.

Definition env_move_fails : io_env :=
  {| tmp_path := "data/.tmpab12cd.tmp"; fault_at := MoveFails;
     remove_fails := false |}.

(** The file system after [doc] has been written at [path]. *)
Definition written (fs : gmap string file) (path : string) (doc : pyval)
  : gmap string file :=
  <[path := JsonFile doc]> fs.

(** Scores with mixed fields: one without a hash, two that share a hash,
    one whose hash is [True]. *)
Definition incoming_mixed : list pyval :=
  [ score (PStr "def456") 130 1705161300000;
    PDict (dict_of [("wpm", PInt 200)]);
    score (PStr "def456") 150 1705161400000;
    score (PBool true) 90 1705161500000 ].



(** ** Vocabulary of moderation *)

(** The flag count the listing reads: [score.get('votes', {}).get('flags', 0)]. *)
Definition flags_of (s : pyval) : pyval :=
  field (field s "votes" (PDict ∅)) "flags" (PInt 0).

Definition flag_count (s : pyval) : Z := default 0 (as_int (flags_of s)).

(** An entry the moderation tool can process: an object whose [votes], when
    present, is an object, whose [flags], when present, is a number, and
    whose [sessionHash] is a scalar. *)
Definition is_moderated_entry (s : pyval) : bool :=
  is_dict s && is_dict (field s "votes" (PDict ∅)) && is_number (flags_of s)
  && hashable (session_hash_of s).

(** The record the listing builds for an entry. *)
Definition flagged_record (s : pyval) : pyval :=
  PDict (dict_of
           [ ("rank", field s "rank" PNone);
             ("sessionHash", field s "sessionHash" PNone);
             ("userId", field s "userId" PNone);
             ("initials", field s "initials" PNone);
             ("wpm", field s "wpm" PNone);
             ("accuracy", field s "accuracy" PNone);
             ("stage", field s "stage" PNone);
             ("flags", flags_of s);
             ("upvotes", field (field s "votes" (PDict ∅)) "up" (PInt 0)) ]).

(** A leaderboard entry with votes, and a leaderboard of four entries of
    which two are flagged three times or more. *)
Definition voted (h : string) (wpm up flags : Z) : pyval :=
  PDict (dict_of [ ("sessionHash", PStr h); ("wpm", PInt wpm);
                   ("votes", PDict (dict_of [("up", PInt up);
                                             ("flags", PInt flags)])) ]).

Definition moderated_scores : list pyval :=
  with_ranks 1 [ voted "abc123" 145 5 0; voted "def456" 130 0 4;
                 PDict (dict_of [("sessionHash", PStr "ghi789")]);
                 voted "jkl012" 90 1 3 ].

Definition moderated_leaderboard : gmap string pyval :=
  dict_of [("version", PInt 1); ("generated", PInt 0);
           ("scores", PList moderated_scores)].

(** A leaderboard in which the votes of the second entry are a number, as
    the votes of a feedback item are. *)
Definition leaderboard_with_numeric_votes : gmap string pyval :=
  dict_of [("version", PInt 1);
           ("scores",
             PList [ voted "abc123" 145 5 0;
                     PDict (dict_of [("sessionHash", PStr "def456");
                                     ("votes", PInt 4)]) ])].

(** An operator who confirms, with a system on which nothing fails; and one
    who declines. *)
Definition operator_yes : tool_env :=
  {| confirm := "yes"; remove_raises := λ _, false; save_fault_at := SaveOk;
     now_ms := 1705161500000 |}.

Definition operator_no : tool_env :=
  {| confirm := "no"; remove_raises := λ _, false; save_fault_at := SaveOk;
     now_ms := 1705161500000 |}.

(** A [repr] for the closed examples, none of which formats a container. *)
Definition no_repr : pyval → string := λ _, EmptyString.

(** The entries that carry none of the hashes [hs]. *)
Definition without_hashes (hs : list pyval) (scores : list pyval) : list pyval :=
  filter (λ s, existsb (λ h, hash_is h s) hs = false) scores.

(** The leaderboard the merge of [incoming_mixed] into an empty directory
    returns at time 7 with a cap of two entries. *)
Definition merged_mixed : gmap string pyval :=
  dict_of [("version", PInt 1); ("generated", PInt 7);
           ("scores",
             PList (with_ranks 1 [ score (PStr "def456") 130 1705161300000;
                                   score (PBool true) 90 1705161500000 ]))].

(** A system on which [json.dump] fails while the leaderboard is saved. *)
Definition operator_disk_full : tool_env :=
  {| confirm := "yes"; remove_raises := λ _, false; save_fault_at := WriteFails;
     now_ms := 1705161500000 |}.

(** A session that carries its own hash, the metadata stored beside it, and
    a session whose hash is an absolute path. *)
Definition session_with_hash : pyval :=
  PDict (<["sessionHash" := PStr "abc123"]> sample_session).

Definition session_with_absolute_hash : gmap string pyval :=
  <["sessionHash" := PStr "/tmp/abc123"]> sample_session.

Definition sample_metadata : pyval :=
  PDict (dict_of [("initials", PStr "ABC"); ("wpm", PInt 120)]).

(** The file system after a replay has been written for
    [session_with_hash]. *)
Definition fs_with_replay : gmap string file :=
  (atomic_write_json env_ok ∅ "data/replays/abc123.json"
     (PDict (dict_of
               [ ("sessionHash", PStr "abc123"); ("version", PInt 1);
                 ("metadata", sample_metadata);
                 ("gameState", session_with_hash);
                 ("votes", PDict (dict_of [("up", PInt 0);
                                           ("flags", PInt 0)])) ]))).1.

(** ** Vocabulary of the schemas *)

Definition has_key (s : pyval) (k : string) : bool :=
  match s with
  | PDict d => match d !! k with Some _ => true | None => false end
  | _ => false
  end.

(** An object that has every key of [ks]. *)
Definition has_keys (ks : list string) (s : pyval) : bool :=
  is_dict s && forallb (has_key s) ks.

Definition version_is_1 (d : gmap string pyval) : bool :=
  match d !! "version" with Some v => py_eq v (PInt 1) | None => false end.

(** The leaderboards the schema check accepts. *)
Definition leaderboard_schema_ok (data : pyval) : bool :=
  match data with
  | PDict d =>
      version_is_1 d
      && match d !! "generated" with Some g => is_number g | None => false end
      && match d !! "scores" with
         | Some (PList scores) =>
             forallb (has_keys ["rank"; "sessionHash"; "userId"; "initials";
                                "wpm"; "accuracy"; "stage"]) scores
         | _ => false
         end
  | _ => false
  end.

(** The feedback items the schema check accepts: each required name is
    present as it is or with [Id] appended, and [type], when present, is
    [bug] or [feature]. *)
Definition item_ok (item : pyval) : bool :=
  is_dict item
  && forallb (λ k, has_key item k || has_key item (k +:+ "Id"))
       ["id"; "type"; "description"; "userId"]
  && match item with
     | PDict d => match d !! "type" with
                  | Some t => py_eq t (PStr "bug") || py_eq t (PStr "feature")
                  | None => true
                  end
     | _ => false
     end.

Definition feedback_schema_ok (data : pyval) : bool :=
  match data with
  | PDict d =>
      version_is_1 d
      && match d !! "generated" with Some _ => true | None => false end
      && match d !! "items" with
         | Some (PList items) => forallb item_ok items
         | _ => false
         end
  | _ => false
  end.

(** The scores and the feedback of [test_generation], without the fields
    this model has no values for ([accuracy] is given as a whole number). *)
Definition test_scores : list pyval :=
  [ PDict (dict_of [("sessionHash", PStr "abc123"); ("userId", PStr "user-uuid-1");
                    ("initials", PStr "ABC"); ("wpm", PInt 145);
                    ("accuracy", PInt 98); ("stage", PInt 3);
                    ("timestamp", PInt 1705161200000)]);
    PDict (dict_of [("sessionHash", PStr "def456"); ("userId", PStr "user-uuid-2");
                    ("initials", PStr "DEF"); ("wpm", PInt 130);
                    ("accuracy", PInt 95); ("stage", PInt 2);
                    ("timestamp", PInt 1705161300000)]) ].

Definition test_feedback_doc : pyval :=
  feedback_doc 7
    [ PDict (dict_of [("feedbackId", PStr "feedback-uuid-1"); ("type", PStr "bug");
                      ("description", PStr "Words overlapping");
                      ("userId", PStr "user-uuid-1");
                      ("timestamp", PInt 1705161200000); ("votes", PInt 5);
                      ("status", PStr "open")]) ].

(** * Properties *)

(** ** Test vectors *)

Example sha256_constants :
  length SHA256.K = 64%nat
  ∧ head SHA256.K = Some 0x428a2f98 ∧ last SHA256.K = Some 0xc67178f2
  ∧ head SHA256.H0 = Some 0x6a09e667 ∧ last SHA256.H0 = Some 0x5be0cd19.
Proof. vm_compute. done. Qed.

Example sha256_abc :
  SHA256.hexdigest "abc"
  = "ba7816bf8f01cfea414140de5dae2223b00361a396177a9cb410ff61f20015ad".
Proof. vm_compute. reflexivity. Qed.

Example sample_canonical_text :
  Json.dumps <$> extract_deterministic_data (PDict sample_session)
  = Ok ("{" +:+ Json.quote +:+ "keystrokes" +:+ Json.quote +:+ ":[{"
        +:+ Json.quote +:+ "key" +:+ Json.quote +:+ ":" +:+ Json.quote +:+ "h"
        +:+ Json.quote +:+ "," +:+ Json.quote +:+ "timestamp" +:+ Json.quote
        +:+ ":1000," +:+ Json.quote +:+ "wordIndex" +:+ Json.quote +:+ ":0},{"
        +:+ Json.quote +:+ "key" +:+ Json.quote +:+ ":" +:+ Json.quote +:+ "e"
        +:+ Json.quote +:+ "," +:+ Json.quote +:+ "timestamp" +:+ Json.quote
        +:+ ":1100," +:+ Json.quote +:+ "wordIndex" +:+ Json.quote +:+ ":0}],"
        +:+ Json.quote +:+ "seed" +:+ Json.quote +:+ ":12345,"
        +:+ Json.quote +:+ "stage" +:+ Json.quote +:+ ":3,"
        +:+ Json.quote +:+ "words" +:+ Json.quote +:+ ":["
        +:+ Json.quote +:+ "hello" +:+ Json.quote +:+ ","
        +:+ Json.quote +:+ "world" +:+ Json.quote +:+ "]}").
Proof. vm_compute. reflexivity. Qed.

(** ** The canonical form reads four fields only *)

Lemma extract_reads_four_fields (x x' : gmap string pyval) :
  x !! "seed" = x' !! "seed" →
  x !! "stage" = x' !! "stage" →
  x !! "words" = x' !! "words" →
  x !! "keystrokes" = x' !! "keystrokes" →
  extract_deterministic_data (PDict x) = extract_deterministic_data (PDict x').
Proof.
  intros Hseed Hstage Hwords Hkeys.
  unfold extract_deterministic_data, py_get, dict_get.
  by rewrite Hseed, Hstage, Hwords, Hkeys.
Qed.

Lemma lookup_outside_stats (x x' : gmap string pyval) (k : string) :
  delete "stats" x = delete "stats" x' → k ≠ "stats" → x !! k = x' !! k.
Proof.
  intros Heq Hk.
  rewrite <- (lookup_delete_ne x "stats" k), <- (lookup_delete_ne x' "stats" k)
    by done.
  by rewrite Heq.
Qed.

(** C1: two sessions that agree on everything but [stats] have the same
    digest (or raise the same exception): the statistics never reach the
    hash input. *)
Theorem calculate_hash_ignores_stats (x x' : gmap string pyval) :
  delete "stats" x = delete "stats" x' →
  calculate_hash (PDict x) = calculate_hash (PDict x').
Proof.
  intros Heq. unfold calculate_hash.
  rewrite (extract_reads_four_fields x x');
    [done | by apply lookup_outside_stats ..].
Qed.

Lemma calculate_hash_ignores_stats_witness :
  delete "stats" sample_session = delete "stats" sample_session_inflated
  ∧ calculate_hash (PDict sample_session)
    = calculate_hash (PDict sample_session_inflated)
  ∧ is_ok (calculate_hash (PDict sample_session)) = true.
Proof.
  split; [vm_compute; reflexivity |].
  split; [| vm_compute; reflexivity].
  apply (calculate_hash_ignores_stats sample_session sample_session_inflated).
  vm_compute; reflexivity.
Defined.

(** ** The error monad *)

Lemma bind_ok {A B} (m : res A) (f : A → res B) (a : A) :
  m = Ok a → (m ≫= f) = f a.
Proof. by intros ->. Qed.

Lemma bind_ok_inv {A B} (m : res A) (f : A → res B) (b : B) :
  (m ≫= f) = Ok b → ∃ a, m = Ok a ∧ f a = Ok b.
Proof. destruct m as [a|e]; [by exists a | done]. Qed.

(** ** Sorting with a comparison that does not raise *)

Section SortSpec.
Context {A : Type} (lt : A → A → res bool) (ltb : A → A → bool) (P : A → Prop).
Hypothesis lt_ok : ∀ x y, P x → P y → lt x y = Ok (ltb x y).
Hypothesis le_trans :
  ∀ x y z, P x → P y → P z →
           not_after ltb x y → not_after ltb y z → not_after ltb x z.
Hypothesis lt_asym : ∀ x y, P x → P y → ltb x y = true → not_after ltb x y.

Lemma insert_by_sorted (x : A) (l : list A) :
  P x → Forall P l → StronglySorted (not_after ltb) l →
  ∃ r, insert_by lt x l = Ok r ∧ r ≡ₚ x :: l ∧ StronglySorted (not_after ltb) r.
Proof.
  intros Px. induction l as [|y l IH]; intros Pl Hs.
  - exists [x]. repeat split; [done | repeat constructor].
  - apply Forall_cons in Pl as [Py Pl].
    apply StronglySorted_inv in Hs as [Hs Hy].
    simpl. rewrite (lt_ok y x Py Px). simpl.
    destruct (ltb y x) eqn:Hyx.
    + destruct (IH Pl Hs) as (r & -> & Hperm & Hr). simpl.
      exists (y :: r). split; [done |]. split.
      * rewrite Hperm. apply perm_swap.
      * constructor; [done |].
        rewrite Hperm. constructor; [by apply lt_asym | done].
    + exists (x :: y :: l). split; [done |]. split; [done |].
      constructor; [by constructor |].
      constructor; [done |].
      rewrite Forall_forall in Hy, Pl |- *.
      intros z Hz. apply (le_trans x y z); auto.
Qed.

Lemma sort_by_sorted (l : list A) :
  Forall P l →
  ∃ r, sort_by lt l = Ok r ∧ r ≡ₚ l ∧ StronglySorted (not_after ltb) r.
Proof.
  induction l as [|x l IH]; intros Pl.
  - exists []. repeat split; [done | constructor].
  - apply Forall_cons in Pl as [Px Pl].
    destruct (IH Pl) as (s & Hsort & Hperm & Hs).
    destruct (insert_by_sorted x s Px) as (r & Hins & Hperm' & Hr);
      [by rewrite Hperm | done |].
    simpl. rewrite Hsort. simpl.
    exists r. split; [done |]. split; [by rewrite Hperm', Hperm | done].
Qed.
End SortSpec.

(** Whatever the comparison does, a sort that returns has permuted its input. *)
Lemma insert_by_perm {A} (lt : A → A → res bool) (x : A) (l r : list A) :
  insert_by lt x l = Ok r → r ≡ₚ x :: l.
Proof.
  revert r. induction l as [|y l IH]; intros r; simpl.
  - by intros [= <-].
  - destruct (lt y x) as [[]|]; simpl; [| by intros [= <-] | done].
    destruct (insert_by lt x l) as [r'|]; simpl; [| done].
    intros [= <-]. rewrite (IH r' eq_refl). apply perm_swap.
Qed.

Lemma sort_by_perm {A} (lt : A → A → res bool) (l r : list A) :
  sort_by lt l = Ok r → r ≡ₚ l.
Proof.
  revert r. induction l as [|x l IH]; intros r; simpl.
  - by intros [= <-].
  - destruct (sort_by lt l) as [s|]; simpl; [| done].
    intros Hins. rewrite (insert_by_perm _ _ _ _ Hins). by rewrite (IH s eq_refl).
Qed.

(** ** Strings are totally ordered *)

Lemma string_ltb_trans (s t u : string) :
  String.ltb s t = true → String.ltb t u = true → String.ltb s u = true.
Proof.
  unfold String.ltb. intros Hst Htu.
  assert (OrdersEx.String_as_OT.lt s t) as Lst
    by (red; change OrdersEx.String_as_OT.compare with String.compare;
        by destruct (String.compare s t)).
  assert (OrdersEx.String_as_OT.lt t u) as Ltu
    by (red; change OrdersEx.String_as_OT.compare with String.compare;
        by destruct (String.compare t u)).
  pose proof (StrictOrder_Transitive s t u Lst Ltu) as Lsu. red in Lsu.
  change OrdersEx.String_as_OT.compare with String.compare in Lsu.
  by rewrite Lsu.
Qed.

Lemma string_ltb_total (s t : string) :
  String.ltb s t = false → String.ltb t s = false → s = t.
Proof.
  unfold String.ltb. intros Hst Hts. apply String.compare_eq_iff.
  rewrite String.compare_antisym in Hts.
  destruct (String.compare s t); simpl in *; done.
Qed.

Lemma string_ltb_asym (s t : string) :
  String.ltb s t = true → String.ltb t s = false.
Proof.
  unfold String.ltb. rewrite (String.compare_antisym t s).
  by destruct (String.compare s t).
Qed.

Lemma str_not_after_trans (x y z : pyval) :
  is_str x → is_str y → is_str z →
  not_after str_ltb x y → not_after str_ltb y z → not_after str_ltb x z.
Proof.
  intros [s ->] [t ->] [u ->]. unfold not_after. simpl. intros Hts Hut.
  destruct (String.ltb u s) eqn:Hus; [| done].
  destruct (String.ltb s t) eqn:Hst.
  - by rewrite (string_ltb_trans u s t Hus Hst) in Hut.
  - assert (s = t) as -> by by apply string_ltb_total.
    by rewrite Hus in Hut.
Qed.

Lemma sorted_strings (l : list pyval) :
  Forall is_str l →
  ∃ r, sorted l = Ok r ∧ r ≡ₚ l ∧ StronglySorted (not_after str_ltb) r.
Proof.
  apply sort_by_sorted.
  - by intros x y [s ->] [t ->].
  - apply str_not_after_trans.
  - intros x y [s ->] [t ->]. apply string_ltb_asym.
Qed.


(** ** The canonical form *)

Lemma word_texts_spec (ws : list pyval) :
  word_texts ws
  = if forallb is_dict ws then Ok (omap text_of ws) else Raise AttributeError.
Proof.
  induction ws as [|w ws IH]; [done |].
  destruct w as [| | | | |e]; try done.
  simpl. rewrite IH.
  destruct (truthy (dict_get e "text" PNone)); simpl;
    by destruct (forallb is_dict ws).
Qed.

Lemma keystroke_fields_spec (ks : list pyval) :
  forallb is_dict ks = true → ∃ proj, mapM keystroke_fields ks = Ok proj.
Proof.
  induction ks as [|k ks IH]; intros Hks; [by exists [] |].
  apply andb_prop in Hks as [Hk Hks].
  destruct k as [| | | | |e]; try done.
  destruct (IH Hks) as [proj Hproj].
  eexists. simpl. rewrite Hproj. simpl. reflexivity.
Qed.


Lemma texts_are_strings (ws : list pyval) :
  forallb text_is_str ws = true → Forall is_str (omap text_of ws).
Proof.
  induction ws as [|w ws IH]; intros Hws; [constructor |].
  apply andb_prop in Hws as [Hw Hws]. simpl.
  unfold text_is_str in Hw.
  destruct (text_of w) as [t|]; [| by apply IH].
  constructor; [| by apply IH].
  destruct t; try done. by eexists.
Qed.


(** [extract_deterministic_data] on a dict, with its two list branches
    named. *)
Lemma extract_unfold (x : gmap string pyval) :
  extract_deterministic_data (PDict x)
  = let seed := dict_get x "seed" PNone in
    let stage := dict_get x "stage" PNone in
    let deterministic :=
      dict_of [("seed", seed); ("stage", stage);
               ("words", PList []); ("keystrokes", PList [])] in
    deterministic ←
      match dict_get x "words" (PList []) with
      | PList ws =>
          s ← word_texts ws ≫= sorted; Ok (<["words" := PList s]> deterministic)
      | _ => Ok deterministic
      end;
    deterministic ←
      match dict_get x "keystrokes" (PList []) with
      | PList ks =>
          proj ← mapM keystroke_fields ks;
          Ok (<["keystrokes" := PList proj]> deterministic)
      | _ => Ok deterministic
      end;
    Ok (PDict deterministic).
Proof.
  unfold extract_deterministic_data, py_get. simpl.
  destruct (dict_get x "words" (PList [])); try done.
  by destruct (word_texts l).
Qed.



(** C9, as stated, fails: a [words] list that holds plain strings makes
    the canonicalizer raise. *)
Lemma canonicalizer_raises_on_bare_words :
  extract_deterministic_data (PDict session_with_bare_words) = Raise AttributeError
  ∧ calculate_hash (PDict session_with_bare_words) = Raise AttributeError.
Proof. split; vm_compute; reflexivity. Qed.

(** C9, amended: on a session object whose [words] list (if it is a list)
    holds objects with string texts and whose [keystrokes] list (if it is a
    list) holds objects, the canonical form and the digest are returned;
    a [words] or [keystrokes] field that is absent or not a list is replaced
    by the empty sequence. *)
Theorem canonicalizer_returns (x : gmap string pyval) :
  words_shape_ok x = true →
  keystrokes_shape_ok x = true →
  ∃ (c : gmap string pyval) (digest : string),
    extract_deterministic_data (PDict x) = Ok (PDict c)
    ∧ calculate_hash (PDict x) = Ok digest
    ∧ c !! "seed" = Some (dict_get x "seed" PNone)
    ∧ c !! "stage" = Some (dict_get x "stage" PNone)
    ∧ (list_field x "words" = None → c !! "words" = Some (PList []))
    ∧ (list_field x "keystrokes" = None → c !! "keystrokes" = Some (PList [])).
Proof.
  unfold words_shape_ok, keystrokes_shape_ok, list_field, calculate_hash.
  intros Hw Hk. rewrite extract_unfold. unfold dict_get. cbv zeta.
  set (d0 := dict_of _).
  assert (∃ d1 : gmap string pyval,
    match default (PList []) (x !! "words") with
    | PList ws => s ← word_texts ws ≫= sorted; Ok (<["words" := PList s]> d0)
    | _ => Ok d0
    end = Ok d1
    ∧ d1 !! "seed" = d0 !! "seed" ∧ d1 !! "stage" = d0 !! "stage"
    ∧ d1 !! "keystrokes" = d0 !! "keystrokes"
    ∧ (match x !! "words" with Some (PList _) => False | _ => True end →
       d1 !! "words" = Some (PList []))) as (d1 & -> & Hseed & Hstage & Hks & Hnw).
  { destruct (x !! "words") as [[| | | |ws|]|]; simpl;
      try (exists d0; repeat split; done).
    apply andb_prop in Hw as [Hd Hs].
    rewrite word_texts_spec, Hd. simpl.
    destruct (sorted_strings _ (texts_are_strings ws Hs)) as (r & -> & _).
    simpl. eexists. split; [done |].
    rewrite !lookup_insert_ne by done. done. }
  simpl.
  assert (∃ d2 : gmap string pyval,
    match default (PList []) (x !! "keystrokes") with
    | PList ks =>
        proj ← mapM keystroke_fields ks; Ok (<["keystrokes" := PList proj]> d1)
    | _ => Ok d1
    end = Ok d2
    ∧ d2 !! "seed" = d1 !! "seed" ∧ d2 !! "stage" = d1 !! "stage"
    ∧ d2 !! "words" = d1 !! "words"
    ∧ (match x !! "keystrokes" with Some (PList _) => False | _ => True end →
       d2 !! "keystrokes" = Some (PList []))) as (d2 & -> & Hseed' & Hstage' & Hws' & Hnk).
  { destruct (x !! "keystrokes") as [[| | | |ks|]|]; simpl;
      try (exists d1; repeat split; by rewrite ?Hks).
    - destruct (keystroke_fields_spec ks Hk) as [proj ->]. simpl.
      eexists. split; [done |].
      rewrite !lookup_insert_ne by done. done.
    - exists (<["keystrokes" := PList []]> d1). split; [done |].
      rewrite !lookup_insert_ne by done. by rewrite lookup_insert_eq. }
  simpl. exists d2, (SHA256.hexdigest (Json.dumps (PDict d2))).
  split; [done |]. split; [done |].
  rewrite Hseed', Hstage', Hseed, Hstage.
  split; [done |]. split; [done |].
  split.
  - intros Hnone. rewrite Hws'. apply Hnw.
    by destruct (x !! "words") as [[]|].
  - intros Hnone. apply Hnk. by destruct (x !! "keystrokes") as [[]|].
Qed.

Lemma canonicalizer_returns_witness :
  words_shape_ok session_without_arrays = true
  ∧ keystrokes_shape_ok session_without_arrays = true
  ∧ ∃ (c : gmap string pyval) (digest : string),
      extract_deterministic_data (PDict session_without_arrays) = Ok (PDict c)
      ∧ calculate_hash (PDict session_without_arrays) = Ok digest
      ∧ c !! "seed" = Some (dict_get session_without_arrays "seed" PNone)
      ∧ c !! "stage" = Some (dict_get session_without_arrays "stage" PNone)
      ∧ (list_field session_without_arrays "words" = None →
         c !! "words" = Some (PList []))
      ∧ (list_field session_without_arrays "keystrokes" = None →
         c !! "keystrokes" = Some (PList [])).
Proof.
  split; [vm_compute; reflexivity |].
  split; [vm_compute; reflexivity |].
  apply (canonicalizer_returns session_without_arrays); vm_compute; reflexivity.
Defined.

(** ** The validator and initials *)

(** C7 is not what the code does: [isupper] only asks that no character is
    lower-case and that one is upper-case, so a digit passes.  The submission
    below, with initials [A1B], is accepted without any violation. *)
Theorem validate_submission_accepts_digit_initials (ucd : N → charcase) :
  validate_submission ucd submission_with_digit_initials = Ok (true, []).
Proof. vm_compute. reflexivity. Qed.

(** Three upper-case letters are accepted and lower-case letters are
    rejected, as the message says. *)
Lemma validate_submission_initials_examples (ucd : N → charcase) :
  validate_submission ucd
    (with_initials (PStr "ABC") submission_with_digit_initials) = Ok (true, [])
  ∧ validate_submission ucd
      (with_initials (PStr "abc") submission_with_digit_initials)
    = Ok (false, ["Initials must be exactly 3 uppercase letters"])
  ∧ validate_submission ucd
      (with_initials (PStr "ABCD") submission_with_digit_initials)
    = Ok (false, ["Initials must be exactly 3 uppercase letters"])
  ∧ validate_submission ucd
      (with_initials (PStr "A-B") submission_with_digit_initials) = Ok (true, []).
Proof. repeat split; vm_compute; reflexivity. Qed.

(** What the validator does enforce: whenever the initials fail its test
    (missing, not a string, not three characters, a lower-case character, no
    upper-case character), the submission is rejected with an initials
    violation. *)
Lemma validate_submission_rejects_initials (ucd : N → charcase)
    (submission : pyval) (ok : bool) (errors : list string) :
  validate_submission ucd submission = Ok (ok, errors) →
  truthy (field submission "sessionData" PNone) = true →
  truthy (field submission "sessionHash" PNone) = true →
  initials_pass ucd (field submission "initials" PNone) = false →
  ok = false
  ∧ ("Missing initials" ∈ errors
     ∨ "Initials must be exactly 3 uppercase letters" ∈ errors).
Proof.
  destruct submission as [| | | | |d]; try done.
  unfold validate_submission, field, initials_pass. simpl.
  intros Hval Hdata Hhash Hfail. rewrite Hdata, Hhash in Hval. simpl in Hval.
  destruct (validate_session_data _) as [[is_valid data_errors]|]; [| done].
  simpl in Hval. injection Hval as <- <-.
  set (base := (data_errors ++ _) ++ _).
  assert (∀ e : string, Nat.eqb (length (base ++ [e])) 0 = false) as Hlen
    by (intros e; rewrite length_app; simpl; apply Nat.eqb_neq; lia).
  assert (∀ e : string, e ∈ base ++ [e]) as Hin
    by (intros e; apply elem_of_app; right; apply list_elem_of_here).
  destruct (dict_get d "initials" PNone) as [|b|n|i|l|d'] eqn:Hi; simpl in *.
  - auto.
  - destruct b; simpl; auto.
  - destruct (n =? 0); simpl; auto.
  - destruct (String.eqb i EmptyString); simpl in *; [auto |].
    destruct (Nat.eqb (py_len i) 3); simpl in *; [| auto].
    rewrite Hfail. simpl. auto.
  - destruct l; simpl; auto.
  - destruct (Nat.eqb (size d') 0); simpl; auto.
Qed.

(** ** Atomic writes *)

(** C6 is not what the code does when [json.dump] raises: [tmp_name] is
    bound only after the dump, so the handler does not remove the temporary
    file, which stays behind, partly written. *)
Theorem atomic_write_leaves_temp_file (fs : gmap string file)
    (filepath tmp : string) (data : pyval) (rf : bool) :
  atomic_write_json {| tmp_path := tmp; fault_at := DumpFails; remove_fails := rf |}
                    fs filepath data
  = (<[tmp := Garbled]> fs, false).
Proof. reflexivity. Qed.

(** The part of C6 that holds: whenever the write fails, the target keeps
    its contents and [False] is returned only then. *)
Lemma atomic_write_failure_keeps_target (env : io_env) (fs fs' : gmap string file)
    (filepath : string) (data : pyval) :
  tmp_path env ≠ filepath →
  atomic_write_json env fs filepath data = (fs', false) →
  fault_at env ≠ NoFault ∧ fs' !! filepath = fs !! filepath.
Proof.
  intros Hne. unfold atomic_write_json, try_block, cleanup.
  repeat case_decide; try destruct (remove_fails env);
    rewrite ?lookup_insert_eq; intros [= <-]; (split; [congruence |]);
    repeat first [rewrite lookup_delete_ne by done | rewrite lookup_insert_ne by done];
    done.
Qed.

(** After a failure at the close or at the move, the temporary file is
    removed (when [os.remove] itself works). *)
Lemma atomic_write_cleans_up_after_dump (env : io_env) (fs : gmap string file)
    (filepath : string) (data : pyval) :
  fs !! tmp_path env = None →
  remove_fails env = false →
  fault_at env = CloseFails ∨ fault_at env = MoveFails →
  atomic_write_json env fs filepath data = (fs, false).
Proof.
  intros Hfresh Hrm Hfault. unfold atomic_write_json, try_block, cleanup.
  destruct Hfault as [-> | ->]; simpl;
    rewrite lookup_insert_eq, Hrm, !delete_insert_eq; f_equal; by apply delete_id.
Qed.

Lemma atomic_write_success (env : io_env) (fs : gmap string file)
    (filepath : string) (data : pyval) :
  fault_at env = NoFault →
  atomic_write_json env fs filepath data
  = (<[filepath := JsonFile data]> (delete (tmp_path env) fs), true).
Proof.
  intros Hfault. unfold atomic_write_json, try_block. rewrite Hfault.
  repeat case_decide; try done. by rewrite !delete_insert_eq.
Qed.

(** ** Equality of hashable values *)

Lemma py_eq_norm (a b : pyval) :
  hashable a = true → hashable b = true →
  py_eq a b = true ↔ norm a = norm b.
Proof.
  destruct a as [|x|n|s| |], b as [|y|m|t| |]; simpl; intros Ha Hb;
    try discriminate; clear Ha Hb;
    try (split; [done | congruence]); try done.
  - destruct x, y; simpl; split; congruence.
  - destruct x; rewrite Z.eqb_eq; split; congruence.
  - destruct y; rewrite Z.eqb_eq; split; congruence.
  - rewrite Z.eqb_eq. split; congruence.
  - rewrite String.eqb_eq. split; congruence.
Qed.

Lemma py_eq_false_norm (a b : pyval) :
  hashable a = true → hashable b = true →
  py_eq a b = false ↔ norm a ≠ norm b.
Proof.
  intros Ha Hb. rewrite <- (py_eq_norm a b Ha Hb).
  by destruct (py_eq a b).
Qed.

Lemma truthy_norm (a : pyval) : truthy (norm a) = truthy a.
Proof. by destruct a as [|[]| | | |]. Qed.

Lemma hashable_norm (a : pyval) : hashable (norm a) = hashable a.
Proof. by destruct a. Qed.

Lemma existsb_py_eq_false (k : pyval) (seen : list pyval) :
  hashable k = true → Forall (λ s, hashable s = true) seen →
  existsb (py_eq k) seen = false ↔ norm k ∉ norm <$> seen.
Proof.
  intros Hk. induction 1 as [|s seen Hs _ IH]; simpl.
  - split; [intros _; apply not_elem_of_nil | done].
  - rewrite orb_false_iff, IH, not_elem_of_cons, (py_eq_false_norm k s) by done.
    done.
Qed.

(** ** The de-duplication loop *)

Section Dedup.
Context (key : pyval → res pyval) (kf : pyval → pyval).

Lemma unique_by_dedup (seen l : list pyval) :
  Forall (λ x, key x = Ok (kf x) ∧ hashable (kf x) = true) l →
  unique_by key seen l = Ok (dedup kf seen l).
Proof.
  intros Hl. revert seen.
  induction Hl as [|x l [Hkey Hhash] _ IH]; intros seen; [done |].
  simpl. rewrite Hkey. simpl. unfold set_contains. rewrite Hhash.
  destruct (truthy (kf x)); simpl; [| done].
  destruct (existsb (py_eq (kf x)) seen); simpl; [done |].
  by rewrite IH.
Qed.

(** Without any assumption: what the loop returns is a sublist of its
    input whose keys are all truthy. *)
Lemma unique_by_sublist (seen l r : list pyval) :
  unique_by key seen l = Ok r →
  r `sublist_of` l ∧ Forall (λ x, ∃ k, key x = Ok k ∧ truthy k = true) r.
Proof.
  revert seen r. induction l as [|x l IH]; intros seen r; simpl.
  - intros [= <-]. split; constructor.
  - destruct (key x) as [k|] eqn:Hk; simpl; [| done].
    destruct (truthy k) eqn:Ht.
    + destruct (set_contains seen k) as [[]|]; simpl; [| | done].
      * intros Hr. destruct (IH _ _ Hr). split; [by constructor | done].
      * destruct (unique_by key (k :: seen) l) as [r'|] eqn:Hr'; simpl; [| done].
        intros [= <-]. destruct (IH _ _ Hr').
        split; [by constructor |]. constructor; [by exists k | done].
    + intros Hr. destruct (IH _ _ Hr). split; [by constructor | done].
Qed.

Lemma dedup_sublist (seen l : list pyval) : dedup kf seen l `sublist_of` l.
Proof.
  revert seen. induction l as [|x l IH]; intros seen; simpl; [constructor |].
  destruct (_ && _); by constructor.
Qed.

Lemma dedup_fresh (seen l : list pyval) (e : pyval) :
  e ∈ dedup kf seen l →
  truthy (kf e) = true ∧ existsb (py_eq (kf e)) seen = false.
Proof.
  revert seen. induction l as [|x l IH]; intros seen; simpl.
  - by intros ?%elem_of_nil.
  - destruct (truthy (kf x) && negb (existsb (py_eq (kf x)) seen)) eqn:Hx.
    + apply andb_prop in Hx as [Ht Hn]. apply negb_true_iff in Hn.
      intros [-> | He]%elem_of_cons; [done |].
      destruct (IH _ He) as [Hte Hse]. simpl in Hse.
      by apply orb_false_iff in Hse as [_ ?].
    + apply IH.
Qed.

Lemma dedup_NoDup (seen l : list pyval) :
  Forall (λ x, hashable (kf x) = true) l →
  NoDup ((norm ∘ kf) <$> dedup kf seen l).
Proof.
  intros Hl. revert seen.
  induction Hl as [|x l Hx Hl IH]; intros seen; simpl; [constructor |].
  destruct (_ && _); [| apply IH].
  simpl. constructor; [| apply IH].
  intros (y & Hy & Hin)%list_elem_of_fmap. simpl in Hy.
  assert (y ∈ l) as Hyl by (eapply elem_of_sublist; [done | apply dedup_sublist]).
  destruct (dedup_fresh _ _ _ Hin) as [_ Hfresh]. simpl in Hfresh.
  apply orb_false_iff in Hfresh as [Hne _].
  rewrite Forall_forall in Hl.
  apply py_eq_false_norm in Hne; [congruence | by apply Hl | done].
Qed.

(** The survivors are exactly the first occurrences of the truthy keys
    that were not seen before. *)
Lemma dedup_first (seen l : list pyval) (e : pyval) :
  Forall (λ x, hashable (kf x) = true) l →
  Forall (λ s, hashable s = true) seen →
  e ∈ dedup kf seen l
  ↔ truthy (kf e) = true
    ∧ find (λ y, py_eq (kf y) (kf e)) l = Some e
    ∧ existsb (py_eq (kf e)) seen = false.
Proof.
  intros Hl. revert seen.
  induction Hl as [|x l Hx Hl IH]; intros seen Hseen; simpl.
  - split; [by intros ?%elem_of_nil | by intros (_ & ? & _)].
  - assert (∀ e', find (λ y, py_eq (kf y) (kf e')) l = Some e' →
                  hashable (kf e') = true) as Hfind.
    { intros e' [He' _]%find_some. apply list_elem_of_In in He'.
      rewrite Forall_forall in Hl. by apply Hl. }
    destruct (truthy (kf x) && negb (existsb (py_eq (kf x)) seen)) eqn:Hcond.
    + apply andb_prop in Hcond as [Ht Hn]. apply negb_true_iff in Hn.
      rewrite elem_of_cons, IH by (by constructor). simpl. split.
      * intros [-> | (Hte & Hfe & Hse)].
        { split; [done |]. split; [| done].
          by rewrite (proj2 (py_eq_norm (kf x) (kf x) Hx Hx) eq_refl). }
        apply orb_false_iff in Hse as [Hex Hse].
        split; [done |]. split; [| done].
        pose proof (Hfind _ Hfe) as He.
        apply py_eq_false_norm in Hex; [| done..].
        assert (py_eq (kf x) (kf e) = false) as ->
          by (apply py_eq_false_norm; [done.. | congruence]).
        done.
      * intros (Hte & Hfe & Hse).
        destruct (py_eq (kf x) (kf e)) eqn:Hxe; [left; congruence |].
        right. split; [done |]. split; [done |].
        pose proof (Hfind _ Hfe) as He.
        apply orb_false_iff. split; [| done].
        apply py_eq_false_norm in Hxe; [| done..].
        apply py_eq_false_norm; [done.. | congruence].
    + rewrite IH by done. split.
      * intros (Hte & Hfe & Hse). split; [done |]. split; [| done].
        pose proof (Hfind _ Hfe) as He.
        destruct (py_eq (kf x) (kf e)) eqn:Hxe; [| done]. exfalso.
        apply py_eq_norm in Hxe; [| done..].
        apply existsb_py_eq_false in Hse; [| done..].
        assert (truthy (kf x) = true) as Htx
          by (rewrite <- truthy_norm, Hxe, truthy_norm; done).
        rewrite Htx in Hcond. simpl in Hcond. apply negb_false_iff in Hcond.
        assert (existsb (py_eq (kf x)) seen ≠ false) as Hcontra by congruence.
        apply Hcontra. apply existsb_py_eq_false; [done.. | congruence].
      * intros (Hte & Hfe & Hse).
        destruct (py_eq (kf x) (kf e)) eqn:Hxe.
        { injection Hfe as ->. by rewrite Hte, Hse in Hcond. }
        done.
Qed.

Lemma dedup_all (seen l : list pyval) :
  Forall (λ x, hashable (kf x) = true ∧ truthy (kf x) = true) l →
  Forall (λ s, hashable s = true) seen →
  Forall (λ x, norm (kf x) ∉ norm <$> seen) l →
  NoDup ((norm ∘ kf) <$> l) →
  dedup kf seen l = l.
Proof.
  intros Hl. revert seen.
  induction Hl as [|x l [Hh Ht] Hl IH]; intros seen Hseen Hfresh Hnd; [done |].
  apply Forall_cons in Hfresh as [Hx Hfresh].
  rewrite fmap_cons in Hnd. apply NoDup_cons in Hnd as [Hnx Hnd].
  simpl. rewrite Ht.
  rewrite (proj2 (existsb_py_eq_false (kf x) seen Hh Hseen) Hx). simpl.
  f_equal. apply IH; [by constructor | | done].
  rewrite Forall_forall in Hfresh |- *. intros y Hy.
  rewrite fmap_cons, not_elem_of_cons. split; [| by apply Hfresh].
  intros Heq. apply Hnx. apply list_elem_of_fmap. exists y.
  split; [by simpl; rewrite Heq | done].
Qed.
End Dedup.

(** ** Sorting on a pair of numbers *)

Lemma py_eq_numbers (p q : pyval) (a b : Z) :
  as_int p = Some a → as_int q = Some b → py_eq p q = (a =? b).
Proof.
  destruct p as [|x|n| | |], q as [|y|m| | |]; simpl; try done;
    intros [= <-] [= <-]; try done.
  by destruct x, y.
Qed.

Lemma py_lt_numbers (p q : pyval) (a b : Z) :
  as_int p = Some a → as_int q = Some b → py_lt p q = Ok (a <? b).
Proof.
  destruct p as [|x|n| | |], q as [|y|m| | |]; simpl; try done;
    by intros [= <-] [= <-].
Qed.

Lemma tuple_lt_numbers (k k' : pyval * pyval) (z z' : Z * Z) :
  as_int k.1 = Some z.1 → as_int k.2 = Some z.2 →
  as_int k'.1 = Some z'.1 → as_int k'.2 = Some z'.2 →
  tuple_lt k k' = Ok (lex_ltb z z').
Proof.
  intros H1 H2 H1' H2'. unfold tuple_lt, lex_ltb.
  rewrite (py_eq_numbers _ _ _ _ H1 H1'), (py_eq_numbers _ _ _ _ H2 H2'),
    (py_lt_numbers _ _ _ _ H1 H1'), (py_lt_numbers _ _ _ _ H2 H2').
  destruct (z.1 =? z'.1) eqn:E1; [| by rewrite orb_false_r].
  apply Z.eqb_eq in E1. rewrite E1, Z.ltb_irrefl. simpl.
  destruct (z.2 =? z'.2) eqn:E2; [| done].
  apply Z.eqb_eq in E2. by rewrite E2, Z.ltb_irrefl.
Qed.

Lemma lex_ltb_false (a b : Z * Z) : lex_ltb b a = false ↔ lex_le a b.
Proof.
  unfold lex_ltb, lex_le.
  rewrite orb_false_iff, andb_false_iff, !Z.ltb_ge, Z.eqb_neq. lia.
Qed.

Lemma lex_ltb_true (a b : Z * Z) :
  lex_ltb a b = true ↔ a.1 < b.1 ∨ (a.1 = b.1 ∧ a.2 < b.2).
Proof.
  unfold lex_ltb. rewrite orb_true_iff, andb_true_iff, !Z.ltb_lt, Z.eqb_eq. lia.
Qed.

Lemma mapM_keys (f : pyval → res (pyval * pyval)) (l : list pyval)
    (keyed : list ((pyval * pyval) * pyval)) :
  mapM (λ x, k ← f x; Ok (k, x)) l = Ok keyed →
  keyed.*2 = l ∧ Forall (λ kx, f kx.2 = Ok kx.1) keyed.
Proof.
  revert keyed. induction l as [|x l IH]; intros keyed; simpl.
  - intros [= <-]. by split.
  - destruct (f x) as [k|] eqn:Hk; simpl; [| done].
    destruct (mapM _ l) as [keyed'|]; simpl; [| done].
    intros [= <-]. destruct (IH _ eq_refl) as [Hl Hf].
    split; [rewrite fmap_cons; by f_equal | by constructor].
Qed.

Lemma mapM_keys_ok (f : pyval → res (pyval * pyval)) (l : list pyval) :
  Forall (λ x, is_ok (f x) = true) l →
  ∃ keyed, mapM (λ x, k ← f x; Ok (k, x)) l = Ok keyed.
Proof.
  induction 1 as [|x l Hx _ [keyed IH]]; [by exists [] |].
  simpl. destruct (f x) as [k|]; [| done]. simpl. rewrite IH. simpl.
  by eexists.
Qed.

(** A sort that returns has permuted its input. *)
Lemma sort_with_key_perm (f : pyval → res (pyval * pyval)) (l s : list pyval) :
  sort_with_key f l = Ok s → s ≡ₚ l.
Proof.
  unfold sort_with_key.
  intros (keyed & Hkeyed & (r & Hr & [= <-])%bind_ok_inv)%bind_ok_inv.
  apply mapM_keys in Hkeyed as [<- _].
  apply fmap_Permutation. by apply sort_by_perm in Hr.
Qed.

(** When every key is a pair of numbers [kz x], the sort returns and its
    result is ordered by [kz]. *)
Lemma sort_with_key_sorted (f : pyval → res (pyval * pyval))
    (kz : pyval → Z * Z) (l : list pyval) :
  Forall (λ x, ∃ k, f x = Ok k ∧ as_int k.1 = Some (kz x).1
                    ∧ as_int k.2 = Some (kz x).2) l →
  ∃ s, sort_with_key f l = Ok s ∧ s ≡ₚ l
       ∧ StronglySorted (λ a b, lex_le (kz a) (kz b)) s.
Proof.
  intros Hl. unfold sort_with_key.
  destruct (mapM_keys_ok f l) as [keyed Hkeyed].
  { eapply Forall_impl; [done |]. by intros x (k & -> & _). }
  rewrite Hkeyed. simpl.
  destruct (mapM_keys _ _ _ Hkeyed) as [Hsnd Hkeys].
  set (P := λ kx : (pyval * pyval) * pyval,
              as_int kx.1.1 = Some (kz kx.2).1 ∧ as_int kx.1.2 = Some (kz kx.2).2).
  assert (Forall P keyed) as HP.
  { apply Forall_forall. intros kx Hkx.
    rewrite Forall_forall in Hkeys. rewrite Forall_forall in Hl.
    destruct (Hl kx.2) as (k & Hk & H1 & H2).
    { rewrite <- Hsnd. apply list_elem_of_fmap. by exists kx. }
    rewrite (Hkeys kx Hkx) in Hk. injection Hk as <-. by split. }
  destruct (sort_by_sorted (λ a b, tuple_lt a.1 b.1)
              (λ a b, lex_ltb (kz a.2) (kz b.2)) P) with (l := keyed)
    as (r & -> & Hperm & Hsorted); [| | | done |].
  - intros x y [? ?] [? ?]. by apply tuple_lt_numbers.
  - intros x y z _ _ _. unfold not_after. rewrite !lex_ltb_false.
    unfold lex_le. lia.
  - intros x y _ _. unfold not_after. rewrite lex_ltb_true, lex_ltb_false.
    unfold lex_le. lia.
  - simpl. eexists. split; [done |]. split.
    + rewrite <- Hsnd. by apply fmap_Permutation.
    + eapply StronglySorted_fmap; [| done].
      intros x y. unfold not_after. by rewrite lex_ltb_false.
Qed.

(** ** Truncation and ranks *)

Lemma slice_to_sublist (n : Z) (l : list pyval) : slice_to n l `sublist_of` l.
Proof. unfold slice_to. destruct (n <? 0); apply sublist_take. Qed.

Lemma slice_to_take (n : Z) (l : list pyval) :
  0 ≤ n → slice_to n l = take (Z.to_nat n) l.
Proof. intros Hn. unfold slice_to. by rewrite (proj2 (Z.ltb_ge n 0) Hn). Qed.

Lemma StronglySorted_take {A} (R : relation A) (n : nat) (l : list A) :
  StronglySorted R l → StronglySorted R (take n l).
Proof.
  intros Hl. rewrite <- (take_drop n l) in Hl.
  by apply StronglySorted_app_1_l in Hl.
Qed.

Lemma assign_ranks_inv (start : Z) (l r : list pyval) :
  assign_ranks start l = Ok r → r = with_ranks start l.
Proof.
  revert start r. induction l as [|x l IH]; intros start r; simpl.
  - by intros [= <-].
  - destruct x as [| | | | |d]; try done.
    destruct (assign_ranks (start + 1) l) as [r'|] eqn:Hr'; simpl; [| done].
    intros [= <-]. by rewrite (IH _ _ Hr').
Qed.

Lemma assign_ranks_ok (start : Z) (l : list pyval) :
  Forall (λ x, is_dict x = true) l →
  assign_ranks start l = Ok (with_ranks start l).
Proof.
  intros Hl. revert start.
  induction Hl as [|x l Hx _ IH]; intros start; [done |].
  destruct x; try done. simpl. by rewrite IH.
Qed.

Lemma length_with_ranks (start : Z) (l : list pyval) :
  length (with_ranks start l) = length l.
Proof. revert start. induction l; intros; simpl; [done | by f_equal]. Qed.

Lemma elem_of_with_ranks (start : Z) (l : list pyval) (e : pyval) :
  e ∈ with_ranks start l ↔ ∃ i x, l !! i = Some x
                                  ∧ e = set_rank (start + Z.of_nat i) x.
Proof.
  revert start. induction l as [|y l IH]; intros start; simpl.
  - split; [by intros ?%elem_of_nil | by intros (i & x & ? & _)].
  - rewrite elem_of_cons, IH. split.
    + intros [-> | (i & x & Hi & ->)].
      * exists 0%nat, y. split; [done |]. f_equal. lia.
      * exists (S i), x. split; [done |]. f_equal. lia.
    + intros ([|i] & x & Hi & ->); simpl in Hi.
      * injection Hi as ->. left. f_equal. lia.
      * right. exists i, x. split; [done |]. f_equal. lia.
Qed.

Lemma field_set_rank (r : Z) (s : pyval) (k : string) (dflt : pyval) :
  k ≠ "rank" → field (set_rank r s) k dflt = field s k dflt.
Proof.
  intros Hk. destruct s; try done. simpl. unfold dict_get.
  by rewrite lookup_insert_ne.
Qed.

Lemma fmap_with_ranks {B} (g : pyval → B) (start : Z) (l : list pyval) :
  (∀ r x, g (set_rank r x) = g x) → g <$> with_ranks start l = g <$> l.
Proof.
  intros Hg. revert start.
  induction l as [|x l IH]; intros start; simpl; [done |].
  by rewrite Hg, IH.
Qed.

Lemma ranks_with_ranks (start : Z) (l : list pyval) :
  Forall (λ x, is_dict x = true) l →
  rank_of <$> with_ranks start l = PInt <$> seqZ start (Z.of_nat (length l)).
Proof.
  intros Hl. revert start.
  induction Hl as [|x l Hx _ IH]; intros start; [done |].
  simpl length. rewrite seqZ_cons by lia. simpl. f_equal.
  - destruct x; try done. unfold rank_of. simpl. unfold dict_get.
    by rewrite lookup_insert_eq.
  - rewrite IH. do 2 f_equal; lia.
Qed.

Lemma StronglySorted_with_ranks (R : relation pyval) (start : Z) (l : list pyval) :
  (∀ r r' x y, R x y → R (set_rank r x) (set_rank r' y)) →
  StronglySorted R l → StronglySorted R (with_ranks start l).
Proof.
  intros HR Hl. revert start.
  induction Hl as [|x l _ IH Hx]; intros start; simpl; [constructor |].
  constructor; [apply IH |].
  rewrite Forall_forall in Hx |- *.
  intros e (i & y & Hy & ->)%elem_of_with_ranks.
  apply HR, Hx. by eapply list_elem_of_lookup_2.
Qed.

(** ** The leaderboard merge *)

Lemma forallb_Forall {A} (f : A → bool) (l : list A) :
  forallb f l = true ↔ Forall (λ x, f x = true) l.
Proof.
  induction l as [|x l IH]; simpl; [by split; [constructor |] |].
  rewrite andb_true_iff, Forall_cons, IH. done.
Qed.

Lemma Forall_sublist {A} (P : A → Prop) (l k : list A) :
  l `sublist_of` k → Forall P k → Forall P l.
Proof.
  rewrite !Forall_forall. intros Hsub Hk x Hx.
  apply Hk. by eapply elem_of_sublist.
Qed.

Lemma StronglySorted_mono {A} (R1 R2 : relation A) (l : list A) :
  (∀ x y, R1 x y → R2 x y) → StronglySorted R1 l → StronglySorted R2 l.
Proof.
  intros HR Hl. rewrite <- (list_fmap_id l).
  by apply (StronglySorted_fmap id R1 R2).
Qed.

Lemma concat_with_existing_ok (existing : pyval) (field_name : string)
    (old new : list pyval) :
  existing_list existing field_name = Some old →
  concat_with_existing existing field_name new = Ok (old ++ new).
Proof.
  unfold existing_list, concat_with_existing.
  destruct existing as [| | | | |d]; try done. simpl.
  destruct (dict_get d field_name (PList [])); try done.
  by intros [= ->].
Qed.

Lemma concat_with_existing_inv (existing : pyval) (field_name : string)
    (new all : list pyval) :
  concat_with_existing existing field_name new = Ok all →
  ∃ old, existing_list existing field_name = Some old ∧ all = old ++ new.
Proof.
  unfold existing_list, concat_with_existing.
  destruct existing as [| | | | |d]; try done. simpl.
  destruct (dict_get d field_name (PList [])) as [| | | |old|]; try done.
  intros [= <-]. by exists old.
Qed.

Lemma score_entry_facts (s : pyval) :
  is_score_entry s = true →
  is_dict s = true
  ∧ py_get s "sessionHash" PNone = Ok (session_hash_of s)
  ∧ hashable (session_hash_of s) = true
  ∧ ∃ k, score_key s = Ok k ∧ as_int k.1 = Some (- wpm_of s)
         ∧ as_int k.2 = Some (timestamp_of s).
Proof.
  unfold is_score_entry. rewrite !andb_true_iff.
  intros [[[Hd Hh] Hw] Ht].
  destruct s as [| | | | |d]; try done.
  repeat split; [done |].
  unfold score_key, wpm_of, timestamp_of, is_number, py_neg in *. simpl in *.
  destruct (as_int (dict_get d "wpm" (PInt 0))) as [w|]; [| done].
  destruct (as_int (dict_get d "timestamp" (PInt 0))) as [t|] eqn:Et; [| done].
  simpl. by eexists.
Qed.

Lemma score_order_set_rank (r r' : Z) (x y : pyval) :
  score_order x y → score_order (set_rank r x) (set_rank r' y).
Proof.
  unfold score_order, wpm_of, timestamp_of.
  by rewrite !field_set_rank.
Qed.

Lemma session_hash_set_rank (r : Z) (x : pyval) :
  session_hash_of (set_rank r x) = session_hash_of x.
Proof. by apply field_set_rank. Qed.

Lemma is_dict_set_rank (r : Z) (x : pyval) : is_dict (set_rank r x) = is_dict x.
Proof. by destruct x. Qed.

(** The merge, step by step, on entries it can process: de-duplicate, sort,
    truncate, rank. *)
Lemma generate_leaderboard_spec (fs : gmap string file) (now : Z)
    (L1 L2 : list pyval) (path : string) (N : Z) :
  stored_scores fs path = Some L1 →
  forallb is_score_entry (L1 ++ L2) = true →
  ∃ s, generate_leaderboard fs now L2 path N
       = Ok (leaderboard_doc now (with_ranks 1 (slice_to N s)))
       ∧ s ≡ₚ dedup session_hash_of [] (L1 ++ L2)
       ∧ StronglySorted score_order s.
Proof.
  intros Hstored Hentries. apply forallb_Forall in Hentries.
  unfold generate_leaderboard.
  rewrite (concat_with_existing_ok _ _ L1) by done. simpl.
  rewrite (unique_by_dedup _ session_hash_of).
  2:{ eapply Forall_impl; [done |].
      by intros x (_ & ? & ? & _)%score_entry_facts. }
  simpl.
  set (u := dedup session_hash_of [] (L1 ++ L2)).
  assert (Forall (λ x, is_score_entry x = true) u) as Hu
    by (eapply Forall_sublist; [apply dedup_sublist | done]).
  destruct (sort_with_key_sorted score_key
              (λ x, (- wpm_of x, timestamp_of x)) u) as (s & -> & Hperm & Hs).
  { eapply Forall_impl; [done |].
    by intros x (_ & _ & _ & ?)%score_entry_facts. }
  simpl. rewrite assign_ranks_ok.
  2:{ eapply Forall_sublist; [apply slice_to_sublist |].
      rewrite Hperm. eapply Forall_impl; [done |].
      by intros x (? & _)%score_entry_facts. }
  simpl. exists s. split; [done |]. split; [done |].
  eapply StronglySorted_mono; [| done].
  intros x y. unfold lex_le, score_order. simpl. lia.
Qed.




Lemma NoDup_fmap_const_length {A B} (g : A → B) (c : B) (l : list A) :
  NoDup (g <$> l) → Forall (λ x, g x = c) l → (length l ≤ 1)%nat.
Proof.
  destruct l as [|x [|y l]]; simpl; [lia.. |].
  intros Hnd Hall. exfalso.
  apply NoDup_cons in Hnd as [Hx _].
  apply Forall_cons in Hall as [Hgx Hall].
  apply Forall_cons in Hall as [Hgy _].
  apply Hx. rewrite Hgx, <- Hgy. apply list_elem_of_here.
Qed.

Lemma find_ext_in {A} (p q : A → bool) (l : list A) :
  Forall (λ x, p x = q x) l → find p l = find q l.
Proof.
  induction 1 as [|x l Hx _ IH]; simpl; [done |]. by rewrite Hx, IH.
Qed.

Lemma find_elem_of {A} (p : A → bool) (l : list A) (x : A) :
  find p l = Some x → x ∈ l ∧ p x = true.
Proof. intros [Hin Hp]%find_some. by rewrite list_elem_of_In. Qed.

(** Two hashable keys that equal [h] equal each other. *)
Lemma hash_is_same_key (h a b : pyval) :
  hashable h = true → hashable a = true → hashable b = true →
  py_eq a h = true → py_eq b a = py_eq b h.
Proof.
  intros Hh Ha Hb Hah. apply py_eq_norm in Hah; [| done..].
  destruct (py_eq b h) eqn:Hbh.
  - apply py_eq_norm in Hbh; [| done..]. apply py_eq_norm; [done.. | congruence].
  - apply py_eq_false_norm in Hbh; [| done..].
    apply py_eq_false_norm; [done.. | congruence].
Qed.

(** C4, as stated, fails: with a cap of one entry, the pair of incoming
    scores that share a hash leaves no entry at all for that hash. *)
Lemma merge_can_drop_both_duplicates :
  length (filter (λ e, hash_is (PStr "def456") e = true)
                 ([set_rank 1 stored_entry] ++ incoming_twice)) = 2%nat
  ∧ ∃ top,
      generate_leaderboard sample_fs 1705161500000 incoming_twice
        leaderboard_path 1
      = Ok (leaderboard_doc 1705161500000 top)
      ∧ filter (λ e, hash_is (PStr "def456") e = true) top = [].
Proof.
  split; [vm_compute; reflexivity |].
  exists [set_rank 1 stored_entry]. split; vm_compute; reflexivity.
Qed.

(** C4, amended: for a non-empty hash [h], the merged leaderboard holds at
    most one entry with that hash; such an entry is the first entry with
    hash [h] of the existing scores followed by the incoming ones, with its
    rank set; and when some entry has hash [h], that first occurrence is in
    the leaderboard unless the leaderboard is full ([max_scores] entries). *)
Theorem generate_leaderboard_first_occurrence (fs : gmap string file) (now : Z)
    (L1 L2 : list pyval) (path : string) (N : Z) (h : pyval) :
  stored_scores fs path = Some L1 →
  forallb is_score_entry (L1 ++ L2) = true →
  hashable h = true → truthy h = true →
  0 ≤ N →
  ∃ top,
    generate_leaderboard fs now L2 path N = Ok (leaderboard_doc now top)
    ∧ (length (filter (λ e, hash_is h e = true) top) ≤ 1)%nat
    ∧ (∀ e, e ∈ top → hash_is h e = true →
            ∃ f r, find (hash_is h) (L1 ++ L2) = Some f ∧ e = set_rank r f)
    ∧ (∀ f, find (hash_is h) (L1 ++ L2) = Some f →
            (∃ r, set_rank r f ∈ top) ∨ length top = Z.to_nat N).
Proof.
  intros Hstored Hentries Hh Ht HN.
  destruct (generate_leaderboard_spec fs now L1 L2 path N Hstored Hentries)
    as (s & Hgen & Hperm & _).
  apply forallb_Forall in Hentries.
  assert (Forall (λ x, hashable (session_hash_of x) = true) (L1 ++ L2)) as Hhash.
  { eapply Forall_impl; [exact Hentries |].
    by intros x (_ & _ & ? & _)%score_entry_facts. }
  rewrite slice_to_take in Hgen by done.
  set (n := Z.to_nat N) in *.
  exists (with_ranks 1 (take n s)). split; [done |].
  assert (∀ x, x ∈ s → x ∈ L1 ++ L2) as Hs_in.
  { intros x Hx. rewrite Hperm in Hx.
    eapply elem_of_sublist; [done | apply dedup_sublist]. }
  assert (∀ x, x ∈ take n s → x ∈ s) as Htake_in.
  { intros x Hx. eapply elem_of_sublist; [done | apply sublist_take]. }
  split; [| split].
  - (* at most one *)
    apply (NoDup_fmap_const_length (norm ∘ session_hash_of) (norm h)).
    + eapply sublist_NoDup; [| apply fmap_sublist, sublist_filter].
      rewrite (fmap_with_ranks (norm ∘ session_hash_of))
        by (intros; simpl; by rewrite session_hash_set_rank).
      eapply sublist_NoDup; [| apply fmap_sublist, sublist_take].
      rewrite Hperm. by apply dedup_NoDup.
    + apply Forall_forall. intros e [He Hin]%list_elem_of_filter.
      apply elem_of_with_ranks in Hin as (i & x & Hx & ->).
      unfold hash_is in He. rewrite session_hash_set_rank in He.
      simpl. rewrite session_hash_set_rank.
      apply py_eq_norm; [| done..].
      rewrite Forall_forall in Hhash. apply Hhash, Hs_in, Htake_in.
      by eapply list_elem_of_lookup_2.
  - (* it is the first occurrence *)
    intros e (i & x & Hx & ->)%elem_of_with_ranks He.
    unfold hash_is in He. rewrite session_hash_set_rank in He.
    exists x, (1 + Z.of_nat i). split; [| done].
    assert (x ∈ s) as Hxs by (by eapply Htake_in, list_elem_of_lookup_2).
    pose proof Hxs as Hxd. rewrite Hperm in Hxd.
    apply (dedup_first session_hash_of) in Hxd as (_ & Hfind & _);
      [| done | constructor].
    rewrite <- Hfind. apply find_ext_in.
    eapply Forall_impl; [exact Hhash |]. intros y Hy. unfold hash_is.
    symmetry. apply hash_is_same_key; [done | | done..].
    rewrite Forall_forall in Hhash. by apply Hhash, Hs_in.
  - (* it is there unless the leaderboard is full *)
    intros f Hfind. destruct (find_elem_of _ _ _ Hfind) as [Hin Hf].
    unfold hash_is in Hf.
    assert (hashable (session_hash_of f) = true) as Hhf
      by (rewrite Forall_forall in Hhash; by apply Hhash).
    assert (f ∈ s) as Hfs.
    { rewrite Hperm. apply (dedup_first session_hash_of); [done | constructor |].
      split; [| split; [| done]].
      - apply py_eq_norm in Hf; [| done..].
        by rewrite <- truthy_norm, Hf, truthy_norm.
      - rewrite <- Hfind. apply find_ext_in.
        eapply Forall_impl; [exact Hhash |]. intros y Hy. unfold hash_is.
        by apply hash_is_same_key. }
    destruct (decide (length s ≤ n)%nat) as [Hle | Hgt].
    + left. rewrite take_ge by done.
      apply list_elem_of_lookup_1 in Hfs as [i Hi].
      exists (1 + Z.of_nat i). apply elem_of_with_ranks. by exists i, f.
    + right. rewrite length_with_ranks, length_take. lia.
Qed.


Lemma generate_leaderboard_first_occurrence_witness :
  generate_leaderboard sample_fs 1705161500000 incoming_twice leaderboard_path 2
  = Ok (leaderboard_doc 1705161500000
          [ set_rank 1 stored_entry;
            set_rank 2 (score (PStr "def456") 130 1705161300000) ])
  ∧ ∃ top,
      generate_leaderboard sample_fs 1705161500000 incoming_twice
        leaderboard_path 2
      = Ok (leaderboard_doc 1705161500000 top)
      ∧ (length (filter (λ e, hash_is (PStr "def456") e = true) top) ≤ 1)%nat
      ∧ (∀ e, e ∈ top → hash_is (PStr "def456") e = true →
              ∃ f r, find (hash_is (PStr "def456"))
                          ([set_rank 1 stored_entry] ++ incoming_twice) = Some f
                     ∧ e = set_rank r f)
      ∧ (∀ f, find (hash_is (PStr "def456"))
                   ([set_rank 1 stored_entry] ++ incoming_twice) = Some f →
              (∃ r, set_rank r f ∈ top) ∨ length top = Z.to_nat 2).
Proof.
  split; [vm_compute; reflexivity |].
  apply (generate_leaderboard_first_occurrence sample_fs 1705161500000
           [set_rank 1 stored_entry] incoming_twice leaderboard_path 2
           (PStr "def456")).
  - vm_compute; reflexivity.
  - vm_compute; reflexivity.
  - reflexivity.
  - reflexivity.
  - lia.
Defined.

(** C10: whatever the inputs, when the merge returns, every entry of the
    leaderboard has a truthy [sessionHash], and is an existing or incoming
    entry with a truthy [sessionHash] whose rank has been set: an entry
    whose hash is missing, empty or otherwise falsy never gets in. *)
Theorem leaderboard_entries_have_session_hash (fs : gmap string file) (now : Z)
    (scores : list pyval) (path : string) (N : Z) (lb : pyval) :
  generate_leaderboard fs now scores path N = Ok lb →
  ∃ existing top,
    stored_scores fs path = Some existing
    ∧ lb = leaderboard_doc now top
    ∧ Forall (λ e, truthy (session_hash_of e) = true
                   ∧ ∃ x r, x ∈ existing ++ scores
                            ∧ truthy (session_hash_of x) = true
                            ∧ e = set_rank r x) top.
Proof.
  unfold generate_leaderboard.
  intros (all & Hall & (u & Hu & (s & Hs & (r & Hr & [= <-])%bind_ok_inv)
                                   %bind_ok_inv)%bind_ok_inv)%bind_ok_inv.
  apply concat_with_existing_inv in Hall as (existing & Hex & ->).
  apply unique_by_sublist in Hu as [Hsub Hkeys].
  apply sort_with_key_perm in Hs.
  apply assign_ranks_inv in Hr as ->.
  exists existing, (with_ranks 1 (slice_to N s)).
  split; [done |]. split; [done |].
  apply Forall_forall. intros e (i & x & Hx & ->)%elem_of_with_ranks.
  assert (x ∈ u) as Hxu.
  { rewrite <- Hs. eapply elem_of_sublist; [| apply slice_to_sublist].
    by eapply list_elem_of_lookup_2. }
  rewrite Forall_forall in Hkeys. destruct (Hkeys x Hxu) as (k & Hk & Ht).
  assert (truthy (session_hash_of x) = true) as Htx.
  { destruct x; try done. simpl in Hk. by injection Hk as <-. }
  split; [by rewrite session_hash_set_rank |].
  exists x, (1 + Z.of_nat i). split; [| done].
  by eapply elem_of_sublist.
Qed.

Lemma leaderboard_entries_have_session_hash_witness :
  generate_leaderboard sample_fs 1705161500000 incoming_without_hash
    leaderboard_path 50
  = Ok (leaderboard_doc 1705161500000
          [ set_rank 1 stored_entry;
            set_rank 2 (score (PStr "def456") 130 1705161300000) ])
  ∧ ∃ existing top,
      stored_scores sample_fs leaderboard_path = Some existing
      ∧ leaderboard_doc 1705161500000
          [ set_rank 1 stored_entry;
            set_rank 2 (score (PStr "def456") 130 1705161300000) ]
        = leaderboard_doc 1705161500000 top
      ∧ Forall (λ e, truthy (session_hash_of e) = true
                     ∧ ∃ x r, x ∈ existing ++ incoming_without_hash
                              ∧ truthy (session_hash_of x) = true
                              ∧ e = set_rank r x) top.
Proof.
  split; [vm_compute; reflexivity |].
  apply (leaderboard_entries_have_session_hash sample_fs 1705161500000
           incoming_without_hash leaderboard_path 50).
  vm_compute; reflexivity.
Defined.

(** ** The feedback merge *)

Lemma feedback_entry_facts (s : pyval) :
  is_feedback_entry s = true →
  is_dict s = true
  ∧ feedback_id s = Ok (feedback_id_of s)
  ∧ hashable (feedback_id_of s) = true
  ∧ ∃ k, feedback_key s = Ok k ∧ as_int k.1 = Some (- votes_of s)
         ∧ as_int k.2 = Some (- timestamp_of s).
Proof.
  unfold is_feedback_entry. rewrite !andb_true_iff.
  intros [[[Hd Hh] Hv] Ht].
  destruct s as [| | | | |d]; try done.
  split; [done |]. split.
  { unfold feedback_id, feedback_id_of. simpl.
    by destruct (truthy (dict_get d "feedbackId" PNone)). }
  split; [done |].
  unfold feedback_key, votes_of, timestamp_of, is_number, py_neg in *.
  simpl in *.
  destruct (as_int (dict_get d "votes" (PInt 0))) as [v|]; [| done].
  destruct (as_int (dict_get d "timestamp" (PInt 0))) as [t|]; [| done].
  simpl. by eexists.
Qed.




(** ** Deleting a score *)

Lemma scores_without_spec (h : pyval) (scores : list pyval) :
  Forall (λ x, is_dict x = true) scores →
  scores_without h scores = Ok (filter (λ s, hash_is h s = false) scores).
Proof.
  induction 1 as [|x l Hx _ IH]; [done |].
  destruct x as [| | | | |d]; try done.
  simpl. rewrite IH. simpl. rewrite filter_cons.
  change (hash_is h (PDict d)) with (py_eq (dict_get d "sessionHash" PNone) h).
  destruct (py_eq (dict_get d "sessionHash" PNone) h); by case_decide.
Qed.

Lemma length_filter_split (h : pyval) (l : list pyval) :
  length l = (length (filter (λ s, hash_is h s = false) l)
              + length (filter (λ s, hash_is h s = true) l))%nat.
Proof.
  induction l as [|x l IH]; [done |].
  rewrite !filter_cons. destruct (hash_is h x); repeat case_decide; try done;
    simpl; lia.
Qed.

Lemma existsb_filter_length (h : pyval) (l : list pyval) :
  existsb (hash_is h) l
  = negb (Nat.eqb (length (filter (λ s, hash_is h s = true) l)) 0).
Proof.
  induction l as [|x l IH]; [done |].
  rewrite filter_cons. simpl. destruct (hash_is h x); case_decide; try done.
Qed.

(** C5: on a leaderboard whose entries are objects and in which [h] names
    at most one entry, deleting [h] keeps the other entries in their order
    and ranks them [1, 2, ...]; it returns [False] and removes nothing when
    no entry has the hash, and returns [True] and removes exactly one entry
    when one has. *)
Theorem delete_score_by_hash_reranks (leaderboard : gmap string pyval)
    (scores : list pyval) (h : pyval) :
  dict_get leaderboard "scores" (PList []) = PList scores →
  forallb is_dict scores = true →
  (length (filter (λ s, hash_is h s = true) scores) ≤ 1)%nat →
  ∃ kept found,
    delete_score_by_hash leaderboard h
    = Ok (<["scores" := PList (with_ranks 1 kept)]> leaderboard, found)
    ∧ kept = filter (λ s, hash_is h s = false) scores
    ∧ found = existsb (hash_is h) scores
    ∧ length scores = (length kept + (if found then 1 else 0))%nat
    ∧ rank_of <$> with_ranks 1 kept = PInt <$> seqZ 1 (Z.of_nat (length kept)).
Proof.
  intros Hscores Hdict Huniq. apply forallb_Forall in Hdict.
  set (kept := filter (λ s, hash_is h s = false) scores).
  assert (Forall (λ x, is_dict x = true) kept) as Hkept
    by (eapply Forall_sublist; [apply sublist_filter | done]).
  pose proof (length_filter_split h scores) as Hlen. fold kept in Hlen.
  exists kept, (existsb (hash_is h) scores).
  split; [| split; [done |]; split; [done |]; split].
  - unfold delete_score_by_hash. rewrite Hscores.
    rewrite scores_without_spec by done. simpl. fold kept.
    rewrite assign_ranks_ok by done. simpl. do 2 f_equal.
    rewrite length_with_ranks, existsb_filter_length.
    destruct (length (filter _ scores)) as [|[|n]] eqn:Hremoved; simpl.
    + apply Nat.ltb_ge. lia.
    + apply Nat.ltb_lt. lia.
    + lia.
  - rewrite existsb_filter_length.
    destruct (length (filter _ scores)) as [|[|n]]; simpl; lia.
  - by apply ranks_with_ranks.
Qed.

Lemma delete_score_by_hash_reranks_witness :
  delete_score_by_hash three_leaderboard (PStr "def456")
  = Ok (<["scores" :=
            PList [ set_rank 1 (score (PStr "abc123") 145 1705161200000);
                    set_rank 2 (score (PStr "ghi789") 120 1705161400000) ]]>
          three_leaderboard, true)
  ∧ ∃ kept found,
      delete_score_by_hash three_leaderboard (PStr "def456")
      = Ok (<["scores" := PList (with_ranks 1 kept)]> three_leaderboard, found)
      ∧ kept = filter (λ s, hash_is (PStr "def456") s = false) three_scores
      ∧ found = existsb (hash_is (PStr "def456")) three_scores
      ∧ length three_scores = (length kept + (if found then 1 else 0))%nat
      ∧ rank_of <$> with_ranks 1 kept = PInt <$> seqZ 1 (Z.of_nat (length kept)).
Proof.
  split; [vm_compute; reflexivity |].
  apply (delete_score_by_hash_reranks three_leaderboard three_scores
           (PStr "def456")).
  - vm_compute; reflexivity.
  - vm_compute; reflexivity.
  - vm_compute; lia.
Defined.

(** ** The digest is 64 lower-case hexadecimal digits *)

Lemma round_length (st : list Z) (kw : Z * Z) :
  length st = 8%nat → length (SHA256.round st kw) = 8%nat.
Proof.
  intros Hlen.
  destruct st as [|a [|b [|c [|d [|e [|f [|g [|h [|i st]]]]]]]]]; simpl in Hlen;
    try discriminate Hlen.
  reflexivity.
Qed.
Lemma rounds_length (kws : list (Z * Z)) (st : list Z) :
  length st = 8%nat → length (fold_left SHA256.round kws st) = 8%nat.
Proof.
  revert st. induction kws as [|kw kws IH]; intros st Hlen; [exact Hlen |].
  simpl. apply IH, round_length, Hlen.
Qed.

Lemma compress_length (st block : list Z) :
  length st = 8%nat → length (SHA256.compress st block) = 8%nat.
Proof.
  intros Hlen. unfold SHA256.compress.
  rewrite length_zip_with, rounds_length by exact Hlen. lia.
Qed.

Lemma digest_length (msg : list Z) : length (SHA256.digest msg) = 8%nat.
Proof.
  unfold SHA256.digest.
  generalize (SHA256.blocks (length (SHA256.words (SHA256.pad msg)) / 16)
                (SHA256.words (SHA256.pad msg))).
  assert (length SHA256.H0 = 8%nat) as Hlen by (vm_compute; reflexivity).
  revert Hlen. generalize SHA256.H0.
  intros st Hlen bs. revert st Hlen.
  induction bs as [|b bs IH]; intros st Hlen; [exact Hlen |].
  simpl. apply IH, compress_length, Hlen.
Qed.
Lemma hex_digit_is_hex (n : Z) :
  in_class Hex (SHA256.hex_digit (n mod 16)) = true.
Proof.
  pose proof (Z.mod_pos_bound n 16 ltac:(lia)) as Hn.
  assert (n mod 16 ∈ seqZ 0 16) as Hin by (apply elem_of_seqZ; lia).
  revert Hin. generalize (n mod 16). clear. intros m Hm.
  vm_compute in Hm.
  repeat (apply elem_of_cons in Hm as [-> | Hm]; [vm_compute; reflexivity |]).
  by apply elem_of_nil in Hm.
Qed.
Lemma hex_word_spec (w : Z) :
  String.length (SHA256.hex_word w) = 8%nat
  ∧ is_lower_hex (SHA256.hex_word w) = true.
Proof.
  unfold SHA256.hex_word, is_lower_hex.
  rewrite list_ascii_of_string_of_list_ascii.
  split; [reflexivity |].
  cbn [map forallb].
  rewrite !hex_digit_is_hex. reflexivity.
Qed.
Lemma length_string_append (s t : string) :
  String.length (s +:+ t) = (String.length s + String.length t)%nat.
Proof. induction s as [|a s IH]; simpl; [reflexivity | by rewrite IH]. Qed.

Lemma list_ascii_of_string_append (s t : string) :
  list_ascii_of_string (s +:+ t)
  = list_ascii_of_string s ++ list_ascii_of_string t.
Proof. induction s as [|a s IH]; simpl; [reflexivity | by rewrite IH]. Qed.

Lemma concat_cons_cons (sep s t : string) (l : list string) :
  String.concat sep (s :: t :: l) = s +:+ sep +:+ String.concat sep (t :: l).
Proof. reflexivity. Qed.

Lemma concat_hex_words (ws : list Z) :
  String.length (String.concat EmptyString (map SHA256.hex_word ws))
  = (8 * length ws)%nat
  ∧ is_lower_hex (String.concat EmptyString (map SHA256.hex_word ws)) = true.
Proof.
  induction ws as [|w ws [IHlen IHhex]]; [split; reflexivity |].
  destruct (hex_word_spec w) as [Hlen Hhex].
  destruct ws as [|w' ws].
  - cbn [map String.concat length]. rewrite Hlen. split; [reflexivity | exact Hhex].
  - rewrite !map_cons, concat_cons_cons. rewrite <- map_cons.
    change (EmptyString +:+ ?s) with s.
    split.
    + rewrite length_string_append, Hlen, IHlen. cbn [length]. lia.
    + unfold is_lower_hex in *.
      rewrite list_ascii_of_string_append, forallb_app, Hhex, IHhex. reflexivity.
Qed.

Lemma hexdigest_spec (s : string) :
  String.length (SHA256.hexdigest s) = 64%nat
  ∧ is_lower_hex (SHA256.hexdigest s) = true.
Proof.
  unfold SHA256.hexdigest.
  destruct (concat_hex_words (SHA256.digest (SHA256.bytes_of s))) as [Hlen Hhex].
  rewrite digest_length in Hlen. split; [exact Hlen | exact Hhex].
Qed.

Lemma calculate_hash_length (session_data : pyval) (h : string) :
  calculate_hash session_data = Ok h → String.length h = 64%nat.
Proof.
  unfold calculate_hash.
  intros (d & _ & Heq)%bind_ok_inv. injection Heq as <-. apply hexdigest_spec.
Qed.

(** X1: whenever [calculate_hash] returns, its result is 64 characters
    long and every character is a lower-case hexadecimal digit. *)
Theorem calculate_hash_is_hex (session_data : pyval) (h : string) :
  calculate_hash session_data = Ok h →
  String.length h = 64%nat ∧ is_lower_hex h = true.
Proof.
  unfold calculate_hash.
  destruct (extract_deterministic_data session_data) as [d|];
    [| intros Hraise; discriminate Hraise].
  intros Heq. injection Heq as <-. apply hexdigest_spec.
Qed.

Lemma calculate_hash_is_hex_witness :
  calculate_hash (PDict sample_session)
  = Ok "7cf7004d8e4e838d03b45385e4580a93b1892f7fc455c8908b85f88d70c845d1"
  ∧ String.length
      "7cf7004d8e4e838d03b45385e4580a93b1892f7fc455c8908b85f88d70c845d1"
    = 64%nat
  ∧ is_lower_hex
      "7cf7004d8e4e838d03b45385e4580a93b1892f7fc455c8908b85f88d70c845d1" = true.
Proof.
  split; [vm_compute; reflexivity |].
  apply (calculate_hash_is_hex (PDict sample_session)).
  vm_compute; reflexivity.
Defined.

(** ** Verifying a digest *)

Lemma eqb_empty_lower (s : string) :
  String.eqb (lower s) EmptyString = String.eqb s EmptyString.
Proof. destruct s; reflexivity. Qed.

Lemma verify_own_digest (session_data : pyval) (h : string) :
  calculate_hash session_data = Ok h →
  verify_hash session_data (PStr h) = true.
Proof.
  intros Hcalc. pose proof (calculate_hash_length _ _ Hcalc) as Hlen.
  unfold verify_hash. rewrite Hcalc.
  destruct h as [|a h]; [discriminate Hlen |].
  change (String.eqb (String a h) EmptyString) with false. cbv iota.
  apply String.eqb_refl.
Qed.

(** X2: the digest [calculate_hash] returns for a session verifies against
    that session. *)
Theorem verify_hash_round_trip (session_data : pyval) (h : string) :
  calculate_hash session_data = Ok h →
  verify_hash session_data (PStr h) = true.
Proof.
  intros Hcalc. unfold verify_hash. rewrite Hcalc.
  apply calculate_hash_length in Hcalc.
  destruct h as [|a h]; [discriminate Hcalc |].
  change (String.eqb (String a h) EmptyString) with false. cbv iota.
  apply String.eqb_refl.
Qed.

Lemma verify_hash_round_trip_witness :
  calculate_hash (PDict sample_session)
  = Ok "7cf7004d8e4e838d03b45385e4580a93b1892f7fc455c8908b85f88d70c845d1"
  ∧ verify_hash (PDict sample_session)
      (PStr "7cf7004d8e4e838d03b45385e4580a93b1892f7fc455c8908b85f88d70c845d1")
    = true.
Proof.
  split; [vm_compute; reflexivity |].
  apply (verify_hash_round_trip (PDict sample_session)).
  vm_compute; reflexivity.
Defined.

(** X3: the comparison ignores the case of the expected hash: two expected
    hashes that agree once lower-cased get the same verdict. *)
Theorem verify_hash_ignores_case (session_data : pyval) (e1 e2 : string) :
  lower e1 = lower e2 →
  verify_hash session_data (PStr e1) = verify_hash session_data (PStr e2).
Proof.
  intros Hlow. unfold verify_hash.
  rewrite <- (eqb_empty_lower e1), <- (eqb_empty_lower e2), Hlow.
  destruct (calculate_hash session_data); reflexivity.
Qed.

Lemma verify_hash_ignores_case_witness :
  lower sample_digest_upper
  = lower "7cf7004d8e4e838d03b45385e4580a93b1892f7fc455c8908b85f88d70c845d1"
  ∧ verify_hash (PDict sample_session) (PStr sample_digest_upper)
    = verify_hash (PDict sample_session)
        (PStr "7cf7004d8e4e838d03b45385e4580a93b1892f7fc455c8908b85f88d70c845d1")
  ∧ verify_hash (PDict sample_session) (PStr sample_digest_upper) = true.
Proof.
  split; [vm_compute; reflexivity |].
  split; [| vm_compute; reflexivity].
  apply (verify_hash_ignores_case (PDict sample_session)).
  vm_compute; reflexivity.
Defined.

(** ** What [validate_session_data] accepts *)

Lemma concat_imap_nil {A B} (f : nat → A → list B) (l : list A) :
  concat (imap f l) = [] ↔ ∀ i x, l !! i = Some x → f i x = [].
Proof.
  revert f. induction l as [|y l IH]; intros f.
  - split; [intros _ i x Hi; discriminate Hi | reflexivity].
  - rewrite imap_cons. cbn [concat]. split.
    + intros [Hy Hl]%app_eq_nil i x Hi. destruct i as [|i].
      * injection Hi as <-. exact Hy.
      * apply (proj1 (IH (f ∘ S)) Hl i x Hi).
    + intros Hall. rewrite (Hall 0%nat y eq_refl). cbn [app].
      apply IH. intros i x Hi. apply (Hall (S i) x Hi).
Qed.

Lemma concat_imap_nil_Forall {A B} (f : nat → A → list B) (P : A → Prop)
    (l : list A) :
  (∀ i x, f i x = [] ↔ P x) →
  concat (imap f l) = [] ↔ Forall P l.
Proof.
  intros Hf. rewrite concat_imap_nil, Forall_lookup.
  split; intros Hall i x Hi; apply (Hf i x), (Hall i x Hi).
Qed.

Lemma missing_field_nil (d : gmap string pyval) (k : string) :
  missing_field d k = [] ↔ is_Some (d !! k).
Proof.
  unfold missing_field. destruct (d !! k) as [v|].
  - split; [intros _; by exists v | reflexivity].
  - split; [intros H; discriminate H | intros [v H]; discriminate H].
Qed.

Lemma word_errors_nil (i : nat) (w : pyval) : word_errors i w = [] ↔ word_ok w.
Proof.
  unfold word_errors, word_ok.
  destruct w as [| | | | |e]; cbn [is_dict field];
    try (split; [intros H; discriminate H | intros [H _]; discriminate H]).
  destruct (truthy (dict_get e "text" PNone)).
  - split; [intros _; split; reflexivity | reflexivity].
  - split; [intros H; discriminate H | intros [_ H]; discriminate H].
Qed.

Lemma is_none_true (v : pyval) : is_none v = true ↔ v = PNone.
Proof. destruct v; split; intros H; (reflexivity || discriminate H). Qed.

Lemma is_none_false (v : pyval) : is_none v = false ↔ v ≠ PNone.
Proof.
  destruct v; split; intros H; try reflexivity; try discriminate H;
    try (intros H'; discriminate H'); by destruct H.
Qed.

Lemma keystroke_errors_nil (i : nat) (k : pyval) :
  keystroke_errors i k = [] ↔ keystroke_ok k.
Proof.
  unfold keystroke_errors, keystroke_ok.
  destruct k as [| | | | |e]; cbn [is_dict field];
    try (split; [intros H; discriminate H | intros [H _]; discriminate H]).
  rewrite <- !is_none_false.
  destruct (truthy (dict_get e "key" PNone)),
    (is_none (dict_get e "timestamp" PNone)),
    (is_none (dict_get e "wordIndex" PNone)); cbn [app];
    split; try (intros H; discriminate H); try (intros _; repeat split; reflexivity);
    intros (_ & H1 & H2 & H3); discriminate.
Qed.

Lemma range_error_nil {B} (z hi : Z) (e : B) :
  (if (z <? 0) || (hi <? z) then [e] else []) = [] ↔ 0 ≤ z ≤ hi.
Proof.
  destruct (z <? 0) eqn:E1, (hi <? z) eqn:E2; cbn [orb];
    rewrite ?Z.ltb_lt, ?Z.ltb_ge in E1, E2;
    (split; [intros H; try discriminate H; lia | intros H; try reflexivity; lia]).
Qed.

Lemma stat_errors_nil (v : pyval) (msg : string) (fmt : string → string) (hi : Z) :
  stat_errors v msg fmt hi = [] ↔ none_or_number_in 0 hi v.
Proof.
  unfold stat_errors, none_or_number_in.
  destruct v as [| b | n | s | l | d]; cbn [as_int].
  - split; [intros _; by left | reflexivity].
  - rewrite range_error_nil. split.
    + intros H. right. eexists. split; [reflexivity | exact H].
    + intros [H | (m & Hm & Hr)]; [discriminate H |]. by injection Hm as <-.
  - rewrite range_error_nil. split.
    + intros H. right. eexists. split; [reflexivity | exact H].
    + intros [H | (m & Hm & Hr)]; [discriminate H |]. by injection Hm as <-.
  - split; [intros H; discriminate H | intros [H | (m & H & _)]; discriminate H].
  - split; [intros H; discriminate H | intros [H | (m & H & _)]; discriminate H].
  - split; [intros H; discriminate H | intros [H | (m & H & _)]; discriminate H].
Qed.

Lemma app_nil_iff {A} (l k : list A) : l ++ k = [] ↔ l = [] ∧ k = [].
Proof.
  split; [apply app_eq_nil | intros [-> ->]; reflexivity].
Qed.


Lemma validate_session_data_unfold (d : gmap string pyval) :
  validate_session_data (PDict d)
  = if truthy (dict_get d "stats" PNone) then
      match dict_get d "stats" PNone with
      | PDict s =>
          let errors :=
            structural_errors d
            ++ stat_errors (dict_get s "wpm" PNone) "WPM must be a number"
                 (λ w, "WPM " +:+ w +:+ " is outside reasonable range (0-300)") 300
            ++ stat_errors (dict_get s "accuracy" PNone) "Accuracy must be a number"
                 (λ a, "Accuracy " +:+ a +:+ " must be between 0 and 100") 100 in
          Ok (Nat.eqb (length errors) 0, errors)
      | _ => Raise AttributeError
      end
    else Ok (Nat.eqb (length (structural_errors d)) 0, structural_errors d).
Proof.
  unfold validate_session_data, structural_errors.
  rewrite <- !app_assoc.
  destruct (truthy (dict_get d "stats" PNone)); [| reflexivity].
  destruct (dict_get d "stats" PNone); reflexivity.
Qed.

Lemma structural_errors_nil (d : gmap string pyval) :
  structural_errors d = []
  ↔ is_Some (d !! "seed") ∧ is_Some (d !! "stage")
    ∧ is_Some (d !! "words") ∧ is_Some (d !! "keystrokes")
    ∧ (dict_get d "seed" PNone = PNone ∨ is_number (dict_get d "seed" PNone) = true)
    ∧ (dict_get d "stage" PNone = PNone
       ∨ ∃ n, as_int (dict_get d "stage" PNone) = Some n ∧ 1 ≤ n)
    ∧ none_or_nonempty_list word_ok (dict_get d "words" PNone)
    ∧ none_or_nonempty_list keystroke_ok (dict_get d "keystrokes" PNone).
Proof.
  unfold structural_errors. cbn [map concat].
  rewrite !app_nil_iff, !missing_field_nil.
  assert ((if negb (is_none (dict_get d "seed" PNone))
              && negb (is_number (dict_get d "seed" PNone))
           then ["Seed must be a number"] else []) = []
          ↔ dict_get d "seed" PNone = PNone
            ∨ is_number (dict_get d "seed" PNone) = true) as ->.
  { rewrite <- is_none_true.
    destruct (is_none (dict_get d "seed" PNone)),
      (is_number (dict_get d "seed" PNone)); cbn [negb andb];
      split; intros H; try reflexivity; try discriminate H; auto.
    destruct H as [H | H]; discriminate H. }
  assert (match dict_get d "stage" PNone with
          | PNone => []
          | _ => match as_int (dict_get d "stage" PNone) with
                 | None => ["Stage must be a number"]
                 | Some n => if n <? 1 then ["Stage must be at least 1"] else []
                 end
          end = []
          ↔ dict_get d "stage" PNone = PNone
            ∨ ∃ n, as_int (dict_get d "stage" PNone) = Some n ∧ 1 ≤ n) as ->.
  { assert (∀ v, v ≠ PNone →
              match as_int v with
              | None => ["Stage must be a number"]
              | Some n => if n <? 1 then ["Stage must be at least 1"] else []
              end = [] ↔ v = PNone ∨ ∃ n, as_int v = Some n ∧ 1 ≤ n) as Hnum.
    { intros v Hv. destruct (as_int v) as [n|].
      - destruct (n <? 1) eqn:E; rewrite ?Z.ltb_lt, ?Z.ltb_ge in E; split.
        + intros H; discriminate H.
        + intros [H | (m & [= <-] & Hm)]; [done | lia].
        + intros _. right. by exists n.
        + reflexivity.
      - split; [intros H; discriminate H |].
        intros [H | (m & H & _)]; [done | discriminate H]. }
    destruct (dict_get d "stage" PNone) eqn:Hstage;
      try (apply Hnum; intros H; discriminate H).
    split; [intros _; by left | reflexivity]. }
  assert (match dict_get d "words" PNone with
          | PNone => []
          | PList [] => ["Words array cannot be empty"]
          | PList words => concat (imap word_errors words)
          | _ => ["Words must be an array"]
          end = [] ↔ none_or_nonempty_list word_ok (dict_get d "words" PNone))
    as ->.
  { unfold none_or_nonempty_list.
    destruct (dict_get d "words" PNone) as [| | | |[|w ws]|];
      try (split; [intros H; discriminate H
                  | intros [H | (x & l & H & _)]; discriminate H]).
    - split; [intros _; by left | reflexivity].
    - rewrite (concat_imap_nil_Forall _ word_ok) by apply word_errors_nil.
      split.
      + intros H. right. by exists w, ws.
      + intros [H | (x & l & [= <- <-] & H)]; [discriminate H | exact H]. }
  assert (match dict_get d "keystrokes" PNone with
          | PNone => []
          | PList [] => ["Keystrokes array cannot be empty"]
          | PList keystrokes => concat (imap keystroke_errors keystrokes)
          | _ => ["Keystrokes must be an array"]
          end = []
          ↔ none_or_nonempty_list keystroke_ok (dict_get d "keystrokes" PNone))
    as ->.
  { unfold none_or_nonempty_list.
    destruct (dict_get d "keystrokes" PNone) as [| | | |[|w ws]|];
      try (split; [intros H; discriminate H
                  | intros [H | (x & l & H & _)]; discriminate H]).
    - split; [intros _; by left | reflexivity].
    - rewrite (concat_imap_nil_Forall _ keystroke_ok) by apply keystroke_errors_nil.
      split.
      + intros H. right. by exists w, ws.
      + intros [H | (x & l & [= <- <-] & H)]; [discriminate H | exact H]. }
  tauto.
Qed.

Lemma stats_errors_nil (s : gmap string pyval) :
  stat_errors (dict_get s "wpm" PNone) "WPM must be a number"
    (λ w, "WPM " +:+ w +:+ " is outside reasonable range (0-300)") 300
  ++ stat_errors (dict_get s "accuracy" PNone) "Accuracy must be a number"
       (λ a, "Accuracy " +:+ a +:+ " must be between 0 and 100") 100 = []
  ↔ none_or_number_in 0 300 (dict_get s "wpm" PNone)
    ∧ none_or_number_in 0 100 (dict_get s "accuracy" PNone).
Proof. by rewrite app_nil_iff, !stat_errors_nil. Qed.

Lemma validate_session_data_dict (d : gmap string pyval) :
  validate_session_data (PDict d) = Ok (true, []) ↔ session_accepted d.
Proof.
  rewrite validate_session_data_unfold. unfold session_accepted, stats_ok.
  pose proof (structural_errors_nil d) as HE.
  destruct (truthy (dict_get d "stats" PNone)) eqn:Hstats.
  - destruct (dict_get d "stats" PNone) as [| | | | |s] eqn:Hs;
      try (split; [intros H; discriminate H
                  | intros (_ & _ & _ & _ & _ & _ & _ & _ & [H | [H _]]);
                    discriminate H]).
    cbv zeta. cbn [is_dict field].
    pose proof (stats_errors_nil s) as HS.
    split.
    + intros [= Hlen Herr]. apply app_nil_iff in Herr as [HE' HS'].
      apply HE in HE'. apply HS in HS'. destruct HS'. 
      repeat (split; [tauto |]). right. by repeat split.
    + intros H.
      assert (structural_errors d = []) as -> by (apply HE; tauto).
      cbn [app].
      assert (none_or_number_in 0 300 (dict_get s "wpm" PNone)
              ∧ none_or_number_in 0 100 (dict_get s "accuracy" PNone)) as HS'.
      { destruct H as (_ & _ & _ & _ & _ & _ & _ & _ & [H | (_ & ? & ?)]);
          [discriminate H | by split]. }
      apply HS in HS'. rewrite HS'. reflexivity.
  - split.
    + intros [= Hlen Herr]. apply HE in Herr. repeat (split; [tauto |]). by left.
    + intros H. assert (structural_errors d = []) as -> by (apply HE; tauto).
      reflexivity.
Qed.


(** X5: a required field that is present with the value [None] passes: a
    session whose [seed], [stage], [words] and [keystrokes] are all [None]
    (and whose [stats] is absent or falsy) is reported valid. *)
Theorem validate_session_data_accepts_nulls (d : gmap string pyval) :
  d !! "seed" = Some PNone → d !! "stage" = Some PNone →
  d !! "words" = Some PNone → d !! "keystrokes" = Some PNone →
  truthy (dict_get d "stats" PNone) = false →
  validate_session_data (PDict d) = Ok (true, []).
Proof.
  intros Hseed Hstage Hwords Hkeys Hstats.
  apply validate_session_data_dict. unfold session_accepted, dict_get.
  rewrite Hseed, Hstage, Hwords, Hkeys. cbn [default].
  repeat (split; [by eexists |]).
  split; [by left |]. split; [by left |].
  split; [by left |]. split; [by left |]. by left.
Qed.

Lemma validate_session_data_accepts_nulls_witness :
  validate_session_data (PDict session_of_nulls) = Ok (true, [])
  ∧ is_ok (calculate_hash (PDict session_of_nulls)) = true.
Proof.
  split; [| vm_compute; reflexivity].
  apply (validate_session_data_accepts_nulls session_of_nulls);
    vm_compute; reflexivity.
Defined.

(** ** Validation and the digest *)

Lemma extract_ok (d : gmap string pyval) :
  words_shape_ok d = true → keystrokes_shape_ok d = true →
  is_ok (extract_deterministic_data (PDict d)) = true.
Proof.
  unfold words_shape_ok, keystrokes_shape_ok, list_field.
  intros Hw Hk. rewrite extract_unfold. unfold dict_get. cbv zeta.
  set (d0 := dict_of _).
  assert (∃ d1 : gmap string pyval,
    match default (PList []) (d !! "words") with
    | PList ws => s ← word_texts ws ≫= sorted; Ok (<["words" := PList s]> d0)
    | _ => Ok d0
    end = Ok d1) as [d1 ->].
  { destruct (d !! "words") as [[| | | |ws|]|]; cbn [default from_option id];
      try (by exists d0).
    apply andb_prop in Hw as [Hd Hs].
    rewrite word_texts_spec, Hd. cbn [mbind res_bind].
    destruct (sorted_strings _ (texts_are_strings ws Hs)) as (r & -> & _).
    by eexists. }
  cbn [mbind res_bind].
  destruct (d !! "keystrokes") as [[| | | |ks|]|]; cbn [default from_option id]; try reflexivity.
  destruct (keystroke_fields_spec ks Hk) as [proj ->]. reflexivity.
Qed.

Lemma Forall_forallb {A} (P : A → Prop) (f : A → bool) (l : list A) :
  (∀ x, P x → f x = true) → Forall P l → forallb f l = true.
Proof.
  intros Hf. induction 1 as [|x l Hx _ IH]; [reflexivity |].
  cbn [forallb]. by rewrite (Hf x Hx), IH.
Qed.

(** X6: a session that [validate_session_data] reports valid and whose word
    texts are strings has a digest, and that digest verifies. *)
Theorem valid_session_has_digest (d : gmap string pyval) :
  validate_session_data (PDict d) = Ok (true, []) →
  word_texts_are_strings d = true →
  ∃ h, calculate_hash (PDict d) = Ok h ∧ verify_hash (PDict d) (PStr h) = true.
Proof.
  intros Hval Hstr. apply validate_session_data_dict in Hval.
  destruct Hval as (_ & _ & _ & _ & _ & _ & Hwords & Hkeys & _).
  assert (is_ok (extract_deterministic_data (PDict d)) = true) as Hex.
  { apply extract_ok.
    - unfold words_shape_ok. unfold word_texts_are_strings in Hstr.
      unfold list_field, dict_get in *.
      destruct (d !! "words") as [[| | | |ws|]|]; try reflexivity.
      rewrite Hstr, andb_true_r.
      destruct Hwords as [H | (x & l & [= ->] & Hall)]; [discriminate H |].
      eapply Forall_forallb; [| exact Hall]. by intros w [? _].
    - unfold keystrokes_shape_ok, list_field, dict_get in *.
      destruct (d !! "keystrokes") as [[| | | |ks|]|]; try reflexivity.
      destruct Hkeys as [H | (x & l & [= ->] & Hall)]; [discriminate H |].
      eapply Forall_forallb; [| exact Hall]. by intros k [? _]. }
  destruct (calculate_hash (PDict d)) as [h|e] eqn:Hcalc.
  - exists h. split; [reflexivity |]. by apply verify_own_digest.
  - unfold calculate_hash in Hcalc.
    destruct (extract_deterministic_data (PDict d)); discriminate.
Qed.

Lemma valid_session_has_digest_witness :
  validate_session_data (PDict sample_session) = Ok (true, [])
  ∧ word_texts_are_strings sample_session = true
  ∧ ∃ h, calculate_hash (PDict sample_session) = Ok h
         ∧ verify_hash (PDict sample_session) (PStr h) = true.
Proof.
  split; [vm_compute; reflexivity |].
  split; [vm_compute; reflexivity |].
  apply (valid_session_has_digest sample_session); vm_compute; reflexivity.
Defined.

(** ** What an accepted submission guarantees *)





(** ** When the validator raises *)

(** X8: the validator raises, instead of rejecting, on a submission whose
    [sessionData] is truthy but not an object, or is an object whose [stats]
    is truthy but not an object. *)
Theorem validate_submission_raises (ucd : N → charcase) (d : gmap string pyval) :
  truthy (dict_get d "sessionData" PNone) = true →
  truthy (dict_get d "sessionHash" PNone) = true →
  is_dict (dict_get d "sessionData" PNone) = false
  ∨ (truthy (field (dict_get d "sessionData" PNone) "stats" PNone) = true
     ∧ is_dict (field (dict_get d "sessionData" PNone) "stats" PNone) = false) →
  is_ok (validate_submission ucd (PDict d)) = false.
Proof.
  intros Hsd Hsh Hbad.
  unfold validate_submission. cbn [py_get mbind res_bind].
  rewrite Hsd, Hsh. cbn [negb].
  assert (is_ok (validate_session_data (dict_get d "sessionData" PNone)) = false)
    as Hraise.
  { destruct (dict_get d "sessionData" PNone) as [| | | | |sd]; try reflexivity.
    destruct Hbad as [H | [Ht Hd]]; [discriminate H |].
    rewrite validate_session_data_unfold. cbn [field] in Ht, Hd.
    rewrite Ht. by destruct (dict_get sd "stats" PNone). }
  by destruct (validate_session_data _).
Qed.

Lemma validate_submission_raises_witness :
  validate_submission ascii_only (PDict submission_with_list_stats)
  = Raise AttributeError
  ∧ is_ok (validate_submission ascii_only (PDict submission_with_list_stats))
    = false.
Proof.
  split; [vm_compute; reflexivity |].
  apply (validate_submission_raises ascii_only submission_with_list_stats).
  - vm_compute; reflexivity.
  - vm_compute; reflexivity.
  - right. split; vm_compute; reflexivity.
Defined.

(** ** User identifiers *)

Lemma match_classes_split (p : list uuid_class) (s rest : string) :
  match_classes p s = Some rest →
  ∃ pre, s = pre +:+ rest ∧ String.length pre = length p.
Proof.
  revert s. induction p as [|c p IH]; intros s; cbn [match_classes].
  - intros [= ->]. by exists EmptyString.
  - destruct s as [|a s]; [intros H; discriminate H |].
    destruct (in_class c a); [| intros H; discriminate H].
    intros (pre & -> & Hlen)%IH. exists (String a pre).
    split; [reflexivity | cbn [String.length length]; by rewrite Hlen].
Qed.

Lemma match_classes_append (p : list uuid_class) (s t : string) :
  match_classes p s = Some EmptyString →
  match_classes p (s +:+ t) = Some t.
Proof.
  revert s. induction p as [|c p IH]; intros s; cbn [match_classes].
  - by intros [= ->].
  - destruct s as [|a s]; [intros H; discriminate H |].
    simpl. destruct (in_class c a); [apply IH | intros H; discriminate H].
Qed.

Lemma lower_append (s t : string) : lower (s +:+ t) = lower s +:+ lower t.
Proof. induction s as [|a s IH]; simpl; [reflexivity | by rewrite IH]. Qed.

Lemma length_lower (s : string) : String.length (lower s) = String.length s.
Proof. induction s as [|a s IH]; simpl; [reflexivity | by rewrite IH]. Qed.

Lemma ascii_lower_idemp (a : ascii) : ascii_lower (ascii_lower a) = ascii_lower a.
Proof.
  unfold ascii_lower.
  destruct ((65 <=? N_of_ascii a)%N && (N_of_ascii a <=? 90)%N) eqn:Hup;
    [| by rewrite Hup].
  apply andb_prop in Hup as [H1%N.leb_le H2%N.leb_le].
  rewrite N_ascii_embedding by lia.
  assert ((65 <=? N_of_ascii a + 32)%N && (N_of_ascii a + 32 <=? 90)%N = false)
    as -> by (apply andb_false_iff; right; apply N.leb_gt; lia).
  reflexivity.
Qed.

Lemma lower_idemp (s : string) : lower (lower s) = lower s.
Proof.
  induction s as [|a s IH]; simpl; [reflexivity |].
  by rewrite ascii_lower_idemp, IH.
Qed.

(** X9: a user id is accepted whatever the case of its letters: the test
    gives the same answer on a string and on its lower-case form. *)
Theorem is_valid_uuid_ignores_case (u : string) :
  is_valid_uuid (PStr (lower u)) = is_valid_uuid (PStr u).
Proof.
  unfold is_valid_uuid. by rewrite lower_idemp, eqb_empty_lower.
Qed.

(** X10: an accepted user id is a string of 36 characters, or of 37
    characters of which the last is a newline; and a newline added to an
    accepted 36-character id is accepted as well. *)
Theorem is_valid_uuid_length (v : pyval) :
  is_valid_uuid v = true →
  ∃ u, v = PStr u
       ∧ (String.length u = 36%nat
          ∨ (String.length u = 37%nat ∧ ∃ core, lower u = core +:+ newline))
       ∧ (String.length u = 36%nat → is_valid_uuid (PStr (u +:+ newline)) = true).
Proof.
  destruct v as [| | |u| |]; try (intros H; discriminate H).
  unfold is_valid_uuid, re_match_uuid4.
  intros [Hne Hmatch]%andb_prop. exists u. split; [reflexivity |].
  destruct (match_classes uuid4_pattern (lower u)) as [rest|] eqn:Hmc;
    [| discriminate Hmatch].
  destruct (match_classes_split _ _ _ Hmc) as (pre & Hpre & Hlen).
  change (length uuid4_pattern) with 36%nat in Hlen.
  pose proof (length_lower u) as Hlu. rewrite Hpre, length_string_append, Hlen in Hlu.
  apply orb_prop in Hmatch as [->%String.eqb_eq | ->%String.eqb_eq].
  - cbn [String.length] in Hlu. split; [left; lia |].
    intros _.
    assert (negb (String.eqb (u +:+ newline) EmptyString) = true) as ->
      by (by destruct u).
    rewrite lower_append.
    rewrite (match_classes_append _ _ (lower newline) Hmc). reflexivity.
  - cbn [String.length] in Hlu. split.
    + right. split; [lia |]. by exists pre.
    + intros H36. lia.
Qed.

Lemma is_valid_uuid_length_witness :
  is_valid_uuid (PStr sample_uuid) = true
  ∧ ∃ u, PStr sample_uuid = PStr u
         ∧ (String.length u = 36%nat
            ∨ (String.length u = 37%nat ∧ ∃ core, lower u = core +:+ newline))
         ∧ (String.length u = 36%nat →
            is_valid_uuid (PStr (u +:+ newline)) = true).
Proof.
  split; [vm_compute; reflexivity |].
  apply (is_valid_uuid_length (PStr sample_uuid)). vm_compute; reflexivity.
Defined.

(** ** Writing and loading *)

(** X11: after a write that succeeds, loading the target gives back the
    value written, whatever the default and whatever the file held, and the
    temporary file is gone. *)
Theorem atomic_write_then_load (env : io_env) (fs fs' : gmap string file)
    (filepath : string) (data dflt : pyval) :
  atomic_write_json env fs filepath data = (fs', true) →
  load_json_safe fs' filepath dflt = data
  ∧ (tmp_path env ≠ filepath → fs' !! tmp_path env = None).
Proof.
  unfold atomic_write_json, try_block.
  repeat case_decide; intros [= <-]. split.
  - unfold load_json_safe. by rewrite lookup_insert_eq.
  - intros Hne. rewrite lookup_insert_ne by done. by rewrite lookup_delete_eq.
Qed.

Lemma atomic_write_then_load_witness :
  atomic_write_json env_ok sample_fs leaderboard_path (leaderboard_doc 7 [])
  = (<[leaderboard_path := JsonFile (leaderboard_doc 7 [])]> sample_fs, true)
  ∧ load_json_safe
      (<[leaderboard_path := JsonFile (leaderboard_doc 7 [])]> sample_fs)
      leaderboard_path empty_leaderboard
    = leaderboard_doc 7 []
  ∧ (tmp_path env_ok ≠ leaderboard_path →
     (<[leaderboard_path := JsonFile (leaderboard_doc 7 [])]> sample_fs)
       !! tmp_path env_ok = None).
Proof.
  split; [vm_compute; reflexivity |].
  apply (atomic_write_then_load env_ok sample_fs _ leaderboard_path
           (leaderboard_doc 7 []) empty_leaderboard).
  vm_compute; reflexivity.
Defined.

(** X12: after a write that fails, whatever the step that failed, loading
    the target gives what it gave before; and, failed or not, a write leaves
    every file other than the target and the temporary file as it was. *)
Theorem atomic_write_frame (env : io_env) (fs fs' : gmap string file)
    (filepath : string) (data : pyval) (ok : bool) :
  atomic_write_json env fs filepath data = (fs', ok) →
  tmp_path env ≠ filepath →
  (ok = false → ∀ dflt, load_json_safe fs' filepath dflt
                        = load_json_safe fs filepath dflt)
  ∧ (∀ p, p ≠ filepath → p ≠ tmp_path env → fs' !! p = fs !! p).
Proof.
  intros Hwrite Hne. split.
  - intros ->. intros dflt.
    destruct (atomic_write_failure_keeps_target env fs fs' filepath data Hne Hwrite)
      as [_ Hkeep].
    unfold load_json_safe. by rewrite Hkeep.
  - intros p Hp Hpt. revert Hwrite.
    unfold atomic_write_json, try_block, cleanup.
    repeat case_decide; try destruct (remove_fails env);
      rewrite ?lookup_insert_eq; intros [= <- <-];
      repeat first [rewrite lookup_delete_ne by done
                   | rewrite lookup_insert_ne by done];
      reflexivity.
Qed.

Lemma atomic_write_frame_witness :
  atomic_write_json env_move_fails sample_fs leaderboard_path (leaderboard_doc 7 [])
  = (sample_fs, false)
  ∧ (false = false →
     ∀ dflt, load_json_safe sample_fs leaderboard_path dflt
             = load_json_safe sample_fs leaderboard_path dflt)
  ∧ (∀ p, p ≠ leaderboard_path → p ≠ tmp_path env_move_fails →
          sample_fs !! p = sample_fs !! p).
Proof.
  split; [vm_compute; reflexivity |].
  apply (atomic_write_frame env_move_fails sample_fs sample_fs leaderboard_path
           (leaderboard_doc 7 []) false).
  - vm_compute; reflexivity.
  - discriminate.
Defined.

(** ** What every returned leaderboard satisfies *)

Lemma py_eq_hashable_norm (a b : pyval) :
  hashable a = true → py_eq a b = true → norm a = norm b.
Proof.
  intros Ha Hab. destruct (hashable b) eqn:Hb.
  - by apply py_eq_norm.
  - destruct a, b; discriminate.
Qed.

(** The entries the loop keeps have hashable, truthy keys that differ from
    one another and from the keys seen before. *)
Lemma unique_by_distinct (key : pyval → res pyval) (kf : pyval → pyval)
    (seen l r : list pyval) :
  (∀ x k, key x = Ok k → k = kf x) →
  Forall (λ s, hashable s = true) seen →
  unique_by key seen l = Ok r →
  NoDup ((norm ∘ kf) <$> r)
  ∧ Forall (λ x, hashable (kf x) = true ∧ truthy (kf x) = true
                 ∧ norm (kf x) ∉ norm <$> seen) r.
Proof.
  intros Hkey. revert seen r.
  induction l as [|x l IH]; intros seen r Hseen; simpl.
  - intros [= <-]. split; constructor.
  - destruct (key x) as [k|] eqn:Hk; simpl; [| discriminate].
    apply Hkey in Hk as ->.
    destruct (truthy (kf x)) eqn:Ht; [| by apply IH].
    unfold set_contains.
    destruct (hashable (kf x)) eqn:Hh; simpl; [| discriminate].
    destruct (existsb (py_eq (kf x)) seen) eqn:He; [by apply IH |].
    destruct (unique_by key (kf x :: seen) l) as [r'|] eqn:Hr'; simpl;
      [| discriminate].
    intros [= <-].
    destruct (IH (kf x :: seen) r') as [Hnd Hall]; [by constructor | done |].
    apply existsb_py_eq_false in He; [| done..].
    split.
    + rewrite fmap_cons. apply NoDup_cons. split; [| done].
      intros (y & Hy & Hin)%list_elem_of_fmap.
      rewrite Forall_forall in Hall. destruct (Hall y Hin) as (_ & _ & Hnot).
      apply Hnot. rewrite fmap_cons. simpl in Hy. rewrite <- Hy.
      apply list_elem_of_here.
    + constructor; [done |].
      eapply Forall_impl; [exact Hall |]. intros y (? & ? & Hnot).
      split; [done |]. split; [done |].
      intros Hin. apply Hnot. rewrite fmap_cons. by apply list_elem_of_further.
Qed.

Lemma assign_ranks_dicts (start : Z) (l r : list pyval) :
  assign_ranks start l = Ok r → Forall (λ x, is_dict x = true) l.
Proof.
  revert start r. induction l as [|x l IH]; intros start r; simpl.
  - constructor.
  - destruct x as [| | | | |d]; try discriminate.
    destruct (assign_ranks (start + 1) l) as [r'|] eqn:Hr'; simpl;
      [| discriminate].
    intros _. constructor; [done | by eapply IH].
Qed.

Lemma session_hash_key (x k : pyval) :
  py_get x "sessionHash" PNone = Ok k → k = session_hash_of x.
Proof. destruct x; try discriminate. by intros [= <-]. Qed.

(** At most one of [l] has the hash [h], when the hashes of [l] are
    hashable and differ from one another. *)
Lemma distinct_hashes_filter (h : pyval) (l : list pyval) :
  NoDup ((norm ∘ session_hash_of) <$> l) →
  Forall (λ x, hashable (session_hash_of x) = true) l →
  (length (filter (λ s, hash_is h s = true) l) ≤ 1)%nat.
Proof.
  intros Hnd Hh.
  apply (NoDup_fmap_const_length (norm ∘ session_hash_of) (norm h)).
  - eapply sublist_NoDup; [exact Hnd |].
    apply fmap_sublist, sublist_filter.
  - apply Forall_forall. intros x [Hx Hin]%list_elem_of_filter.
    rewrite Forall_forall in Hh. simpl.
    apply py_eq_hashable_norm; [by apply Hh | exact Hx].
Qed.

(** What the merge returns, whatever it was given: ranked objects whose
    hashes are hashable and differ from one another. *)
Lemma generate_leaderboard_shape (fs : gmap string file) (now : Z)
    (scores : list pyval) (path : string) (N : Z) (lb : pyval) :
  generate_leaderboard fs now scores path N = Ok lb →
  ∃ kept,
    lb = leaderboard_doc now (with_ranks 1 kept)
    ∧ (0 ≤ N → (length kept ≤ Z.to_nat N)%nat)
    ∧ Forall (λ x, is_dict x = true) kept
    ∧ NoDup ((norm ∘ session_hash_of) <$> with_ranks 1 kept)
    ∧ Forall (λ x, hashable (session_hash_of x) = true
                   ∧ truthy (session_hash_of x) = true) (with_ranks 1 kept).
Proof.
  unfold generate_leaderboard.
  intros (all & Hall & (u & Hu & (s & Hs & (r & Hr & [= <-])%bind_ok_inv)
                                   %bind_ok_inv)%bind_ok_inv)%bind_ok_inv.
  pose proof (assign_ranks_dicts _ _ _ Hr) as Hdict.
  apply assign_ranks_inv in Hr as ->.
  apply sort_with_key_perm in Hs.
  apply (unique_by_distinct _ session_hash_of) in Hu as [Hnd Hkeys];
    [| apply session_hash_key | constructor].
  exists (slice_to N s).
  split; [done |]. split; [| split; [done |]; split].
  - intros HN. rewrite slice_to_take by done. rewrite length_take. lia.
  - rewrite fmap_with_ranks
      by (intros; simpl; by rewrite session_hash_set_rank).
    eapply sublist_NoDup; [| apply fmap_sublist, slice_to_sublist].
    by rewrite Hs.
  - apply Forall_forall. intros e (i & x & Hx & ->)%elem_of_with_ranks.
    rewrite session_hash_set_rank.
    rewrite Forall_forall in Hkeys. destruct (Hkeys x) as (? & ? & _); [| done].
    rewrite <- Hs. eapply elem_of_sublist; [| apply slice_to_sublist].
    by eapply list_elem_of_lookup_2.
Qed.

(** X13: whatever the existing file and the incoming scores hold, when the
    merge returns with a cap [N ≥ 0], the leaderboard has at most [N]
    entries, they are ranked [1, 2, ...] in their order, and no hash names
    two of them. *)
Theorem generate_leaderboard_invariants (fs : gmap string file) (now : Z)
    (scores : list pyval) (path : string) (N : Z) (lb : pyval) :
  generate_leaderboard fs now scores path N = Ok lb →
  0 ≤ N →
  ∃ top,
    lb = leaderboard_doc now top
    ∧ (length top ≤ Z.to_nat N)%nat
    ∧ rank_of <$> top = PInt <$> seqZ 1 (Z.of_nat (length top))
    ∧ ∀ h, (length (filter (λ s, hash_is h s = true) top) ≤ 1)%nat.
Proof.
  intros (kept & -> & Hlen & Hdict & Hnd & Hhash)%generate_leaderboard_shape HN.
  exists (with_ranks 1 kept).
  split; [done |]. split; [| split].
  - rewrite length_with_ranks. by apply Hlen.
  - rewrite ranks_with_ranks by done. by rewrite length_with_ranks.
  - intros h. apply distinct_hashes_filter; [done |].
    eapply Forall_impl; [exact Hhash |]. by intros x [? _].
Qed.

Lemma generate_leaderboard_invariants_witness :
  ∃ top,
    leaderboard_doc 7
      (with_ranks 1 [ score (PStr "def456") 130 1705161300000;
                      score (PBool true) 90 1705161500000 ])
    = leaderboard_doc 7 top
    ∧ (length top ≤ Z.to_nat 2)%nat
    ∧ rank_of <$> top = PInt <$> seqZ 1 (Z.of_nat (length top))
    ∧ ∀ h, (length (filter (λ s, hash_is h s = true) top) ≤ 1)%nat.
Proof.
  apply (generate_leaderboard_invariants ∅ 7 incoming_mixed leaderboard_path 2).
  - vm_compute; reflexivity.
  - lia.
Defined.

(** ** Running the merge again *)

Lemma insert_by_head {A} (lt : A → A → res bool) (x : A) (l : list A) :
  match l with [] => True | y :: _ => lt y x = Ok false end →
  insert_by lt x l = Ok (x :: l).
Proof. destruct l as [|y l]; simpl; [done |]. by intros ->. Qed.

(** Sorting a list that is in order returns it as it is. *)
Lemma sort_by_id {A} (lt : A → A → res bool) (l : list A) :
  StronglySorted (λ x y, lt y x = Ok false) l → sort_by lt l = Ok l.
Proof.
  induction 1 as [|x l _ IH Hx]; simpl; [done |].
  rewrite IH. simpl. apply insert_by_head.
  destruct l as [|y l]; [done |]. by apply Forall_cons in Hx as [? _].
Qed.

Lemma sort_with_key_id (f : pyval → res (pyval * pyval))
    (kz : pyval → Z * Z) (l : list pyval) :
  Forall (λ x, ∃ k, f x = Ok k ∧ as_int k.1 = Some (kz x).1
                    ∧ as_int k.2 = Some (kz x).2) l →
  StronglySorted (λ a b, lex_le (kz a) (kz b)) l →
  sort_with_key f l = Ok l.
Proof.
  intros Hl Hsorted. unfold sort_with_key.
  assert (∃ keyed, mapM (λ x, k ← f x; Ok (k, x)) l = Ok keyed
                   ∧ keyed.*2 = l
                   ∧ StronglySorted
                       (λ a b, tuple_lt b.1 a.1 = Ok false) keyed)
    as (keyed & -> & Hsnd & Hk).
  { clear -Hl Hsorted. induction Hsorted as [|x l _ IH Hx].
    - exists []. repeat split. constructor.
    - apply Forall_cons in Hl as [(k & Hk & H1 & H2) Hl].
      destruct (IH Hl) as (keyed & Hkeyed & Hsnd & Hs).
      exists ((k, x) :: keyed). simpl. rewrite Hk. simpl. rewrite Hkeyed. simpl.
      split; [done |]. split; [by f_equal |].
      constructor; [done |].
      apply Forall_forall. intros [k' y] Hy.
      assert (y ∈ l) as Hyl.
      { rewrite <- Hsnd. apply list_elem_of_fmap. by exists (k', y). }
      destruct (mapM_keys _ _ _ Hkeyed) as [_ Hf].
      rewrite Forall_forall in Hf. specialize (Hf _ Hy). simpl in Hf.
      rewrite Forall_forall in Hl. destruct (Hl y Hyl) as (k'' & Hk'' & H1' & H2').
      rewrite Hf in Hk''. injection Hk'' as <-.
      rewrite Forall_forall in Hx. specialize (Hx y Hyl).
      simpl. rewrite (tuple_lt_numbers k' k (kz y) (kz x)) by done.
      f_equal. by apply lex_ltb_false. }
  simpl. rewrite sort_by_id by done. simpl. by rewrite Hsnd.
Qed.

Lemma set_rank_twice (r r' : Z) (x : pyval) :
  set_rank r (set_rank r' x) = set_rank r x.
Proof. destruct x; try done. simpl. by rewrite insert_insert_eq. Qed.

Lemma with_ranks_twice (start start' : Z) (l : list pyval) :
  with_ranks start (with_ranks start' l) = with_ranks start l.
Proof.
  revert start start'. induction l as [|x l IH]; intros start start'; simpl;
    [done |].
  by rewrite set_rank_twice, IH.
Qed.

Lemma is_score_entry_set_rank (r : Z) (x : pyval) :
  is_score_entry (set_rank r x) = is_score_entry x.
Proof.
  unfold is_score_entry.
  by rewrite is_dict_set_rank, session_hash_set_rank, !field_set_rank.
Qed.

Lemma Forall_with_ranks (P : pyval → Prop) (start : Z) (l : list pyval) :
  (∀ r x, P x → P (set_rank r x)) →
  Forall P l → Forall P (with_ranks start l).
Proof.
  intros HP Hl. apply Forall_forall.
  intros e (i & x & Hx & ->)%elem_of_with_ranks.
  rewrite Forall_forall in Hl. apply HP, Hl. by eapply list_elem_of_lookup_2.
Qed.

Lemma stored_scores_written (fs : gmap string file) (path : string) (now : Z)
    (top : list pyval) :
  stored_scores (written fs path (leaderboard_doc now top)) path = Some top.
Proof.
  unfold stored_scores, written, load_json_safe. rewrite lookup_insert_eq.
  unfold leaderboard_doc, existing_list, dict_get, dict_of. simpl.
  rewrite lookup_insert_ne by done. rewrite lookup_insert_ne by done.
  by rewrite lookup_insert_eq.
Qed.

(** The merge on a list that is already a leaderboard: entries the merge
    accepts, with truthy hashes that differ from one another, in leaderboard
    order and within the cap. *)
Lemma generate_leaderboard_fixed (fs : gmap string file) (now : Z)
    (top : list pyval) (path : string) (N : Z) :
  stored_scores fs path = Some top →
  Forall (λ x, is_score_entry x = true) top →
  Forall (λ x, truthy (session_hash_of x) = true) top →
  NoDup ((norm ∘ session_hash_of) <$> top) →
  StronglySorted score_order top →
  0 ≤ N → (length top ≤ Z.to_nat N)%nat →
  generate_leaderboard fs now [] path N
  = Ok (leaderboard_doc now (with_ranks 1 top)).
Proof.
  intros Hstored Hentries Htruthy Hnd Hsorted HN Hlen.
  unfold generate_leaderboard.
  rewrite (concat_with_existing_ok _ _ top) by done. simpl.
  rewrite app_nil_r.
  rewrite (unique_by_dedup _ session_hash_of).
  2:{ eapply Forall_impl; [exact Hentries |].
      by intros x (_ & ? & ? & _)%score_entry_facts. }
  simpl. rewrite dedup_all; [| | constructor | | done].
  2:{ apply Forall_forall. intros x Hx. rewrite Forall_forall in Hentries.
      rewrite Forall_forall in Htruthy.
      destruct (score_entry_facts x (Hentries x Hx)) as (_ & _ & ? & _).
      split; [done | by apply Htruthy]. }
  2:{ apply Forall_forall. intros x _. apply not_elem_of_nil. }
  rewrite (sort_with_key_id score_key (λ x, (- wpm_of x, timestamp_of x))).
  2:{ eapply Forall_impl; [exact Hentries |].
      by intros x (_ & _ & _ & ?)%score_entry_facts. }
  2:{ eapply StronglySorted_mono; [| exact Hsorted].
      intros x y. unfold lex_le, score_order. simpl. lia. }
  simpl. rewrite slice_to_take by done. rewrite take_ge by done.
  rewrite assign_ranks_ok; [done |].
  eapply Forall_impl; [exact Hentries |].
  by intros x (? & _)%score_entry_facts.
Qed.

(** X14: once the leaderboard a merge returned has been written to the
    file, merging again with nothing new returns the same entries: only the
    time stamp of the document changes. *)
Theorem generate_leaderboard_idempotent (fs : gmap string file) (now now' : Z)
    (L1 L2 : list pyval) (path : string) (N : Z) :
  stored_scores fs path = Some L1 →
  forallb is_score_entry (L1 ++ L2) = true →
  0 ≤ N →
  ∃ top,
    generate_leaderboard fs now L2 path N = Ok (leaderboard_doc now top)
    ∧ generate_leaderboard (written fs path (leaderboard_doc now top)) now' []
        path N
      = Ok (leaderboard_doc now' top).
Proof.
  intros Hstored Hentries HN.
  destruct (generate_leaderboard_spec fs now L1 L2 path N Hstored Hentries)
    as (s & Hgen & Hperm & Hsorted).
  apply forallb_Forall in Hentries.
  rewrite slice_to_take in Hgen by done.
  set (u := dedup session_hash_of [] (L1 ++ L2)) in *.
  set (t := take (Z.to_nat N) s) in *.
  assert (t `sublist_of` s) as Hsub by apply sublist_take.
  assert (Forall (λ x, is_score_entry x = true) u) as Hu
    by (eapply Forall_sublist; [apply dedup_sublist | done]).
  assert (Forall (λ x, is_score_entry x = true) t) as Ht.
  { eapply Forall_sublist; [exact Hsub |]. by rewrite Hperm. }
  exists (with_ranks 1 t). split; [done |].
  rewrite <- (with_ranks_twice 1 1 t) at 2.
  apply generate_leaderboard_fixed; [apply stored_scores_written | | | | | done |].
  - apply Forall_with_ranks; [| done].
    intros r x. by rewrite is_score_entry_set_rank.
  - apply Forall_with_ranks.
    { intros r x. by rewrite session_hash_set_rank. }
    eapply Forall_sublist; [exact Hsub |]. rewrite Hperm.
    apply Forall_forall. intros x Hx.
    by destruct (dedup_fresh session_hash_of [] (L1 ++ L2) x Hx).
  - rewrite fmap_with_ranks
      by (intros; simpl; by rewrite session_hash_set_rank).
    eapply sublist_NoDup; [| apply fmap_sublist, Hsub].
    rewrite Hperm. apply dedup_NoDup.
    eapply Forall_impl; [exact Hentries |].
    by intros x (_ & _ & ? & _)%score_entry_facts.
  - apply StronglySorted_with_ranks; [apply score_order_set_rank |].
    by apply StronglySorted_take.
  - rewrite length_with_ranks. unfold t. rewrite length_take. lia.
Qed.

Lemma generate_leaderboard_idempotent_witness :
  ∃ top,
    generate_leaderboard sample_fs 7 incoming_twice leaderboard_path 50
    = Ok (leaderboard_doc 7 top)
    ∧ generate_leaderboard
        (written sample_fs leaderboard_path (leaderboard_doc 7 top)) 8 []
        leaderboard_path 50
      = Ok (leaderboard_doc 8 top).
Proof.
  apply (generate_leaderboard_idempotent sample_fs 7 8 [set_rank 1 stored_entry]
           incoming_twice leaderboard_path 50).
  - vm_compute; reflexivity.
  - vm_compute; reflexivity.
  - lia.
Defined.

(** ** The order of the incoming scores *)





(** ** Ties *)


Lemma filter_none {A} (Q : A → Prop) `{∀ x, Decision (Q x)} (l : list A) :
  Forall (λ y, ¬ Q y) l → filter Q l = [].
Proof.
  induction 1 as [|y l Hy _ IH]; [done |].
  rewrite filter_cons. by case_decide.
Qed.

Section Stable.
Context {A K : Type} `{EqDecision K} (lt : A → A → res bool) (g : A → K)
  (P : A → Prop).
Hypothesis lt_differ : ∀ x y, P x → P y → lt y x = Ok true → g y ≠ g x.

End Stable.





(** ** Running the feedback merge again *)

Lemma stored_items_written (fs : gmap string file) (path : string) (now : Z)
    (items : list pyval) :
  stored_items (written fs path (feedback_doc now items)) path = Some items.
Proof.
  unfold stored_items, written, load_json_safe. rewrite lookup_insert_eq.
  unfold feedback_doc, existing_list, dict_get, dict_of. simpl.
  rewrite lookup_insert_ne by done. rewrite lookup_insert_ne by done.
  by rewrite lookup_insert_eq.
Qed.

(** X17: once the feedback list a merge returned has been written to the
    file, merging again with nothing new returns the same items in the same
    order: only the time stamp of the document changes. *)
Theorem generate_feedback_idempotent (fs : gmap string file) (now now' : Z)
    (L1 L2 : list pyval) (path : string) :
  stored_items fs path = Some L1 →
  forallb is_feedback_entry (L1 ++ L2) = true →
  ∃ items,
    generate_feedback fs now L2 path = Ok (feedback_doc now items)
    ∧ generate_feedback (written fs path (feedback_doc now items)) now' [] path
      = Ok (feedback_doc now' items).
Proof.
  intros Hstored Hentries. apply forallb_Forall in Hentries.
  set (u := dedup feedback_id_of [] (L1 ++ L2)).
  assert (Forall (λ x, is_feedback_entry x = true) u) as Hu
    by (eapply Forall_sublist; [apply dedup_sublist | done]).
  assert (Forall (λ x, ∃ k, feedback_key x = Ok k
                            ∧ as_int k.1 = Some (- votes_of x, - timestamp_of x).1
                            ∧ as_int k.2 = Some (- votes_of x, - timestamp_of x).2)
            u) as Hkeys.
  { eapply Forall_impl; [exact Hu |].
    by intros x (_ & _ & _ & ?)%feedback_entry_facts. }
  destruct (sort_with_key_sorted feedback_key
              (λ x, (- votes_of x, - timestamp_of x)) u Hkeys)
    as (s & Hsort & Hperm & Hs).
  assert (Forall (λ x, is_feedback_entry x = true) s) as Hentries_s
    by (by rewrite Hperm).
  exists s. split.
  - unfold generate_feedback.
    rewrite (concat_with_existing_ok _ _ L1) by done. simpl.
    rewrite (unique_by_dedup _ feedback_id_of).
    2:{ eapply Forall_impl; [exact Hentries |].
        by intros x (_ & ? & ? & _)%feedback_entry_facts. }
    simpl. fold u. by rewrite Hsort.
  - unfold generate_feedback.
    rewrite (concat_with_existing_ok _ _ s) by apply stored_items_written.
    simpl. rewrite app_nil_r.
    rewrite (unique_by_dedup _ feedback_id_of).
    2:{ eapply Forall_impl; [exact Hentries_s |].
        by intros x (_ & ? & ? & _)%feedback_entry_facts. }
    simpl. rewrite dedup_all; [| | constructor | |].
    + rewrite (sort_with_key_id feedback_key
                 (λ x, (- votes_of x, - timestamp_of x))); [done | | done].
      by rewrite Hperm.
    + rewrite Hperm. apply Forall_forall. intros x Hx.
      rewrite Forall_forall in Hu.
      destruct (feedback_entry_facts x (Hu x Hx)) as (_ & _ & ? & _).
      split; [done |].
      by destruct (dedup_fresh feedback_id_of [] (L1 ++ L2) x Hx).
    + apply Forall_forall. intros x _. apply not_elem_of_nil.
    + rewrite Hperm. apply dedup_NoDup.
      eapply Forall_impl; [exact Hentries |].
      by intros x (_ & _ & ? & _)%feedback_entry_facts.
Qed.

Lemma generate_feedback_idempotent_witness :
  ∃ items,
    generate_feedback ∅ 7 feedback_same_feedback_id feedback_path
    = Ok (feedback_doc 7 items)
    ∧ generate_feedback (written ∅ feedback_path (feedback_doc 7 items)) 8 []
        feedback_path
      = Ok (feedback_doc 8 items).
Proof.
  apply (generate_feedback_idempotent ∅ 7 8 [] feedback_same_feedback_id
           feedback_path).
  - vm_compute; reflexivity.
  - vm_compute; reflexivity.
Defined.

(** ** Listing the flagged scores *)

Lemma moderated_entry_facts (s : pyval) :
  is_moderated_entry s = true →
  ∃ d v, s = PDict d ∧ field s "votes" (PDict ∅) = PDict v
         ∧ as_int (flags_of s) = Some (flag_count s)
         ∧ hashable (session_hash_of s) = true.
Proof.
  unfold is_moderated_entry. rewrite !andb_true_iff.
  intros [[[Hd Hv] Hn] Hh].
  destruct s as [| | | | |d]; try discriminate.
  destruct (field (PDict d) "votes" (PDict ∅)) as [| | | | |v] eqn:Ev;
    try discriminate.
  exists d, v. split; [done |]. split; [done |]. split; [| done].
  unfold flag_count, is_number in *.
  by destruct (as_int (flags_of (PDict d))).
Qed.

Lemma py_ge_numbers (p q : pyval) (a b : Z) :
  as_int p = Some a → as_int q = Some b → py_ge p q = Ok (b <=? a).
Proof.
  destruct p as [|x|n| | |], q as [|y|m| | |]; simpl; try discriminate;
    by intros [= <-] [= <-].
Qed.

Lemma flagged_of_spec (t : pyval) (n : Z) (scores : list pyval) :
  as_int t = Some n →
  Forall (λ s, is_moderated_entry s = true) scores →
  flagged_of t scores
  = Ok (flagged_record <$> filter (λ s, n ≤ flag_count s) scores).
Proof.
  intros Ht. induction 1 as [|s l Hs _ IH]; [done |].
  destruct (moderated_entry_facts s Hs) as (d & v & -> & Hv & Hf & _).
  rewrite filter_cons.
  cbn [flagged_of py_get mbind res_bind].
  change (dict_get d "votes" (PDict ∅)) with (field (PDict d) "votes" (PDict ∅)).
  rewrite Hv. cbn [py_get mbind res_bind].
  change (dict_get v "flags" (PInt 0)) with (field (PDict v) "flags" (PInt 0)).
  rewrite <- Hv. fold (flags_of (PDict d)).
  rewrite (py_ge_numbers _ _ _ _ Hf Ht). cbn [mbind res_bind].
  destruct (n <=? flag_count (PDict d)) eqn:Hle.
  - apply Z.leb_le in Hle. rewrite decide_True by done.
    rewrite IH. cbn [mbind res_bind]. rewrite fmap_cons. do 2 f_equal.
    unfold flagged_record. by rewrite Hv.
  - apply Z.leb_gt in Hle. rewrite decide_False by lia. done.
Qed.

Lemma list_flagged_scores_unfold (leaderboard : gmap string pyval)
    (scores : list pyval) (t : pyval) (n : Z) :
  dict_get leaderboard "scores" (PList []) = PList scores →
  Forall (λ s, is_moderated_entry s = true) scores →
  as_int t = Some n →
  list_flagged_scores leaderboard t
  = Ok (flagged_record <$> filter (λ s, n ≤ flag_count s) scores).
Proof.
  intros Hscores Hentries Ht.
  unfold list_flagged_scores. rewrite Hscores.
  by apply flagged_of_spec.
Qed.

(** X18: on a leaderboard whose entries the tool can process, the listing
    for a numeric threshold [n] returns one record for each entry with [n]
    flags or more, in leaderboard order; an entry without [votes] or without
    [flags] counts as having none. *)
Theorem list_flagged_scores_spec (leaderboard : gmap string pyval)
    (scores : list pyval) (t : pyval) (n : Z) :
  dict_get leaderboard "scores" (PList []) = PList scores →
  forallb is_moderated_entry scores = true →
  as_int t = Some n →
  list_flagged_scores leaderboard t
  = Ok (flagged_record <$> filter (λ s, n ≤ flag_count s) scores).
Proof.
  intros Hscores Hentries Ht. apply forallb_Forall in Hentries.
  by apply list_flagged_scores_unfold.
Qed.

Lemma list_flagged_scores_spec_witness :
  list_flagged_scores moderated_leaderboard (PInt 3)
  = Ok (flagged_record
          <$> filter (λ s, 3 ≤ flag_count s) moderated_scores).
Proof.
  apply (list_flagged_scores_spec moderated_leaderboard moderated_scores
           (PInt 3) 3).
  - vm_compute; reflexivity.
  - vm_compute; reflexivity.
  - reflexivity.
Defined.

(** X19: an entry whose [votes] is present but not an object (a number, a
    string, [null]) makes the listing raise, whatever the entries after it
    hold; the batch deletion then raises before it asks or deletes
    anything. *)
Theorem list_flagged_scores_raises (repr : pyval → string) (env : tool_env)
    (leaderboard : gmap string pyval) (fs : gmap string file)
    (pre post : list pyval) (bad t : pyval) (n : Z) (auto_save : bool) :
  dict_get leaderboard "scores" (PList []) = PList (pre ++ bad :: post) →
  forallb is_moderated_entry pre = true →
  as_int t = Some n →
  is_dict bad = true →
  is_dict (field bad "votes" (PDict ∅)) = false →
  list_flagged_scores leaderboard t = Raise AttributeError
  ∧ batch_delete_flagged repr env leaderboard fs t auto_save
    = Raise AttributeError.
Proof.
  intros Hscores Hpre Ht Hbad Hvotes. apply forallb_Forall in Hpre.
  assert (list_flagged_scores leaderboard t = Raise AttributeError) as Hlist.
  { unfold list_flagged_scores. rewrite Hscores. clear Hscores.
    induction Hpre as [|s l Hs _ IH].
    - destruct bad as [| | | | |d]; try discriminate.
      cbn [app flagged_of py_get mbind res_bind].
      change (dict_get d "votes" (PDict ∅))
        with (field (PDict d) "votes" (PDict ∅)).
      by destruct (field (PDict d) "votes" (PDict ∅)).
    - destruct (moderated_entry_facts s Hs) as (d & v & -> & Hv & Hf & _).
      cbn [app flagged_of py_get mbind res_bind].
      change (dict_get d "votes" (PDict ∅))
        with (field (PDict d) "votes" (PDict ∅)).
      rewrite Hv. cbn [py_get mbind res_bind].
      change (dict_get v "flags" (PInt 0)) with (field (PDict v) "flags" (PInt 0)).
      rewrite <- Hv. fold (flags_of (PDict d)).
      rewrite (py_ge_numbers _ _ _ _ Hf Ht). cbn [mbind res_bind].
      rewrite IH. by destruct (n <=? flag_count (PDict d)). }
  split; [done |]. unfold batch_delete_flagged. by rewrite Hlist.
Qed.

Lemma list_flagged_scores_raises_witness :
  list_flagged_scores leaderboard_with_numeric_votes (PInt 3)
  = Raise AttributeError
  ∧ batch_delete_flagged no_repr operator_yes leaderboard_with_numeric_votes ∅
      (PInt 3) true
    = Raise AttributeError.
Proof.
  apply (list_flagged_scores_raises no_repr operator_yes
           leaderboard_with_numeric_votes ∅ [voted "abc123" 145 5 0] []
           (PDict (dict_of [("sessionHash", PStr "def456"); ("votes", PInt 4)]))
           (PInt 3) 3 true).
  - vm_compute; reflexivity.
  - vm_compute; reflexivity.
  - reflexivity.
  - reflexivity.
  - vm_compute; reflexivity.
Defined.

(** ** Deleting *)

Lemma hash_is_set_rank (h : pyval) (r : Z) (x : pyval) :
  hash_is h (set_rank r x) = hash_is h x.
Proof. unfold hash_is. by rewrite session_hash_set_rank. Qed.

Lemma existsb_hash_set_rank (hs : list pyval) (r : Z) (x : pyval) :
  existsb (λ h, hash_is h (set_rank r x)) hs = existsb (λ h, hash_is h x) hs.
Proof.
  induction hs as [|h hs IH]; [done |].
  simpl. by rewrite hash_is_set_rank, IH.
Qed.

(** Ranks set before a filter that does not look at them are overwritten by
    the ranks set after it. *)
Lemma with_ranks_filter (P : pyval → Prop) `{∀ x, Decision (P x)}
    (a b : Z) (l : list pyval) :
  (∀ r x, P (set_rank r x) ↔ P x) →
  with_ranks a (filter P (with_ranks b l)) = with_ranks a (filter P l).
Proof.
  intros HP. revert a b. induction l as [|x l IH]; intros a b; [done |].
  cbn [with_ranks]. rewrite !filter_cons.
  destruct (decide (P (set_rank b x))) as [Hb|Hb], (decide (P x)) as [Hx|Hx].
  - cbn [with_ranks]. by rewrite set_rank_twice, IH.
  - by apply HP in Hb.
  - by apply (HP b) in Hx.
  - apply IH.
Qed.

(** Deleting on a leaderboard whose entries are objects. *)
Lemma delete_score_by_hash_dicts (leaderboard : gmap string pyval)
    (scores : list pyval) (h : pyval) :
  dict_get leaderboard "scores" (PList []) = PList scores →
  Forall (λ x, is_dict x = true) scores →
  delete_score_by_hash leaderboard h
  = Ok (<["scores" := PList (with_ranks 1
                               (filter (λ s, hash_is h s = false) scores))]>
          leaderboard,
        existsb (hash_is h) scores).
Proof.
  intros Hscores Hdict.
  set (kept := filter (λ s, hash_is h s = false) scores).
  assert (Forall (λ x, is_dict x = true) kept) as Hkept
    by (eapply Forall_sublist; [apply sublist_filter | done]).
  unfold delete_score_by_hash. rewrite Hscores.
  rewrite scores_without_spec by done. simpl. fold kept.
  rewrite assign_ranks_ok by done. simpl. do 2 f_equal.
  rewrite length_with_ranks, existsb_filter_length.
  pose proof (length_filter_split h scores) as Hlen. fold kept in Hlen.
  destruct (length (filter (λ s, hash_is h s = true) scores)) as [|m]; simpl.
  - apply Nat.ltb_ge. lia.
  - apply Nat.ltb_lt. lia.
Qed.

Lemma without_hashes_cons (h : pyval) (hs : list pyval) (l : list pyval) :
  without_hashes (h :: hs) l
  = without_hashes hs (filter (λ s, hash_is h s = false) l).
Proof.
  unfold without_hashes. rewrite list_filter_filter.
  apply list_filter_iff. intros s. simpl.
  rewrite orb_false_iff. tauto.
Qed.

Lemma without_hashes_nil (l : list pyval) : without_hashes [] l = l.
Proof.
  unfold without_hashes. induction l as [|x l IH]; [done |].
  rewrite filter_cons. rewrite decide_True by done. by f_equal.
Qed.

Lemma flagged_record_hash (s : pyval) :
  py_get (flagged_record s) "sessionHash" PNone = Ok (session_hash_of s).
Proof.
  unfold flagged_record, py_get, dict_get, dict_of. simpl.
  rewrite lookup_insert_ne by done. by rewrite lookup_insert_eq.
Qed.

Lemma delete_flagged_spec (repr : pyval → string) (env : tool_env)
    (flagged : list pyval) (leaderboard : gmap string pyval)
    (fs : gmap string file) (deleted : Z) (scores : list pyval) :
  dict_get leaderboard "scores" (PList []) = PList scores →
  Forall (λ x, is_dict x = true) scores →
  ∃ fs' deleted',
    delete_flagged repr env (flagged_record <$> flagged) leaderboard fs deleted
    = Ok (match flagged with
          | [] => leaderboard
          | _ :: _ =>
              <["scores" :=
                  PList (with_ranks 1
                           (without_hashes (session_hash_of <$> flagged) scores))]>
                leaderboard
          end, fs', deleted').
Proof.
  revert leaderboard fs deleted scores.
  induction flagged as [|s fl IH]; intros leaderboard fs deleted scores
    Hscores Hdict.
  - by exists fs, deleted.
  - rewrite fmap_cons. cbn [delete_flagged].
    rewrite flagged_record_hash. cbn [mbind res_bind].
    rewrite (delete_score_by_hash_dicts _ scores) by done.
    cbn [mbind res_bind fst snd].
    set (cur := with_ranks 1
                  (filter (λ x, hash_is (session_hash_of s) x = false) scores)).
    set (lb1 := <["scores" := PList cur]> leaderboard).
    assert (dict_get lb1 "scores" (PList []) = PList cur) as Hcur.
    { unfold dict_get, lb1. by rewrite lookup_insert_eq. }
    assert (Forall (λ x, is_dict x = true) cur) as Hdict1.
    { apply Forall_with_ranks; [intros r x; by rewrite is_dict_set_rank |].
      eapply Forall_sublist; [apply sublist_filter | done]. }
    assert (match fl with
            | [] => lb1
            | _ :: _ =>
                <["scores" :=
                    PList (with_ranks 1
                             (without_hashes (session_hash_of <$> fl) cur))]> lb1
            end
            = <["scores" :=
                  PList (with_ranks 1
                           (without_hashes (session_hash_of <$> s :: fl) scores))]>
                leaderboard) as Hresult.
    { rewrite fmap_cons, without_hashes_cons. destruct fl as [|s' fl].
      - unfold lb1, cur. simpl. by rewrite without_hashes_nil.
      - unfold lb1. rewrite insert_insert_eq. do 2 f_equal.
        unfold cur, without_hashes. apply with_ranks_filter.
        intros r x. by rewrite existsb_hash_set_rank. }
    rewrite <- Hresult.
    destruct (existsb (hash_is (session_hash_of s)) scores).
    + apply (IH lb1 _ _ cur Hcur Hdict1).
    + apply (IH lb1 _ _ cur Hcur Hdict1).
Qed.

Lemma is_moderated_entry_set_rank (r : Z) (x : pyval) :
  is_moderated_entry (set_rank r x) = is_moderated_entry x.
Proof.
  unfold is_moderated_entry, flags_of.
  by rewrite is_dict_set_rank, session_hash_set_rank, !field_set_rank.
Qed.

Lemma flag_count_set_rank (r : Z) (x : pyval) :
  flag_count (set_rank r x) = flag_count x.
Proof. unfold flag_count, flags_of. by rewrite !field_set_rank. Qed.

Lemma hash_is_own (s : pyval) :
  hashable (session_hash_of s) = true → hash_is (session_hash_of s) s = true.
Proof. intros Hh. unfold hash_is. by apply py_eq_norm. Qed.

(** No entry is left flagged once the hashes of the flagged entries have
    been removed. *)
Lemma without_flagged_hashes (n : Z) (scores : list pyval) :
  Forall (λ s, is_moderated_entry s = true) scores →
  filter (λ s, n ≤ flag_count s)
    (with_ranks 1
       (without_hashes
          (session_hash_of <$> filter (λ s, n ≤ flag_count s) scores) scores))
  = [].
Proof.
  intros Hentries. apply filter_none, Forall_forall.
  intros e (i & s & Hs & ->)%elem_of_with_ranks.
  rewrite flag_count_set_rank. intros Hflag.
  apply list_elem_of_lookup_2, list_elem_of_filter in Hs as [Hnone Hin].
  rewrite Forall_forall in Hentries.
  destruct (moderated_entry_facts s (Hentries s Hin)) as (_ & _ & _ & _ & _ & Hh).
  apply hash_is_own in Hh.
  assert (existsb (λ h, hash_is h s)
            (session_hash_of <$> filter (λ s, n ≤ flag_count s) scores) = true)
    as Hex; [| congruence].
  apply existsb_exists. exists (session_hash_of s). split; [| done].
  apply list_elem_of_In, list_elem_of_fmap. exists s. split; [done |].
  by apply list_elem_of_filter.
Qed.

(** X20: on a leaderboard whose entries the tool can process, a batch
    deletion that the operator does not confirm with [yes] changes neither
    the leaderboard nor the files and returns 0; one that is confirmed
    leaves a leaderboard on which the listing for the same threshold is
    empty, and whose entries are entries of the original leaderboard, in
    their order, re-ranked when anything was flagged. *)
Theorem batch_delete_flagged_spec (repr : pyval → string) (env : tool_env)
    (leaderboard : gmap string pyval) (fs : gmap string file)
    (scores : list pyval) (t : pyval) (n : Z) (auto_save : bool) :
  dict_get leaderboard "scores" (PList []) = PList scores →
  forallb is_moderated_entry scores = true →
  as_int t = Some n →
  ∃ leaderboard' fs' deleted,
    batch_delete_flagged repr env leaderboard fs t auto_save
    = Ok (leaderboard', fs', deleted)
    ∧ (confirm env ≠ "yes" →
       leaderboard' = leaderboard ∧ fs' = fs ∧ deleted = 0)
    ∧ (confirm env = "yes" →
       list_flagged_scores leaderboard' t = Ok []
       ∧ ∃ kept, kept `sublist_of` scores
                 ∧ (dict_get leaderboard' "scores" (PList []) = PList kept
                    ∨ dict_get leaderboard' "scores" (PList [])
                      = PList (with_ranks 1 kept))).
Proof.
  intros Hscores Hentries Ht. apply forallb_Forall in Hentries.
  assert (Forall (λ x, is_dict x = true) scores) as Hdict.
  { eapply Forall_impl; [exact Hentries |].
    by intros s (d & _ & -> & _)%moderated_entry_facts. }
  unfold batch_delete_flagged.
  rewrite (list_flagged_scores_unfold leaderboard scores t n) by done.
  cbn [mbind res_bind].
  set (fl := filter (λ s, n ≤ flag_count s) scores).
  assert (fl = filter (λ s, n ≤ flag_count s) scores) as Hfl by done.
  destruct fl as [|s fl].
  { cbn [fmap list_fmap]. exists leaderboard, fs, 0.
    split; [done |]. split; [done |]. intros _. split.
    - rewrite (list_flagged_scores_unfold leaderboard scores t n) by done.
      by rewrite <- Hfl.
    - exists scores. split; [done |]. by left. }
  rewrite fmap_cons.
  destruct (String.eqb (confirm env) "yes") eqn:Hyes; cbn [negb].
  2:{ exists leaderboard, fs, 0. split; [done |]. split; [done |].
      intros Hc. apply String.eqb_neq in Hyes. done. }
  apply String.eqb_eq in Hyes.
  destruct (delete_flagged_spec repr env (s :: fl) leaderboard fs 0 scores
              Hscores Hdict) as (fs1 & k & Hdel).
  rewrite fmap_cons in Hdel. rewrite Hdel. cbn [mbind res_bind].
  set (kept := without_hashes (session_hash_of <$> s :: fl) scores) in *.
  set (lb1 := <["scores" := PList (with_ranks 1 kept)]> leaderboard) in *.
  assert (∀ lb2 : gmap string pyval,
            dict_get lb2 "scores" (PList []) = PList (with_ranks 1 kept) →
            list_flagged_scores lb2 t = Ok []
            ∧ ∃ kept0, kept0 `sublist_of` scores
                       ∧ (dict_get lb2 "scores" (PList []) = PList kept0
                          ∨ dict_get lb2 "scores" (PList [])
                            = PList (with_ranks 1 kept0))) as Hfinal.
  { intros lb2 Hlb2. split.
    - rewrite (list_flagged_scores_unfold lb2 (with_ranks 1 kept) t n);
        [| done | | done].
      + unfold kept. rewrite Hfl. by rewrite without_flagged_hashes.
      + apply Forall_with_ranks;
          [intros r x; by rewrite is_moderated_entry_set_rank |].
        eapply Forall_sublist; [apply sublist_filter | done].
    - exists kept. split; [apply sublist_filter | by right]. }
  destruct (auto_save && (0 <? k)).
  - unfold save_leaderboard.
    destruct (save_fault_at env); eexists _, _, _;
      (split; [done |]); (split; [by intros [] |]); intros _;
      apply Hfinal; unfold dict_get, lb1;
      rewrite lookup_insert_ne by done; by rewrite lookup_insert_eq.
  - eexists _, _, _. split; [done |]. split; [by intros [] |]. intros _.
    apply Hfinal. unfold dict_get, lb1. by rewrite lookup_insert_eq.
Qed.

Lemma batch_delete_flagged_spec_witness :
  ∃ leaderboard' fs' deleted,
    batch_delete_flagged no_repr operator_yes moderated_leaderboard ∅
      (PInt 3) true
    = Ok (leaderboard', fs', deleted)
    ∧ (confirm operator_yes ≠ "yes" →
       leaderboard' = moderated_leaderboard ∧ fs' = ∅ ∧ deleted = 0)
    ∧ (confirm operator_yes = "yes" →
       list_flagged_scores leaderboard' (PInt 3) = Ok []
       ∧ ∃ kept, kept `sublist_of` moderated_scores
                 ∧ (dict_get leaderboard' "scores" (PList []) = PList kept
                    ∨ dict_get leaderboard' "scores" (PList [])
                      = PList (with_ranks 1 kept))).
Proof.
  apply (batch_delete_flagged_spec no_repr operator_yes moderated_leaderboard
           ∅ moderated_scores (PInt 3) 3 true).
  - vm_compute; reflexivity.
  - vm_compute; reflexivity.
  - reflexivity.
Defined.

(** ** Deleting again, and deleting from a merged leaderboard *)

Lemma filter_twice {A} (P : A → Prop) `{∀ x, Decision (P x)} (l : list A) :
  filter P (filter P l) = filter P l.
Proof. by apply list_filter_filter_l. Qed.

(** X21: on a leaderboard whose entries are objects, deleting a hash leaves
    no entry with that hash, so deleting it a second time returns [False]
    and leaves the leaderboard as the first deletion left it. *)
Theorem delete_score_by_hash_twice (leaderboard : gmap string pyval)
    (scores : list pyval) (h : pyval) :
  dict_get leaderboard "scores" (PList []) = PList scores →
  forallb is_dict scores = true →
  ∃ leaderboard' found left,
    delete_score_by_hash leaderboard h = Ok (leaderboard', found)
    ∧ dict_get leaderboard' "scores" (PList []) = PList left
    ∧ existsb (hash_is h) left = false
    ∧ delete_score_by_hash leaderboard' h = Ok (leaderboard', false).
Proof.
  intros Hscores Hdict. apply forallb_Forall in Hdict.
  set (kept := filter (λ s, hash_is h s = false) scores).
  set (lb1 := <["scores" := PList (with_ranks 1 kept)]> leaderboard).
  assert (dict_get lb1 "scores" (PList []) = PList (with_ranks 1 kept)) as Hlb1.
  { unfold dict_get, lb1. by rewrite lookup_insert_eq. }
  assert (Forall (λ x, is_dict x = true) (with_ranks 1 kept)) as Hdict1.
  { apply Forall_with_ranks; [intros r x; by rewrite is_dict_set_rank |].
    eapply Forall_sublist; [apply sublist_filter | done]. }
  assert (existsb (hash_is h) (with_ranks 1 kept) = false) as Hnone.
  { apply not_true_iff_false. intros (e & Hin & He)%existsb_exists.
    apply list_elem_of_In, elem_of_with_ranks in Hin as (i & x & Hx & ->).
    rewrite hash_is_set_rank in He.
    apply list_elem_of_lookup_2, list_elem_of_filter in Hx as [Hx _].
    congruence. }
  exists lb1, (existsb (hash_is h) scores), (with_ranks 1 kept).
  split; [by apply delete_score_by_hash_dicts |].
  split; [done |]. split; [done |].
  rewrite (delete_score_by_hash_dicts lb1 (with_ranks 1 kept)) by done.
  rewrite Hnone. do 2 f_equal. unfold lb1. rewrite insert_insert_eq.
  do 2 f_equal.
  rewrite with_ranks_filter by (intros r x; by rewrite hash_is_set_rank).
  unfold kept. by rewrite filter_twice.
Qed.

Lemma delete_score_by_hash_twice_witness :
  ∃ leaderboard' found left,
    delete_score_by_hash three_leaderboard (PStr "def456")
    = Ok (leaderboard', found)
    ∧ dict_get leaderboard' "scores" (PList []) = PList left
    ∧ existsb (hash_is (PStr "def456")) left = false
    ∧ delete_score_by_hash leaderboard' (PStr "def456")
      = Ok (leaderboard', false).
Proof.
  apply (delete_score_by_hash_twice three_leaderboard
           (with_ranks 1 three_scores) (PStr "def456")).
  - vm_compute; reflexivity.
  - vm_compute; reflexivity.
Defined.

(** X22: on a leaderboard whose entries are objects, two deletions give the
    same leaderboard in either order. *)
Theorem delete_score_by_hash_commutes (leaderboard : gmap string pyval)
    (scores : list pyval) (h1 h2 : pyval) :
  dict_get leaderboard "scores" (PList []) = PList scores →
  forallb is_dict scores = true →
  ∃ lb1 lb2 lb12 f1 f2 g1 g2,
    delete_score_by_hash leaderboard h1 = Ok (lb1, f1)
    ∧ delete_score_by_hash lb1 h2 = Ok (lb12, f2)
    ∧ delete_score_by_hash leaderboard h2 = Ok (lb2, g2)
    ∧ delete_score_by_hash lb2 h1 = Ok (lb12, g1).
Proof.
  intros Hscores Hdict. apply forallb_Forall in Hdict.
  assert (∀ a b,
            ∃ f, delete_score_by_hash
                   (<["scores" :=
                        PList (with_ranks 1
                                 (filter (λ s, hash_is a s = false) scores))]>
                      leaderboard) b
                 = Ok (<["scores" :=
                           PList (with_ranks 1 (without_hashes [a; b] scores))]>
                         leaderboard, f)) as Hsecond.
  { intros a b. eexists.
    rewrite (delete_score_by_hash_dicts _
               (with_ranks 1 (filter (λ s, hash_is a s = false) scores))).
    - rewrite insert_insert_eq. do 3 f_equal.
      rewrite with_ranks_filter by (intros r x; by rewrite hash_is_set_rank).
      by rewrite !without_hashes_cons, without_hashes_nil.
    - unfold dict_get. by rewrite lookup_insert_eq.
    - apply Forall_with_ranks; [intros r x; by rewrite is_dict_set_rank |].
      eapply Forall_sublist; [apply sublist_filter | done]. }
  destruct (Hsecond h1 h2) as [f2 H12]. destruct (Hsecond h2 h1) as [g1 H21].
  eexists _, _, _, _, f2, g1, _.
  split; [by apply delete_score_by_hash_dicts |].
  split; [exact H12 |].
  split; [by apply delete_score_by_hash_dicts |].
  rewrite H21.
  assert (without_hashes [h2; h1] scores = without_hashes [h1; h2] scores)
    as ->; [| done].
  unfold without_hashes. apply list_filter_iff. intros s. simpl.
  rewrite !orb_false_r, !orb_false_iff. tauto.
Qed.

Lemma delete_score_by_hash_commutes_witness :
  ∃ lb1 lb2 lb12 f1 f2 g1 g2,
    delete_score_by_hash three_leaderboard (PStr "def456") = Ok (lb1, f1)
    ∧ delete_score_by_hash lb1 (PStr "abc123") = Ok (lb12, f2)
    ∧ delete_score_by_hash three_leaderboard (PStr "abc123") = Ok (lb2, g2)
    ∧ delete_score_by_hash lb2 (PStr "def456") = Ok (lb12, g1).
Proof.
  apply (delete_score_by_hash_commutes three_leaderboard
           (with_ranks 1 three_scores) (PStr "def456") (PStr "abc123")).
  - vm_compute; reflexivity.
  - vm_compute; reflexivity.
Defined.

Lemma scores_of_leaderboard_doc (now : Z) (top : list pyval) :
  ∃ d, leaderboard_doc now top = PDict d
       ∧ dict_get d "scores" (PList []) = PList top.
Proof.
  eexists. split; [reflexivity |].
  unfold dict_get, dict_of. simpl.
  rewrite lookup_insert_ne by done. rewrite lookup_insert_ne by done.
  by rewrite lookup_insert_eq.
Qed.

(** X23: on the leaderboard a merge returned, whatever the merge was given,
    deleting a hash returns; it removes one entry and returns [True] when an
    entry has the hash, and removes none and returns [False] otherwise; the
    other entries keep their order and are ranked [1, 2, ...]. *)
Theorem delete_after_merge (fs : gmap string file) (now : Z)
    (scores : list pyval) (path : string) (N : Z)
    (leaderboard : gmap string pyval) (h : pyval) :
  generate_leaderboard fs now scores path N = Ok (PDict leaderboard) →
  ∃ top kept found,
    dict_get leaderboard "scores" (PList []) = PList top
    ∧ delete_score_by_hash leaderboard h
      = Ok (<["scores" := PList (with_ranks 1 kept)]> leaderboard, found)
    ∧ kept = filter (λ s, hash_is h s = false) top
    ∧ found = existsb (hash_is h) top
    ∧ length top = (length kept + (if found then 1 else 0))%nat
    ∧ rank_of <$> with_ranks 1 kept = PInt <$> seqZ 1 (Z.of_nat (length kept)).
Proof.
  intros (t & Hlb & _ & Hdict & Hnd & Hhash)%generate_leaderboard_shape.
  destruct (scores_of_leaderboard_doc now (with_ranks 1 t)) as (d & Hd & Hget).
  rewrite Hd in Hlb. injection Hlb as ->.
  assert (Forall (λ x, is_dict x = true) (with_ranks 1 t)) as Hdict1.
  { apply Forall_with_ranks; [intros r x; by rewrite is_dict_set_rank | done]. }
  set (top := with_ranks 1 t) in *.
  set (kept := filter (λ s, hash_is h s = false) top).
  exists top, kept, (existsb (hash_is h) top).
  split; [done |]. split; [by apply delete_score_by_hash_dicts |].
  split; [done |]. split; [done |]. split.
  - pose proof (length_filter_split h top) as Hlen. fold kept in Hlen.
    assert (length (filter (λ s, hash_is h s = true) top) ≤ 1)%nat as Hone.
    { apply distinct_hashes_filter; [done |].
      eapply Forall_impl; [exact Hhash |]. by intros x [? _]. }
    rewrite existsb_filter_length.
    destruct (length (filter (λ s, hash_is h s = true) top)) as [|[|m]];
      simpl; lia.
  - apply ranks_with_ranks.
    eapply Forall_sublist; [apply sublist_filter | done].
Qed.

Lemma delete_after_merge_witness :
  ∃ top kept found,
    dict_get merged_mixed "scores" (PList []) = PList top
    ∧ delete_score_by_hash merged_mixed (PInt 1)
      = Ok (<["scores" := PList (with_ranks 1 kept)]> merged_mixed, found)
    ∧ kept = filter (λ s, hash_is (PInt 1) s = false) top
    ∧ found = existsb (hash_is (PInt 1)) top
    ∧ length top = (length kept + (if found then 1 else 0))%nat
    ∧ rank_of <$> with_ranks 1 kept = PInt <$> seqZ 1 (Z.of_nat (length kept)).
Proof.
  apply (delete_after_merge ∅ 7 incoming_mixed leaderboard_path 2 merged_mixed
           (PInt 1)).
  vm_compute; reflexivity.
Defined.

(** ** Saving in place *)

(** X24: [save_leaderboard] stamps the data with the time before it opens
    the file, touches no other file, and after a save that succeeds the
    leaderboard loads as it was saved.  The write is made in place: after a
    save that fails, either the file is as it was, or it has been truncated
    and the next load gives the empty leaderboard. *)
Theorem save_leaderboard_outcome (env : tool_env) (fs fs' : gmap string file)
    (d : gmap string pyval) (filepath : string) (data' : pyval) (ok : bool) :
  save_leaderboard env fs (PDict d) filepath = (data', fs', ok) →
  data' = PDict (<["generated" := PInt (now_ms env)]> d)
  ∧ (∀ p, p ≠ filepath → fs' !! p = fs !! p)
  ∧ (ok = true → load_leaderboard fs' filepath = data')
  ∧ (ok = false →
     fs' = fs ∨ load_leaderboard fs' filepath = empty_leaderboard).
Proof.
  unfold save_leaderboard.
  destruct (save_fault_at env); intros [= <- <- <-];
    (split; [done |]); (split; [intros p Hp; by rewrite ?lookup_insert_ne |]);
    (split; [intros Hok; try discriminate Hok |]);
    try (intros Hok; try discriminate Hok).
  - unfold load_leaderboard. by rewrite lookup_insert_eq.
  - by left.
  - right. unfold load_leaderboard. by rewrite lookup_insert_eq.
  - right. unfold load_leaderboard. by rewrite lookup_insert_eq.
Qed.

Lemma save_leaderboard_outcome_witness :
  PDict (<["generated" := PInt 1705161500000]> three_leaderboard)
  = PDict (<["generated" := PInt (now_ms operator_disk_full)]> three_leaderboard)
  ∧ (∀ p, p ≠ leaderboard_path →
          (<[leaderboard_path := Garbled]> sample_fs) !! p = sample_fs !! p)
  ∧ (false = true →
     load_leaderboard (<[leaderboard_path := Garbled]> sample_fs)
       leaderboard_path
     = PDict (<["generated" := PInt 1705161500000]> three_leaderboard))
  ∧ (false = false →
     <[leaderboard_path := Garbled]> sample_fs = sample_fs
     ∨ load_leaderboard (<[leaderboard_path := Garbled]> sample_fs)
         leaderboard_path
       = empty_leaderboard).
Proof.
  apply (save_leaderboard_outcome operator_disk_full sample_fs _
           three_leaderboard leaderboard_path _ false).
  reflexivity.
Defined.

(** ** Replay files *)

Lemma atomic_write_stores (env : io_env) (fs fs' : gmap string file)
    (filepath : string) (data : pyval) :
  atomic_write_json env fs filepath data = (fs', true) →
  fs' !! filepath = Some (JsonFile data).
Proof.
  unfold atomic_write_json, try_block.
  repeat case_decide; intros [= <-]. by rewrite lookup_insert_eq.
Qed.

(** X25: when [generate_replay_file] returns [True], the session has a
    truthy [sessionHash], the file at the replay path of that hash loads as
    a document holding the session and the metadata, and, unless
    [os.remove] fails, [delete_replay_file] for the same hash and directory
    removes that file and returns [True]. *)
Theorem replay_file_round_trip (repr : pyval → string) (env : io_env)
    (tenv : tool_env) (fs fs1 : gmap string file)
    (session_data metadata votes : pyval) (dir : string) :
  generate_replay_file repr env fs session_data metadata votes dir
  = Ok (fs1, true) →
  ∃ h replay,
    py_get session_data "sessionHash" PNone = Ok h
    ∧ truthy h = true
    ∧ load_json_safe fs1 (replay_path repr dir h) PNone = replay
    ∧ field replay "sessionHash" PNone = h
    ∧ field replay "gameState" PNone = session_data
    ∧ field replay "metadata" PNone = metadata
    ∧ (remove_raises tenv (replay_path repr dir h) = false →
       delete_replay_file repr tenv fs1 h dir
       = (delete (replay_path repr dir h) fs1, true)).
Proof.
  unfold generate_replay_file.
  destruct (py_get session_data "sessionHash" PNone) as [h|] eqn:Hh;
    [| discriminate].
  cbn [mbind res_bind].
  destruct (truthy h) eqn:Ht; cbn [negb]; [| discriminate].
  intros [= Hwrite]. eexists h, _. split; [done |]. split; [done |].
  apply atomic_write_stores in Hwrite.
  split; [unfold load_json_safe; by rewrite Hwrite |].
  split; [| split; [| split]].
  - unfold field, dict_get, dict_of. simpl. by rewrite lookup_insert_eq.
  - unfold field, dict_get, dict_of. simpl.
    do 3 (rewrite lookup_insert_ne by done). by rewrite lookup_insert_eq.
  - unfold field, dict_get, dict_of. simpl.
    do 2 (rewrite lookup_insert_ne by done). by rewrite lookup_insert_eq.
  - intros Hrm. unfold delete_replay_file. by rewrite Hwrite, Hrm.
Qed.

Lemma replay_file_round_trip_witness :
  ∃ h replay,
    py_get session_with_hash "sessionHash" PNone = Ok h
    ∧ truthy h = true
    ∧ load_json_safe fs_with_replay (replay_path no_repr "data/replays" h) PNone
      = replay
    ∧ field replay "sessionHash" PNone = h
    ∧ field replay "gameState" PNone = session_with_hash
    ∧ field replay "metadata" PNone = sample_metadata
    ∧ (remove_raises operator_yes (replay_path no_repr "data/replays" h) = false →
       delete_replay_file no_repr operator_yes fs_with_replay h "data/replays"
       = (delete (replay_path no_repr "data/replays" h) fs_with_replay, true)).
Proof.
  apply (replay_file_round_trip no_repr env_ok operator_yes ∅ fs_with_replay
           session_with_hash sample_metadata PNone "data/replays").
  vm_compute; reflexivity.
Defined.

Lemma prefix_slash_append (h t : string) :
  h ≠ EmptyString → String.prefix "/" (h +:+ t) = String.prefix "/" h.
Proof. destruct h as [|a h]; [done |]. intros _. simpl. by destruct h, t. Qed.

(** X26: where the replay goes.  When nothing fails, for a session whose
    [sessionHash] is a non-empty string [h], [generate_replay_file] returns
    [True] and stores the replay under [output_dir/h.json] when [h] does not
    start with a slash ([output_dir] being non-empty and without a trailing
    slash); when [h] starts with a slash it stores it under [h.json],
    whatever [output_dir] is. *)
Theorem generate_replay_file_path (repr : pyval → string) (env : io_env)
    (fs : gmap string file) (d : gmap string pyval) (metadata votes : pyval)
    (dir h : string) :
  fault_at env = NoFault →
  dict_get d "sessionHash" PNone = PStr h →
  h ≠ EmptyString →
  ∃ fs1 replay,
    generate_replay_file repr env fs (PDict d) metadata votes dir
    = Ok (fs1, true)
    ∧ (String.prefix "/" h = true →
       fs1 !! (h +:+ ".json") = Some (JsonFile replay))
    ∧ (String.prefix "/" h = false → dir ≠ EmptyString →
       ends_with_slash dir = false →
       fs1 !! (dir +:+ "/" +:+ h +:+ ".json") = Some (JsonFile replay)).
Proof.
  intros Hfault Hh Hne.
  unfold generate_replay_file. cbn [py_get mbind res_bind]. rewrite Hh.
  assert (truthy (PStr h) = true) as ->.
  { simpl. by apply negb_true_iff, String.eqb_neq. }
  cbn [negb]. rewrite atomic_write_success by done.
  eexists _, _. split; [done |].
  unfold replay_path, os_path_join. cbn [format_value].
  rewrite prefix_slash_append by done. split.
  - intros ->. by rewrite lookup_insert_eq.
  - intros -> Hdir Hslash. rewrite Hslash.
    apply String.eqb_neq in Hdir. rewrite Hdir. cbn [orb].
    by rewrite lookup_insert_eq.
Qed.

Lemma generate_replay_file_path_witness :
  ∃ fs1 replay,
    generate_replay_file no_repr env_ok ∅ (PDict session_with_absolute_hash)
      sample_metadata PNone "data/replays"
    = Ok (fs1, true)
    ∧ (String.prefix "/" "/tmp/abc123" = true →
       fs1 !! ("/tmp/abc123" +:+ ".json") = Some (JsonFile replay))
    ∧ (String.prefix "/" "/tmp/abc123" = false → "data/replays" ≠ EmptyString →
       ends_with_slash "data/replays" = false →
       fs1 !! ("data/replays" +:+ "/" +:+ "/tmp/abc123" +:+ ".json")
       = Some (JsonFile replay)).
Proof.
  apply (generate_replay_file_path no_repr env_ok ∅ session_with_absolute_hash
           sample_metadata PNone "data/replays" "/tmp/abc123").
  - reflexivity.
  - vm_compute; reflexivity.
  - discriminate.
Defined.

(** ** The schema checks *)

Lemma score_field_errors_nil (i : nat) (d : gmap string pyval) (k : string) :
  score_field_errors i d k = [] ↔ has_key (PDict d) k = true.
Proof.
  unfold score_field_errors, has_key.
  destruct (d !! k); split; (reflexivity || discriminate).
Qed.

Lemma concat_map_nil {A B} (f : A → list B) (l : list A) :
  concat (map f l) = [] ↔ Forall (λ x, f x = []) l.
Proof.
  induction l as [|x l IH]; simpl.
  - split; [constructor | reflexivity].
  - rewrite app_nil_iff, IH, Forall_cons. tauto.
Qed.

Lemma forallb_iff_Forall {A} (f : A → bool) (l : list A) :
  forallb f l = true ↔ Forall (λ x, f x = true) l.
Proof.
  split; [apply forallb_Forall |].
  induction 1 as [|x l Hx _ IH]; [done |]. simpl. by rewrite Hx, IH.
Qed.

Lemma score_errors_nil (i : nat) (s : pyval) :
  score_errors i s = []
  ↔ has_keys ["rank"; "sessionHash"; "userId"; "initials"; "wpm"; "accuracy";
              "stage"] s = true.
Proof.
  unfold score_errors, has_keys.
  destruct s as [| | | | |d]; try (split; discriminate).
  cbn [is_dict andb].
  rewrite concat_map_nil, forallb_iff_Forall.
  apply Forall_proper; [| done]. intros k. apply score_field_errors_nil.
Qed.

Lemma version_errors_nil (repr : pyval → string) (d : gmap string pyval) :
  version_errors repr d = [] ↔ version_is_1 d = true.
Proof.
  unfold version_errors, version_is_1.
  destruct (d !! "version") as [v|]; [| split; discriminate].
  destruct (py_eq v (PInt 1)); split; (reflexivity || discriminate).
Qed.

(** X27: the leaderboard schema check reports no error exactly for an
    object whose [version] equals 1, whose [generated] is a number and whose
    [scores] is a list of objects that each have [rank], [sessionHash],
    [userId], [initials], [wpm], [accuracy] and [stage]; the values of these
    seven fields are not looked at. *)
Theorem validate_leaderboard_schema_accepts (repr : pyval → string)
    (data : pyval) :
  validate_leaderboard_schema repr data = []
  ↔ leaderboard_schema_ok data = true.
Proof.
  unfold validate_leaderboard_schema, leaderboard_schema_ok.
  destruct data as [| | | | |d]; try (split; discriminate).
  rewrite !app_nil_iff, !andb_true_iff, version_errors_nil, Logic.and_assoc.
  apply and_iff_compat_l.
  destruct (d !! "generated") as [g|]; [| split; intros [H _]; discriminate H].
  destruct (d !! "scores") as [[| | | |scores|]|];
    try (split; intros [_ H]; discriminate H).
  assert (concat (imap score_errors scores) = []
          ↔ forallb (has_keys ["rank"; "sessionHash"; "userId"; "initials";
                               "wpm"; "accuracy"; "stage"]) scores = true)
    as ->.
  { rewrite forallb_iff_Forall. apply concat_imap_nil_Forall.
    intros i x. apply score_errors_nil. }
  apply and_iff_compat_r.
  destruct (is_number g); split; (reflexivity || discriminate).
Qed.

Lemma validate_leaderboard_schema_accepts_witness :
  validate_leaderboard_schema no_repr (PDict three_leaderboard) = []
  ↔ leaderboard_schema_ok (PDict three_leaderboard) = true.
Proof.
  apply (validate_leaderboard_schema_accepts no_repr (PDict three_leaderboard)).
Defined.

Lemma leaderboard_doc_fields (now : Z) (top : list pyval) :
  ∃ d, leaderboard_doc now top = PDict d
       ∧ d !! "version" = Some (PInt 1)
       ∧ d !! "generated" = Some (PInt now)
       ∧ d !! "scores" = Some (PList top).
Proof.
  eexists. split; [reflexivity |]. unfold dict_of. simpl.
  split; [by rewrite lookup_insert_eq |].
  split.
  - rewrite lookup_insert_ne by done. by rewrite lookup_insert_eq.
  - rewrite lookup_insert_ne by done. rewrite lookup_insert_ne by done.
    by rewrite lookup_insert_eq.
Qed.

Lemma has_key_rank (r : Z) (x : pyval) :
  is_dict x = true → has_key (set_rank r x) "rank" = true.
Proof.
  destruct x as [| | | | |d]; try discriminate. intros _.
  simpl. by rewrite lookup_insert_eq.
Qed.

Lemma has_key_session_hash (x : pyval) :
  truthy (session_hash_of x) = true → has_key x "sessionHash" = true.
Proof.
  destruct x as [| | | | |d]; try discriminate.
  unfold session_hash_of, field, dict_get, has_key.
  by destruct (d !! "sessionHash").
Qed.

(** X28: the leaderboard a merge returns, whatever the merge was given,
    passes the schema check exactly when each of its entries has [userId],
    [initials], [wpm], [accuracy] and [stage]: the merge itself provides the
    [rank] and only keeps entries with a [sessionHash]. *)
Theorem merged_leaderboard_schema (repr : pyval → string)
    (fs : gmap string file) (now : Z) (scores : list pyval) (path : string)
    (N : Z) (lb : pyval) :
  generate_leaderboard fs now scores path N = Ok lb →
  ∃ top,
    lb = leaderboard_doc now top
    ∧ (validate_leaderboard_schema repr lb = []
       ↔ forallb (has_keys ["userId"; "initials"; "wpm"; "accuracy"; "stage"])
           top = true).
Proof.
  intros (kept & -> & _ & Hdict & _ & Hhash)%generate_leaderboard_shape.
  exists (with_ranks 1 kept). split; [done |].
  destruct (leaderboard_doc_fields now (with_ranks 1 kept))
    as (d & -> & Hv & Hg & Hs).
  unfold validate_leaderboard_schema, version_errors.
  rewrite Hv, Hg, Hs. cbn [py_eq is_number as_int app]. rewrite Z.eqb_refl.
  cbn [app].
  rewrite forallb_iff_Forall, concat_imap_nil, Forall_lookup.
  assert (∀ i e, with_ranks 1 kept !! i = Some e →
                 score_errors i e = []
                 ↔ has_keys ["userId"; "initials"; "wpm"; "accuracy"; "stage"] e
                   = true) as Hiff.
  { intros i e Hi. rewrite score_errors_nil.
    assert (e ∈ with_ranks 1 kept) as Hin by (by eapply list_elem_of_lookup_2).
    rewrite Forall_forall in Hhash. destruct (Hhash e Hin) as [_ Ht].
    apply has_key_session_hash in Ht.
    apply elem_of_with_ranks in Hin as (j & x & Hx & ->).
    rewrite Forall_forall in Hdict.
    assert (has_key (set_rank (1 + Z.of_nat j) x) "rank" = true) as Hr.
    { apply has_key_rank, Hdict. by eapply list_elem_of_lookup_2. }
    unfold has_keys. cbn [forallb]. by rewrite Hr, Ht. }
  split; intros Hall i e Hi; apply (Hiff i e Hi), (Hall i e Hi).
Qed.

Lemma merged_leaderboard_schema_witness :
  ∃ top,
    leaderboard_doc 7 (with_ranks 1 test_scores) = leaderboard_doc 7 top
    ∧ (validate_leaderboard_schema no_repr
         (leaderboard_doc 7 (with_ranks 1 test_scores)) = []
       ↔ forallb (has_keys ["userId"; "initials"; "wpm"; "accuracy"; "stage"])
           top = true).
Proof.
  apply (merged_leaderboard_schema no_repr ∅ 7 test_scores leaderboard_path 50).
  vm_compute; reflexivity.
Defined.

Lemma item_field_errors_nil (i : nat) (d : gmap string pyval) (k : string) :
  item_field_errors i d k = []
  ↔ has_key (PDict d) k || has_key (PDict d) (k +:+ "Id") = true.
Proof.
  unfold item_field_errors, has_key.
  destruct (d !! k), (d !! (k +:+ "Id")); split; (reflexivity || discriminate).
Qed.

Lemma item_errors_nil (repr : pyval → string) (i : nat) (item : pyval) :
  item_errors repr i item = [] ↔ item_ok item = true.
Proof.
  unfold item_errors, item_ok.
  destruct item as [| | | | |d]; try (split; discriminate).
  cbn [is_dict andb].
  rewrite app_nil_iff, andb_true_iff, concat_map_nil, forallb_iff_Forall.
  assert (item_type_errors repr i d = []
          ↔ match d !! "type" with
            | Some t => py_eq t (PStr "bug") || py_eq t (PStr "feature")
            | None => true
            end = true) as ->.
  { unfold item_type_errors. destruct (d !! "type") as [t|]; [| done].
    destruct (py_eq t (PStr "bug") || py_eq t (PStr "feature"));
      split; (reflexivity || discriminate). }
  apply and_iff_compat_r.
  apply Forall_proper; [| done]. intros k. apply item_field_errors_nil.
Qed.

(** X29: the feedback schema check reports no error exactly for an object
    whose [version] equals 1, that has [generated], and whose [items] is a
    list of objects in which each of [id], [type], [description] and
    [userId] is present under its own name or with [Id] appended, and in
    which [type], when present, equals [bug] or [feature].  So [feedbackId]
    does not stand in for [id]. *)
Theorem validate_feedback_schema_accepts (repr : pyval → string)
    (data : pyval) :
  validate_feedback_schema repr data = [] ↔ feedback_schema_ok data = true.
Proof.
  unfold validate_feedback_schema, feedback_schema_ok.
  destruct data as [| | | | |d]; try (split; discriminate).
  rewrite !app_nil_iff, !andb_true_iff, version_errors_nil, Logic.and_assoc.
  apply and_iff_compat_l.
  destruct (d !! "generated") as [g|]; [| split; intros [H _]; discriminate H].
  destruct (d !! "items") as [[| | | |items|]|];
    try (split; intros [_ H]; discriminate H).
  assert (concat (imap (item_errors repr) items) = []
          ↔ forallb item_ok items = true) as ->.
  { rewrite forallb_iff_Forall. apply concat_imap_nil_Forall.
    intros i x. apply item_errors_nil. }
  tauto.
Qed.

Lemma validate_feedback_schema_accepts_witness :
  (validate_feedback_schema no_repr test_feedback_doc = []
   ↔ feedback_schema_ok test_feedback_doc = true)
  ∧ feedback_schema_ok test_feedback_doc = false.
Proof.
  split.
  - apply (validate_feedback_schema_accepts no_repr test_feedback_doc).
  - vm_compute; reflexivity.
Defined.
